(** * Block driver for the Virtual Disk Image (VDI) format

    A shallow embedding of [block/vdi.c]: the header and its byte-order
    conversions, [vdi_probe], [vdi_open], [vdi_create], the synchronous
    [vdi_read] / [vdi_write] loops and the write callback of the
    asynchronous path, [vdi_aio_write_cb].

    Conventions.
    - A [uintN_t] is a [Z] in [0, 2^N); wrap-around is written out where the
      C code can wrap.
    - A byte buffer is a [list byte]; a pointer that is advanced
      ([buf += n]) is the list with its first [n] bytes dropped.
    - [size_t] is taken to be 64 bits wide.
    - The host byte order is a parameter [be] ([true] on a big-endian host);
      the conversions [le32_to_cpu], [cpu_to_le32], ... of QEMU's bswap.h
      swap bytes exactly when [be] holds.
    - The image file [s->hd] is threaded through the functions as an explicit
      [Host] value.  *)

From Stdlib Require Import ZArith List Lia Bool String Sorted.
From coqutil Require Import Byte Word.LittleEndianList.
Import ListNotations.
Local Open Scope Z_scope.

(** ** Constants of the driver *)

Definition KiB : Z := 1024.
Definition MiB : Z := KiB * KiB.
Definition SECTOR_SIZE : Z := 512.
Definition VDI_SIGNATURE : Z := 0xbeda107f.
Definition VDI_VERSION_1_1 : Z := 0x00010001.
Definition VDI_TYPE_DYNAMIC : Z := 1.
Definition VDI_TYPE_STATIC : Z := 2.
Definition VDI_UNALLOCATED : Z := 0xffffffff.

(** [VDI_TEXT], with the trailing line feed of the C literal. *)
Definition VDI_TEXT : string :=
  String.append "<<< QEMU VM Virtual Disk Image >>>"
                (String (Ascii.ascii_of_nat 10) EmptyString).

Definition BLOCK_OPT_STATIC : string := "static".

(** Modelled from the spec: [BLOCK_OPT_SIZE] is declared in block_int.h,
    which is not part of the sources; the spec names the option [size]. *)
Definition BLOCK_OPT_SIZE : string := "size".

Definition UINT32_MOD : Z := 2 ^ 32.
Definition UINT64_MOD : Z := 2 ^ 64.

(** Conversion of a (possibly negative) [int] to [size_t]. *)
Definition to_size_t (x : Z) : Z := x mod UINT64_MOD.

(** ** Byte order *)

Module Endian.

(** [bswap32] / [bswap64] on an [n]-byte unsigned value. *)
Definition bswap (n : nat) (x : Z) : Z := le_combine (rev (le_split n x)).

(** Modelled from the spec: [cpu_to_le32], [cpu_to_le64], [le32_to_cpu]
    and [le64_to_cpu] come from bswap.h, which is not part of the sources.
    They convert between host order and little-endian: the identity on a
    little-endian host, a byte swap on a big-endian one. *)
Definition cpu_to_le (be : bool) (n : nat) (x : Z) : Z :=
  if be then bswap n x else x.
Definition le_to_cpu (be : bool) (n : nat) (x : Z) : Z :=
  if be then bswap n x else x.

(** The [n] bytes an unsigned value occupies in host memory, and the value
    a host load of those bytes yields. *)
Definition mem_bytes (be : bool) (n : nat) (x : Z) : list byte :=
  if be then rev (le_split n x) else le_split n x.
Definition mem_load (be : bool) (bs : list byte) : Z :=
  if be then le_combine (rev bs) else le_combine bs.

End Endian.
Import Endian.

(** ** Buffers *)

(** [slice buf off n]: the [n] bytes of [buf] from offset [off]; bytes past
    the end of [buf] read as zero. *)
Definition slice (buf : list byte) (off n : nat) : list byte :=
  firstn n (skipn off buf ++ repeat Byte.x00 n).

(** A [char\[n\]] array holding [l]. *)
Definition fixlen (n : nat) (l : list byte) : list byte := slice l 0 n.

(** [memset(buf, 0, n)] *)
Definition memset0 (buf : list byte) (n : Z) : list byte :=
  repeat Byte.x00 (Z.to_nat n) ++ skipn (Z.to_nat n) buf.

(** [memcpy(dst + off, src, n)] *)
Definition memcpy_at (dst : list byte) (off : Z) (src : list byte) (n : Z)
  : list byte :=
  firstn (Z.to_nat off) dst ++ slice src 0 (Z.to_nat n)
    ++ skipn (Z.to_nat (off + n)) dst.

(** [qemu_mallocz(n)] *)
Definition qemu_mallocz (n : Z) : list byte := repeat Byte.x00 (Z.to_nat n).

(** ** The header *)

Record VdiHeader : Type := mkVdiHeader {
  text : list byte;            (* char text[0x40] *)
  signature : Z;
  version : Z;
  header_size : Z;
  image_type : Z;
  image_flags : Z;
  description : list byte;     (* char description[256] *)
  offset_blockmap : Z;
  offset_data : Z;
  cylinders : Z;
  heads : Z;
  sectors : Z;
  sector_size : Z;
  unused1 : Z;
  disk_size : Z;               (* uint64_t *)
  block_size : Z;
  block_extra : Z;
  blocks_in_image : Z;
  blocks_allocated : Z;
  uuid_image : list byte;      (* uuid_t: 16 bytes *)
  uuid_last_snap : list byte;
  uuid_link : list byte;
  uuid_parent : list byte;
  unused2 : list Z             (* uint64_t unused2[7] *)
}.

Definition sizeof_VdiHeader : Z := 512.

(** Apply [f] to the sixteen scalar fields that [vdi_header_to_cpu] and
    [vdi_header_to_le] convert; [f n] acts on an [n]-byte field.  The
    fields [unused1] and [unused2] are not converted. *)
Definition map_scalars (f : nat -> Z -> Z) (h : VdiHeader) : VdiHeader :=
  {| text := text h;
     signature := f 4%nat (signature h);
     version := f 4%nat (version h);
     header_size := f 4%nat (header_size h);
     image_type := f 4%nat (image_type h);
     image_flags := f 4%nat (image_flags h);
     description := description h;
     offset_blockmap := f 4%nat (offset_blockmap h);
     offset_data := f 4%nat (offset_data h);
     cylinders := f 4%nat (cylinders h);
     heads := f 4%nat (heads h);
     sectors := f 4%nat (sectors h);
     sector_size := f 4%nat (sector_size h);
     unused1 := unused1 h;
     disk_size := f 8%nat (disk_size h);
     block_size := f 4%nat (block_size h);
     block_extra := f 4%nat (block_extra h);
     blocks_in_image := f 4%nat (blocks_in_image h);
     blocks_allocated := f 4%nat (blocks_allocated h);
     uuid_image := uuid_image h;
     uuid_last_snap := uuid_last_snap h;
     uuid_link := uuid_link h;
     uuid_parent := uuid_parent h;
     unused2 := unused2 h |}.

Definition vdi_header_to_cpu (be : bool) (h : VdiHeader) : VdiHeader :=
  map_scalars (le_to_cpu be) h.

Definition vdi_header_to_le (be : bool) (h : VdiHeader) : VdiHeader :=
  map_scalars (cpu_to_le be) h.

(** The 512 bytes of a [VdiHeader] object in host memory
    ([(uint8_t * )&header]). *)
Definition header_mem (be : bool) (h : VdiHeader) : list byte :=
  fixlen 64 (text h)
  ++ mem_bytes be 4 (signature h)
  ++ mem_bytes be 4 (version h)
  ++ mem_bytes be 4 (header_size h)
  ++ mem_bytes be 4 (image_type h)
  ++ mem_bytes be 4 (image_flags h)
  ++ fixlen 256 (description h)
  ++ mem_bytes be 4 (offset_blockmap h)
  ++ mem_bytes be 4 (offset_data h)
  ++ mem_bytes be 4 (cylinders h)
  ++ mem_bytes be 4 (heads h)
  ++ mem_bytes be 4 (sectors h)
  ++ mem_bytes be 4 (sector_size h)
  ++ mem_bytes be 4 (unused1 h)
  ++ mem_bytes be 8 (disk_size h)
  ++ mem_bytes be 4 (block_size h)
  ++ mem_bytes be 4 (block_extra h)
  ++ mem_bytes be 4 (blocks_in_image h)
  ++ mem_bytes be 4 (blocks_allocated h)
  ++ fixlen 16 (uuid_image h)
  ++ fixlen 16 (uuid_last_snap h)
  ++ fixlen 16 (uuid_link h)
  ++ fixlen 16 (uuid_parent h)
  ++ List.concat (map (mem_bytes be 8) (firstn 7 (unused2 h ++ repeat 0 7))).

(** The [VdiHeader] object that a 512-byte buffer is when read through a
    [VdiHeader *]. *)
Definition header_of_mem (be : bool) (buf : list byte) : VdiHeader :=
  let u32 off := mem_load be (slice buf off 4) in
  let u64 off := mem_load be (slice buf off 8) in
  {| text := slice buf 0 64;
     signature := u32 64%nat;
     version := u32 68%nat;
     header_size := u32 72%nat;
     image_type := u32 76%nat;
     image_flags := u32 80%nat;
     description := slice buf 84 256;
     offset_blockmap := u32 340%nat;
     offset_data := u32 344%nat;
     cylinders := u32 348%nat;
     heads := u32 352%nat;
     sectors := u32 356%nat;
     sector_size := u32 360%nat;
     unused1 := u32 364%nat;
     disk_size := u64 368%nat;
     block_size := u32 376%nat;
     block_extra := u32 380%nat;
     blocks_in_image := u32 384%nat;
     blocks_allocated := u32 388%nat;
     uuid_image := slice buf 392 16;
     uuid_last_snap := slice buf 408 16;
     uuid_link := slice buf 424 16;
     uuid_parent := slice buf 440 16;
     unused2 := map (fun i => u64 (456 + 8 * i)%nat) (seq 0 7) |}.

(** ** [vdi_probe] *)

Definition vdi_probe (be : bool) (buf : list byte) (buf_size : Z) : Z :=
  let header := header_of_mem be buf in
  let result := 0 in
  let result :=
    if to_size_t buf_size <? sizeof_VdiHeader then
      (* Header too small, no VDI. *)
      result
    else if le_to_cpu be 4 (signature header) =? VDI_SIGNATURE then
      100
    else result in
  result.

(** ** The image file *)

Inductive io_req : Type :=
| IoRead (sector_num nb_sectors : Z)
| IoWrite (sector_num nb_sectors : Z).

(** The file behind [s->hd]: its bytes, the outcome of the requests to come
    ([true]: the request fails) and the requests issued so far, latest
    first. *)
Record Host : Type := mkHost {
  disk : Z -> byte;
  faults : list bool;
  trace : list io_req
}.

Definition disk_bytes (d : Z -> byte) (off : Z) (n : nat) : list byte :=
  map (fun i => d (off + Z.of_nat i)) (seq 0 n).

Definition disk_store (d : Z -> byte) (off : Z) (src : list byte) (n : Z)
  : Z -> byte :=
  fun a =>
    if (off <=? a) && (a <? off + n)
    then nth (Z.to_nat (a - off)) src Byte.x00
    else d a.

Definition next_fault (hd : Host) : bool :=
  match faults hd with
  | f :: _ => f
  | [] => false
  end.

(** Modelled from the spec: [bdrv_read] and [bdrv_write] belong to the block
    layer (block.c), which is not part of the sources.  They are the
    positional sector read and write of the host file collaborator; a
    request either fails with a negative result, leaving file and buffer as
    they were, or transfers [nb_sectors * 512] bytes. *)
Definition bdrv_read (hd : Host) (sector_num : Z) (buf : list byte)
    (nb_sectors : Z) : Z * list byte * Host :=
  let hd' := {| disk := disk hd; faults := tl (faults hd);
                trace := IoRead sector_num nb_sectors :: trace hd |} in
  if next_fault hd then (-1, buf, hd')
  else
    let n := Z.to_nat (nb_sectors * SECTOR_SIZE) in
    (0, disk_bytes (disk hd) (sector_num * SECTOR_SIZE) n ++ skipn n buf, hd').

Definition bdrv_write (hd : Host) (sector_num : Z) (buf : list byte)
    (nb_sectors : Z) : Z * Host :=
  let tr := IoWrite sector_num nb_sectors :: trace hd in
  if next_fault hd then
    (-1, {| disk := disk hd; faults := tl (faults hd); trace := tr |})
  else
    (0, {| disk := disk_store (disk hd) (sector_num * SECTOR_SIZE) buf
                              (nb_sectors * SECTOR_SIZE);
           faults := tl (faults hd); trace := tr |}).

(** ** Driver state *)

Module BDRV.
(** [BDRVVdiState] without [hd].  The block map words are kept as they
    sit in memory: little endian, whatever the host. *)
Record BDRVVdiState : Type := mkState {
  blockmap : list Z;
  block_size : Z;
  block_sectors : Z;
  header : VdiHeader
}.
End BDRV.

Record BlockDriverState : Type := mkBDS {
  total_sectors : Z;
  opaque : BDRV.BDRVVdiState
}.

Definition set_blocks_allocated (h : VdiHeader) (v : Z) : VdiHeader :=
  {| text := text h; signature := signature h; version := version h;
     header_size := header_size h; image_type := image_type h;
     image_flags := image_flags h; description := description h;
     offset_blockmap := offset_blockmap h; offset_data := offset_data h;
     cylinders := cylinders h; heads := heads h; sectors := sectors h;
     sector_size := sector_size h; unused1 := unused1 h;
     disk_size := disk_size h; block_size := block_size h;
     block_extra := block_extra h; blocks_in_image := blocks_in_image h;
     blocks_allocated := v;
     uuid_image := uuid_image h; uuid_last_snap := uuid_last_snap h;
     uuid_link := uuid_link h; uuid_parent := uuid_parent h;
     unused2 := unused2 h |}.

Definition set_header (s : BDRV.BDRVVdiState) (h : VdiHeader) : BDRV.BDRVVdiState :=
  {| BDRV.blockmap := BDRV.blockmap s; BDRV.block_size := BDRV.block_size s;
     BDRV.block_sectors := BDRV.block_sectors s; BDRV.header := h |}.

Definition set_blockmap (s : BDRV.BDRVVdiState) (m : list Z) : BDRV.BDRVVdiState :=
  {| BDRV.blockmap := m; BDRV.block_size := BDRV.block_size s;
     BDRV.block_sectors := BDRV.block_sectors s;
     BDRV.header := BDRV.header s |}.

Definition set_opaque (bs : BlockDriverState) (s : BDRV.BDRVVdiState)
  : BlockDriverState :=
  {| total_sectors := total_sectors bs; opaque := s |}.

(** [a\[i\] = v] on an array held as a list. *)
Fixpoint array_set (a : list Z) (i : nat) (v : Z) : list Z :=
  match a, i with
  | [], _ => []
  | _ :: t, O => v :: t
  | x :: t, S j => x :: array_set t j v
  end.

(** The bytes of a [uint32_t] array in host memory, and the array that a
    byte buffer is when read through a [uint32_t *]. *)
Definition words_mem (be : bool) (a : list Z) : list byte :=
  List.concat (map (mem_bytes be 4) a).

Definition words_of_mem (be : bool) (buf : list byte) (n : nat) : list Z :=
  map (fun i => mem_load be (slice buf (4 * i) 4)) (seq 0 n).

(** ** [vdi_open] *)

(** [open_ret] is the result of [bdrv_file_open] and [hd] the file it
    opened; [heap] is the content of the memory [qemu_malloc] returns for
    the block map.  The result is the return value, the state of the opened
    image when there is one, and the file. *)
Definition vdi_open (be : bool) (open_ret : Z) (hd : Host) (heap : list byte)
  : Z * option BlockDriverState * Host :=
  let ret := open_ret in
  if ret <? 0 then (ret, None, hd)
  else
    let '(r, hbuf, hd) := bdrv_read hd 0 (repeat Byte.x00 512) 1 in
    if r <? 0 then (-1, None, hd)
    else
      let header := header_of_mem be hbuf in
      let header := vdi_header_to_cpu be header in
      if negb (version header =? VDI_VERSION_1_1) then (-1, None, hd)
      else if negb (offset_blockmap header mod SECTOR_SIZE =? 0) then
        (* We only support blockmaps which start on a sector boundary. *)
        (-1, None, hd)
      else if negb (offset_data header mod SECTOR_SIZE =? 0) then
        (* We only support data blocks which start on a sector boundary. *)
        (-1, None, hd)
      else if negb (sector_size header =? SECTOR_SIZE) then (-1, None, hd)
      else if negb (block_size header =? 1 * MiB) then (-1, None, hd)
      else if negb (disk_size header =?
                    (blocks_in_image header * block_size header)
                      mod UINT64_MOD) then (-1, None, hd)
      else
        let total := disk_size header / SECTOR_SIZE in
        let blockmap_size := to_size_t (blocks_in_image header * 4) in
        let mem := slice heap 0 (Z.to_nat blockmap_size) in
        let '(r, mem, hd) :=
          bdrv_read hd (offset_blockmap header / SECTOR_SIZE) mem
                    (blockmap_size / SECTOR_SIZE) in
        if r <? 0 then (-1, None, hd)
        else
          let s := {| BDRV.blockmap :=
                        words_of_mem be mem
                          (Z.to_nat (blocks_in_image header));
                      BDRV.block_size := block_size header;
                      BDRV.block_sectors := block_size header / SECTOR_SIZE;
                      BDRV.header := header |} in
          (0, Some {| total_sectors := total; opaque := s |}, hd).

(** ** [vdi_create] *)

(** One entry of the [QEMUOptionParameter] array: its name and [value.n]. *)
Definition option_param : Type := string * Z.

(** The option loop of [vdi_create]: the resulting [bytes] and
    [image_type]. *)
Fixpoint read_options (options : list option_param) (bytes image_type : Z)
  : Z * Z :=
  match options with
  | [] => (bytes, image_type)
  | (name, n) :: options =>
    if String.eqb name BLOCK_OPT_SIZE then
      read_options options n image_type
    else if String.eqb name BLOCK_OPT_STATIC then
      read_options options bytes VDI_TYPE_STATIC
    else read_options options bytes image_type
  end.

(** The header [vdi_create] fills in, before its conversion to little
    endian.  [uuid1] and [uuid2] are what [uuid_generate] yields (zeros when
    built without uuid support). *)
Definition create_header (bytes image_type block_size blocks blockmap_size : Z)
    (uuid1 uuid2 : list byte) : VdiHeader :=
  {| text := fixlen 64 (list_byte_of_string VDI_TEXT);
     signature := VDI_SIGNATURE;
     version := VDI_VERSION_1_1;
     header_size := 0x180;
     image_type := image_type;
     image_flags := 0;
     description := repeat Byte.x00 256;
     offset_blockmap := 0x200;
     offset_data := (0x200 + blockmap_size) mod UINT32_MOD;
     cylinders := 0; heads := 0; sectors := 0;
     sector_size := SECTOR_SIZE;
     unused1 := 0;
     disk_size := bytes;
     block_size := block_size mod UINT32_MOD;
     block_extra := 0;
     blocks_in_image := blocks;
     blocks_allocated := 0;
     uuid_image := fixlen 16 uuid1;
     uuid_last_snap := fixlen 16 uuid2;
     uuid_link := repeat Byte.x00 16;
     uuid_parent := repeat Byte.x00 16;
     unused2 := repeat 0 7 |}.

(** The block map buffer [vdi_create] writes: [blockmap_size] zero bytes
    whose first [blocks] words are set to [VDI_UNALLOCATED]. *)
Definition create_blockmap (be : bool) (blocks blockmap_size : Z)
  : list byte :=
  let n := Z.to_nat blocks in
  slice (words_mem be (repeat VDI_UNALLOCATED n)
           ++ skipn (4 * n) (qemu_mallocz blockmap_size))
        0 (Z.to_nat blockmap_size).

(** [fd_ok] tells whether [open] gave a descriptor.  The result is the
    return value and the bytes written to the new file, in order (the
    results of [write] are not looked at by the code). *)
Definition vdi_create (be : bool) (fd_ok : bool) (uuid1 uuid2 : list byte)
    (options : list option_param) : Z * list byte :=
  let block_size := 1 * MiB in
  let '(bytes, image_type) := read_options options 0 VDI_TYPE_DYNAMIC in
  if negb fd_ok then (-1, [])
  else
    let blocks := (bytes / block_size) mod UINT32_MOD in
    let blockmap_size := to_size_t (blocks * 4) in
    let blockmap_size :=
      Z.land (to_size_t (blockmap_size + SECTOR_SIZE - 1))
             (to_size_t (Z.lnot (SECTOR_SIZE - 1))) in
    let header :=
      create_header bytes image_type block_size blocks blockmap_size
                    uuid1 uuid2 in
    let header := vdi_header_to_le be header in
    (0, header_mem be header ++ create_blockmap be blocks blockmap_size).

(** ** [vdi_read] *)

(** In the loops below [None] stands for behaviour C leaves undefined: a
    division by [s->block_sectors = 0], an access outside the block map or
    outside the block buffer, and (never reached) the end of the fuel.  The
    buffer a function returns is the memory from its [buf] argument on.
    [vdi_read] and [vdi_write] return at once for a negative [sector_num],
    so that the [/] and [%] of their loops are [Z.div] and [Z.modulo]; the
    asynchronous path has no such test and uses [Z.quot] and [Z.rem]. *)

Fixpoint vdi_read_loop (be : bool) (fuel : nat) (bs : BlockDriverState)
    (hd : Host) (sector_num : Z) (buf : list byte) (nb_sectors : Z)
  : option (Z * list byte * Host) :=
  if (nb_sectors >? 0) && (sector_num <? total_sectors bs) then
    match fuel with
    | O => None
    | S fuel =>
      let s := opaque bs in
      if BDRV.block_sectors s =? 0 then None else
      let block_index := sector_num / BDRV.block_sectors s in
      let sector_in_block := sector_num mod BDRV.block_sectors s in
      let n_sectors := BDRV.block_sectors s - sector_in_block in
      let n_sectors :=
        if n_sectors >? nb_sectors then nb_sectors else n_sectors in
      match nth_error (BDRV.blockmap s) (Z.to_nat block_index) with
      | None => None
      | Some w =>
        let blockmap_entry := le_to_cpu be 4 w in
        let '(r, buf, hd) :=
          if blockmap_entry =? VDI_UNALLOCATED then
            (* Block not allocated, return zeros. *)
            (0, memset0 buf (n_sectors * SECTOR_SIZE), hd)
          else
            let offset :=
              (offset_data (BDRV.header s) / SECTOR_SIZE
               + blockmap_entry * BDRV.block_sectors s
               + sector_in_block) mod UINT64_MOD in
            bdrv_read hd offset buf n_sectors in
        if r <? 0 then Some (-1, buf, hd)
        else
          let len := Z.to_nat (n_sectors * SECTOR_SIZE) in
          match vdi_read_loop be fuel bs hd (sector_num + n_sectors)
                              (skipn len buf) (nb_sectors - n_sectors) with
          | None => None
          | Some (r, rest, hd) => Some (r, firstn len buf ++ rest, hd)
          end
      end
    end
  else Some (0, buf, hd).

Definition vdi_read (be : bool) (bs : BlockDriverState) (hd : Host)
    (sector_num : Z) (buf : list byte) (nb_sectors : Z)
  : option (Z * list byte * Host) :=
  if sector_num <? 0 then Some (-1, buf, hd)
  else vdi_read_loop be (Z.to_nat nb_sectors) bs hd sector_num buf nb_sectors.

(** ** [vdi_write] *)

(** The bytes of the block map from entry [i] on
    ([(uint8_t * )&s->blockmap\[i\]]).  The write of a map sector hands 512
    bytes from there to the file; where the block map ends before them, the
    code hands over the memory that follows the array, which is not part of
    the state: [bdrv_write] and [slice] take those bytes as zero. *)
Definition blockmap_mem (be : bool) (s : BDRV.BDRVVdiState) (i : Z)
  : list byte :=
  words_mem be (skipn (Z.to_nat i) (BDRV.blockmap s)).

(** The body of the loop of [vdi_write] for the sectors from [sector_num]
    on: the result is the return value so far (negative when the function
    returns at once), [n_sectors], the state and the file. *)
Definition vdi_write_block (be : bool) (bs : BlockDriverState) (hd : Host)
    (sector_num : Z) (buf : list byte) (nb_sectors : Z)
  : option (Z * Z * BlockDriverState * Host) :=
  let s := opaque bs in
  if BDRV.block_sectors s =? 0 then None else
  let block_index := sector_num / BDRV.block_sectors s in
  let sector_in_block := sector_num mod BDRV.block_sectors s in
  let n_sectors := BDRV.block_sectors s - sector_in_block in
  let n_sectors := if n_sectors >? nb_sectors then nb_sectors else n_sectors in
  match nth_error (BDRV.blockmap s) (Z.to_nat block_index) with
  | None => None
  | Some w =>
    let blockmap_entry := le_to_cpu be 4 w in
    if blockmap_entry =? VDI_UNALLOCATED then
      (* Allocate new block and write to it. *)
      let blockmap_entry := blocks_allocated (BDRV.header s) in
      let s := set_blockmap s (array_set (BDRV.blockmap s)
                                 (Z.to_nat block_index)
                                 (cpu_to_le be 4 blockmap_entry)) in
      let s := set_header s
                 (set_blocks_allocated (BDRV.header s)
                    ((blocks_allocated (BDRV.header s) + 1) mod UINT32_MOD)) in
      let offset :=
        (offset_data (BDRV.header s) / SECTOR_SIZE
         + blockmap_entry * BDRV.block_sectors s) mod UINT64_MOD in
      if BDRV.block_size s <? BDRV.block_sectors s * SECTOR_SIZE then None
      else
      let block := qemu_mallocz (BDRV.block_size s) in
      let block := memcpy_at block (sector_in_block * SECTOR_SIZE)
                             buf (n_sectors * SECTOR_SIZE) in
      let '(r, hd) := bdrv_write hd offset block (BDRV.block_sectors s) in
      if r <? 0 then Some (-1, n_sectors, set_opaque bs s, hd)
      else
        (* Write modified sector from block map. *)
        let blockmap_entry :=
          Z.land blockmap_entry (Z.lnot (SECTOR_SIZE / 4 - 1)) in
        let offset :=
          (offset_blockmap (BDRV.header s) / SECTOR_SIZE
           + blockmap_entry / (SECTOR_SIZE / 4)) mod UINT64_MOD in
        let '(r, hd) :=
          bdrv_write hd offset (blockmap_mem be s blockmap_entry) 1 in
        if r <? 0 then Some (-1, n_sectors, set_opaque bs s, hd)
        else
          (* Write modified header (blocks_allocated). *)
          let s := set_header s (vdi_header_to_le be (BDRV.header s)) in
          let '(r, hd) := bdrv_write hd 0 (header_mem be (BDRV.header s)) 1 in
          if r <? 0 then
            let s := set_header s (vdi_header_to_cpu be (BDRV.header s)) in
            Some (-1, n_sectors, set_opaque bs s, hd)
          else
            let s := set_header s (vdi_header_to_cpu be (BDRV.header s)) in
            Some (0, n_sectors, set_opaque bs s, hd)
    else
      (* Write to existing block. *)
      let offset :=
        (offset_data (BDRV.header s) / SECTOR_SIZE
         + blockmap_entry * BDRV.block_sectors s
         + sector_in_block) mod UINT64_MOD in
      let '(r, hd) := bdrv_write hd offset buf n_sectors in
      if r <? 0 then Some (-1, n_sectors, bs, hd)
      else Some (0, n_sectors, bs, hd)
  end.

Fixpoint vdi_write_loop (be : bool) (fuel : nat) (bs : BlockDriverState)
    (hd : Host) (sector_num : Z) (buf : list byte) (nb_sectors : Z)
  : option (Z * BlockDriverState * Host) :=
  if (nb_sectors >? 0) && (sector_num <? total_sectors bs) then
    match fuel with
    | O => None
    | S fuel =>
      match vdi_write_block be bs hd sector_num buf nb_sectors with
      | None => None
      | Some (r, n_sectors, bs, hd) =>
        if r <? 0 then Some (-1, bs, hd)
        else
          vdi_write_loop be fuel bs hd (sector_num + n_sectors)
            (skipn (Z.to_nat (n_sectors * SECTOR_SIZE)) buf)
            (nb_sectors - n_sectors)
      end
    end
  else Some (0, bs, hd).

Definition vdi_write (be : bool) (bs : BlockDriverState) (hd : Host)
    (sector_num : Z) (buf : list byte) (nb_sectors : Z)
  : option (Z * BlockDriverState * Host) :=
  if sector_num <? 0 then Some (-1, bs, hd)
  else vdi_write_loop be (Z.to_nat nb_sectors) bs hd sector_num buf nb_sectors.

(** ** The asynchronous write path *)

Module AIO.

Inductive aio_state : Type :=
| aio_state_normal
| aio_must_write_blockmap
| aio_must_write_header
| aio_header_written.

(** The fields of [VdiAIOCB] the write path uses; [buf] is the memory from
    [acb->buf] on, [block_buffer] is [None] for a null pointer. *)
Record VdiAIOCB : Type := mkAcb {
  sector_num : Z;
  buf : list byte;
  nb_sectors : Z;
  n_sectors : Z;
  blockmap_entry : Z;
  block_buffer : option (list byte);
  state : aio_state
}.

(** What an invocation of the callback ends with: the request is completed
    with [ret] ([done:]), or a write to the image file has been handed to
    [bdrv_aio_writev]. *)
Inductive aio_action : Type :=
| Done (ret : Z)
| Submitted (offset : Z) (data : list byte) (nb : Z).

End AIO.

Definition vdi_aio_setup (sector_num : Z) (buf : list byte) (nb_sectors : Z)
  : AIO.VdiAIOCB :=
  {| AIO.sector_num := sector_num;
     AIO.buf := buf;
     AIO.nb_sectors := nb_sectors;
     AIO.n_sectors := 0;
     AIO.blockmap_entry := VDI_UNALLOCATED;
     AIO.block_buffer := None;
     AIO.state := AIO.aio_state_normal |}.

(** [submit] tells whether [bdrv_aio_writev] returns a request (a null
    result leads to [done:]). *)
Definition aio_submit (submit : bool) (bs : BlockDriverState)
    (acb : AIO.VdiAIOCB) (ret offset : Z) (data : list byte) (nb : Z)
  : option (BlockDriverState * AIO.VdiAIOCB * AIO.aio_action) :=
  if submit then Some (bs, acb, AIO.Submitted offset data nb)
  else Some (bs, acb, AIO.Done ret).

(** The part of [vdi_aio_write_cb] after the dispatch on [acb->state]:
    account for the sectors written and prepare the next request.  Nothing
    keeps [sector_num] from being negative here, so that
    [sector_in_block], a [uint32_t], may lie beyond the block: a [memcpy]
    that leaves the block buffer is [None]. *)
Definition aio_write_next (be : bool) (bs : BlockDriverState)
    (acb : AIO.VdiAIOCB) (ret : Z) (submit : bool)
  : option (BlockDriverState * AIO.VdiAIOCB * AIO.aio_action) :=
  let s := opaque bs in
  let nb_sectors := AIO.nb_sectors acb - AIO.n_sectors acb in
  let sector_num := AIO.sector_num acb + AIO.n_sectors acb in
  let buf := skipn (Z.to_nat (AIO.n_sectors acb * SECTOR_SIZE)) (AIO.buf acb) in
  let acb := {| AIO.sector_num := sector_num; AIO.buf := buf;
                AIO.nb_sectors := nb_sectors;
                AIO.n_sectors := AIO.n_sectors acb;
                AIO.blockmap_entry := AIO.blockmap_entry acb;
                AIO.block_buffer := AIO.block_buffer acb;
                AIO.state := AIO.state acb |} in
  if nb_sectors =? 0 then Some (bs, acb, AIO.Done 0)
  else if BDRV.block_sectors s =? 0 then None
  else
    let block_index :=
      (Z.quot sector_num (BDRV.block_sectors s)) mod UINT32_MOD in
    let sector_in_block :=
      (Z.rem sector_num (BDRV.block_sectors s)) mod UINT32_MOD in
    let n_sectors := (BDRV.block_sectors s - sector_in_block) mod UINT32_MOD in
    let n_sectors :=
      if n_sectors >? nb_sectors mod UINT32_MOD then nb_sectors mod UINT32_MOD
      else n_sectors in
    (* prepare next AIO request *)
    match nth_error (BDRV.blockmap s) (Z.to_nat block_index) with
    | None => None
    | Some w =>
      let blockmap_entry := le_to_cpu be 4 w in
      if blockmap_entry =? VDI_UNALLOCATED then
        (* Allocate new block and write to it. *)
        let blockmap_entry := blocks_allocated (BDRV.header s) in
        let s := set_blockmap s (array_set (BDRV.blockmap s)
                                   (Z.to_nat block_index)
                                   (cpu_to_le be 4 blockmap_entry)) in
        let s := set_header s
                   (set_blocks_allocated (BDRV.header s)
                      ((blocks_allocated (BDRV.header s) + 1)
                         mod UINT32_MOD)) in
        let offset :=
          (offset_data (BDRV.header s) / SECTOR_SIZE
           + blockmap_entry * BDRV.block_sectors s) mod UINT64_MOD in
        if BDRV.block_size s <? BDRV.block_sectors s * SECTOR_SIZE then None
        else
        let block := qemu_mallocz (BDRV.block_size s) in
        let off := (sector_in_block * SECTOR_SIZE) mod UINT32_MOD in
        let len := (n_sectors * SECTOR_SIZE) mod UINT32_MOD in
        if BDRV.block_size s <? off + len then None
        else
        let block := memcpy_at block off buf len in
        let acb := {| AIO.sector_num := sector_num; AIO.buf := buf;
                      AIO.nb_sectors := nb_sectors;
                      AIO.n_sectors := n_sectors;
                      AIO.blockmap_entry := blockmap_entry;
                      AIO.block_buffer := Some block;
                      AIO.state := AIO.aio_must_write_blockmap |} in
        aio_submit submit (set_opaque bs s) acb ret offset block
                   (BDRV.block_sectors s)
      else
        let offset :=
          (offset_data (BDRV.header s) / SECTOR_SIZE
           + blockmap_entry * BDRV.block_sectors s
           + sector_in_block) mod UINT64_MOD in
        let acb := {| AIO.sector_num := sector_num; AIO.buf := buf;
                      AIO.nb_sectors := nb_sectors;
                      AIO.n_sectors := n_sectors;
                      AIO.blockmap_entry := AIO.blockmap_entry acb;
                      AIO.block_buffer := AIO.block_buffer acb;
                      AIO.state := AIO.state acb |} in
        aio_submit submit bs acb ret offset buf n_sectors
    end.

Definition set_aio_state (acb : AIO.VdiAIOCB) (st : AIO.aio_state)
    (block_buffer : option (list byte)) : AIO.VdiAIOCB :=
  {| AIO.sector_num := AIO.sector_num acb; AIO.buf := AIO.buf acb;
     AIO.nb_sectors := AIO.nb_sectors acb;
     AIO.n_sectors := AIO.n_sectors acb;
     AIO.blockmap_entry := AIO.blockmap_entry acb;
     AIO.block_buffer := block_buffer;
     AIO.state := st |}.

(** [vdi_aio_write_cb (acb, ret)]; the state of the image and the request
    block are passed and returned. *)
Definition vdi_aio_write_cb (be : bool) (bs : BlockDriverState)
    (acb : AIO.VdiAIOCB) (ret : Z) (submit : bool)
  : option (BlockDriverState * AIO.VdiAIOCB * AIO.aio_action) :=
  let s := opaque bs in
  if ret <? 0 then Some (bs, acb, AIO.Done ret)
  else
    match AIO.state acb with
    | AIO.aio_state_normal => aio_write_next be bs acb ret submit
    | AIO.aio_must_write_blockmap =>
      let blockmap_entry := AIO.blockmap_entry acb in
      (* Write modified sector from block map. *)
      let blockmap_entry :=
        Z.land blockmap_entry (Z.lnot (SECTOR_SIZE / 4 - 1)) in
      let offset :=
        (offset_blockmap (BDRV.header s) / SECTOR_SIZE
         + blockmap_entry / (SECTOR_SIZE / 4)) mod UINT64_MOD in
      let acb :=
        set_aio_state acb AIO.aio_must_write_header (AIO.block_buffer acb) in
      aio_submit submit bs acb ret offset
                 (slice (blockmap_mem be s blockmap_entry) 0 512) 1
    | AIO.aio_must_write_header =>
      match AIO.block_buffer acb with
      | None => None
      | Some block =>
        let s := set_header s (vdi_header_to_le be (BDRV.header s)) in
        let block :=
          memcpy_at block 0 (header_mem be (BDRV.header s)) SECTOR_SIZE in
        let s := set_header s (vdi_header_to_cpu be (BDRV.header s)) in
        let acb := set_aio_state acb AIO.aio_header_written (Some block) in
        aio_submit submit (set_opaque bs s) acb ret 0 (slice block 0 512) 1
      end
    | AIO.aio_header_written =>
      let acb := set_aio_state acb AIO.aio_state_normal None in
      aio_write_next be bs acb ret submit
    end.

(** The completion of the requests by the block layer: each submitted write
    is carried out on the file and the callback is invoked with its result,
    until the request is reported done.  A write that succeeds completes
    with 0; one that fails completes with [err], the negative value the
    block layer has for the failure, which is its own and need not be the
    -1 of [vdi_write]. *)
Fixpoint aio_write_run (be : bool) (err : Z) (fuel : nat)
    (bs : BlockDriverState) (acb : AIO.VdiAIOCB) (hd : Host) (ret : Z)
  : option (Z * BlockDriverState * Host) :=
  match fuel with
  | O => None
  | S fuel =>
    match vdi_aio_write_cb be bs acb ret true with
    | None => None
    | Some (bs, acb, AIO.Done r) => Some (r, bs, hd)
    | Some (bs, acb, AIO.Submitted offset data nb) =>
      let '(r, hd) := bdrv_write hd offset data nb in
      aio_write_run be err fuel bs acb hd (if r <? 0 then err else 0)
    end
  end.

(** [vdi_aio_writev], followed by the completion of its requests. *)
Definition vdi_aio_writev (be : bool) (bs : BlockDriverState) (hd : Host)
    (sector_num : Z) (buf : list byte) (nb_sectors : Z) (err : Z)
  : option (Z * BlockDriverState * Host) :=
  let acb := vdi_aio_setup sector_num buf nb_sectors in
  aio_write_run be err (Z.to_nat (4 * nb_sectors + 1)) bs acb hd 0.

(** ** [vdi_check] *)

(** The limits of a 32-bit [int], and the conversion of an unsigned value
    to [int]: the value modulo [2^32] that lies within the limits. *)
Definition INT_MAX : Z := 2 ^ 31 - 1.
Definition INT_MIN : Z := - 2 ^ 31.
Definition int_ok (x : Z) : bool := (INT_MIN <=? x) && (x <=? INT_MAX).
Definition INT64_MAX : Z := 2 ^ 63 - 1.
Definition to_int (x : Z) : Z := (x + 2 ^ 31) mod 2 ^ 32 - 2 ^ 31.

(** The [for] loop of [vdi_check] from [block] on.  The result is
    [n_errors] and the local counter [blocks_allocated]; the messages
    written to [stderr] are left out.  [None] stands for an access outside
    the block map and for the overflow of the [int] counter [n_errors]. *)
Fixpoint vdi_check_loop (be : bool) (fuel : nat) (s : BDRV.BDRVVdiState)
    (block n_errors allocated : Z) : option (Z * Z) :=
  if block <? blocks_in_image (BDRV.header s) then
    match fuel with
    | O => None
    | S fuel =>
      match nth_error (BDRV.blockmap s) (Z.to_nat block) with
      | None => None
      | Some w =>
        let blockmap_entry := le_to_cpu be 4 w in
        let next := (block + 1) mod UINT32_MOD in
        if negb (blockmap_entry =? VDI_UNALLOCATED) then
          if blockmap_entry <? blocks_in_image (BDRV.header s) then
            vdi_check_loop be fuel s next n_errors
                           ((allocated + 1) mod UINT32_MOD)
          else if n_errors =? INT_MAX then None
          else vdi_check_loop be fuel s next (n_errors + 1) allocated
        else vdi_check_loop be fuel s next n_errors allocated
      end
    end
  else Some (n_errors, allocated).

Definition vdi_check (be : bool) (bs : BlockDriverState) : option Z :=
  let s := opaque bs in
  (* Check blockmap and value of blocks_allocated. *)
  match vdi_check_loop be (Z.to_nat (blocks_in_image (BDRV.header s))) s
                       0 0 0 with
  | None => None
  | Some (n_errors, allocated) =>
    if negb (allocated =? blocks_allocated (BDRV.header s)) then
      if n_errors =? INT_MAX then None else Some (n_errors + 1)
    else Some n_errors
  end.

(** ** [vdi_is_allocated] *)

(** The result is the return value and [*pnum].  [sector_num] is an
    [int64_t] and [s->block_sectors] a [uint32_t], so that [/] and [%] are
    the signed operations of C; their results are converted to [size_t].
    [None] stands for a division by zero and for an access outside the block
    map. *)
Definition vdi_is_allocated (be : bool) (bs : BlockDriverState)
    (sector_num nb_sectors : Z) : option (Z * Z) :=
  let s := opaque bs in
  if BDRV.block_sectors s =? 0 then None else
  let blockmap_index := to_size_t (Z.quot sector_num (BDRV.block_sectors s)) in
  let sector_in_block := to_size_t (Z.rem sector_num (BDRV.block_sectors s)) in
  let n_sectors :=
    to_int (to_size_t (BDRV.block_sectors s - sector_in_block)) in
  match nth_error (BDRV.blockmap s) (Z.to_nat blockmap_index) with
  | None => None
  | Some w =>
    let blockmap_entry := le_to_cpu be 4 w in
    let n_sectors :=
      if n_sectors >? nb_sectors then nb_sectors else n_sectors in
    Some (if negb (blockmap_entry =? VDI_UNALLOCATED) then 1 else 0,
          n_sectors)
  end.

(** ** The asynchronous read path *)

(** [EIO] of errno.h. *)
Definition EIO : Z := 5.

Module AIORead.

(** A request block on the read path, for a request whose vector has one
    element ([acb->buf] is then the memory of the caller): the fields of
    [VdiAIOCB] shared with the write path, the memory that lies between the
    start of the buffer of the request and [acb->buf], and whether
    [acb->bh] is set. *)
Record ReadAIOCB : Type := mkRcb {
  acb : AIO.VdiAIOCB;
  filled : list byte;
  bh : bool
}.

(** What an invocation of the callback ends with: the request is completed
    with [ret] ([done:]), a read of the image file into [acb->buf] has been
    handed to [bdrv_aio_readv], or a bottom half has been scheduled. *)
Inductive action : Type :=
| Done (ret : Z)
| Submitted (offset nb : Z)
| Scheduled.

(** What the block layer and the main loop call back with: the completion
    of the read submitted ([vdi_aio_read_cb] with its result) or the bottom
    half ([vdi_aio_read_bh]). *)
Inductive event : Type :=
| Completion (ret : Z)
| BottomHalf.

End AIORead.

Definition set_bh (r : AIORead.ReadAIOCB) (b : bool) : AIORead.ReadAIOCB :=
  {| AIORead.acb := AIORead.acb r; AIORead.filled := AIORead.filled r;
     AIORead.bh := b |}.

(** The fields of the request that the callbacks advance. *)
Definition set_request (a : AIO.VdiAIOCB) (sector_num : Z) (buf : list byte)
    (nb_sectors n_sectors : Z) : AIO.VdiAIOCB :=
  {| AIO.sector_num := sector_num; AIO.buf := buf;
     AIO.nb_sectors := nb_sectors; AIO.n_sectors := n_sectors;
     AIO.blockmap_entry := AIO.blockmap_entry a;
     AIO.block_buffer := AIO.block_buffer a;
     AIO.state := AIO.state a |}.

(** [vdi_schedule_bh (cb, acb)].  [bh_new] tells whether [qemu_bh_new]
    returns a bottom half; the bottom half it returns is scheduled, and the
    main loop runs it later. *)
Definition vdi_schedule_bh (bh_new : bool) (r : AIORead.ReadAIOCB)
  : Z * AIORead.ReadAIOCB :=
  if AIORead.bh r then (- EIO, r)
  else if negb bh_new then (- EIO, set_bh r false)
  else (0, set_bh r true).

(** [vdi_aio_read_cb (acb, ret)].  [submit] tells whether [bdrv_aio_readv]
    returns a request.  [None] stands for behaviour C leaves undefined: the
    overflow of an [int], a division by zero and an access outside the block
    map. *)
Definition vdi_aio_read_cb (be : bool) (bs : BlockDriverState)
    (r : AIORead.ReadAIOCB) (ret : Z) (submit bh_new : bool)
  : option (AIORead.ReadAIOCB * AIORead.action) :=
  let s := opaque bs in
  let a := AIORead.acb r in
  if ret <? 0 then Some (r, AIORead.Done ret)
  else
    let nb_sectors := AIO.nb_sectors a - AIO.n_sectors a in
    if negb (int_ok nb_sectors) then None
    else
    let a := set_request a (AIO.sector_num a) (AIO.buf a) nb_sectors
                         (AIO.n_sectors a) in
    if nb_sectors =? 0 then
      (* request completed *)
      Some ({| AIORead.acb := a; AIORead.filled := AIORead.filled r;
               AIORead.bh := AIORead.bh r |}, AIORead.Done 0)
    else
      let sector_num := AIO.sector_num a + AIO.n_sectors a in
      if (AIO.n_sectors a <? 0) || (INT64_MAX <? sector_num)
         || negb (int_ok (AIO.n_sectors a * SECTOR_SIZE)) then None
      else
      let len := Z.to_nat (AIO.n_sectors a * SECTOR_SIZE) in
      let filled := AIORead.filled r ++ firstn len (AIO.buf a) in
      let buf := skipn len (AIO.buf a) in
      if BDRV.block_sectors s =? 0 then None
      else
      let block_index :=
        (Z.quot sector_num (BDRV.block_sectors s)) mod UINT32_MOD in
      let sector_in_block :=
        (Z.rem sector_num (BDRV.block_sectors s)) mod UINT32_MOD in
      let n_sectors :=
        (BDRV.block_sectors s - sector_in_block) mod UINT32_MOD in
      let n_sectors :=
        if n_sectors >? nb_sectors mod UINT32_MOD
        then nb_sectors mod UINT32_MOD else n_sectors in
      (* prepare next AIO request *)
      match nth_error (BDRV.blockmap s) (Z.to_nat block_index) with
      | None => None
      | Some w =>
        let blockmap_entry := le_to_cpu be 4 w in
        if blockmap_entry =? VDI_UNALLOCATED then
          (* Block not allocated, return zeros, no need to wait. *)
          let buf := memset0 buf ((n_sectors * SECTOR_SIZE) mod UINT32_MOD) in
          let a := set_request a sector_num buf nb_sectors (to_int n_sectors) in
          let '(ret, r) :=
            vdi_schedule_bh bh_new
              {| AIORead.acb := a; AIORead.filled := filled;
                 AIORead.bh := AIORead.bh r |} in
          if ret <? 0 then Some (r, AIORead.Done ret)
          else Some (r, AIORead.Scheduled)
        else
          let offset :=
            (offset_data (BDRV.header s) / SECTOR_SIZE
             + blockmap_entry * BDRV.block_sectors s
             + sector_in_block) mod UINT64_MOD in
          let a := set_request a sector_num buf nb_sectors (to_int n_sectors) in
          let r := {| AIORead.acb := a; AIORead.filled := filled;
                      AIORead.bh := AIORead.bh r |} in
          if submit then Some (r, AIORead.Submitted offset (to_int n_sectors))
          else Some (r, AIORead.Done ret)
      end.

(** [vdi_aio_read_bh (acb)] *)
Definition vdi_aio_read_bh (be : bool) (bs : BlockDriverState)
    (r : AIORead.ReadAIOCB) (submit bh_new : bool)
  : option (AIORead.ReadAIOCB * AIORead.action) :=
  vdi_aio_read_cb be bs (set_bh r false) 0 submit bh_new.

(** The completion of a request by the block layer and the main loop: a
    submitted read is carried out on the file into [acb->buf] and the
    callback is invoked with its result, a scheduled bottom half is run,
    until the request is reported done.  A read that succeeds completes
    with 0; one that fails completes with [err], the negative value the
    block layer has for the failure, which is its own and need not be the
    -1 of [vdi_read].  The result is the value the request completes with,
    the buffer of the request and the file. *)
Fixpoint aio_read_run (be : bool) (err : Z) (fuel : nat)
    (bs : BlockDriverState) (r : AIORead.ReadAIOCB) (hd : Host)
    (ev : AIORead.event) (submit bh_new : bool)
  : option (Z * list byte * Host) :=
  match fuel with
  | O => None
  | S fuel =>
    let step :=
      match ev with
      | AIORead.Completion ret => vdi_aio_read_cb be bs r ret submit bh_new
      | AIORead.BottomHalf => vdi_aio_read_bh be bs r submit bh_new
      end in
    match step with
    | None => None
    | Some (r, AIORead.Done ret) =>
      Some (ret, AIORead.filled r ++ AIO.buf (AIORead.acb r), hd)
    | Some (r, AIORead.Submitted offset nb) =>
      let a := AIORead.acb r in
      let '(ret, buf, hd) := bdrv_read hd offset (AIO.buf a) nb in
      let a := set_request a (AIO.sector_num a) buf (AIO.nb_sectors a)
                           (AIO.n_sectors a) in
      aio_read_run be err fuel bs
        {| AIORead.acb := a; AIORead.filled := AIORead.filled r;
           AIORead.bh := AIORead.bh r |}
        hd (AIORead.Completion (if ret <? 0 then err else 0)) submit bh_new
    | Some (r, AIORead.Scheduled) =>
      aio_read_run be err fuel bs r hd AIORead.BottomHalf submit bh_new
    end
  end.

(** [vdi_aio_readv], followed by the completion of its requests.  [bh0]
    tells whether [acb->bh] is set in the request block that [qemu_aio_get]
    hands out. *)
Definition vdi_aio_readv (be : bool) (bs : BlockDriverState) (hd : Host)
    (sector_num : Z) (buf : list byte) (nb_sectors : Z)
    (bh0 submit bh_new : bool) (err : Z) : option (Z * list byte * Host) :=
  let acb := vdi_aio_setup sector_num buf nb_sectors in
  aio_read_run be err (S (Z.to_nat nb_sectors)) bs
    {| AIORead.acb := acb; AIORead.filled := []; AIORead.bh := bh0 |}
    hd (AIORead.Completion 0) submit bh_new.

(** * Definitions for the statements *)

(** ** Fields of an image file *)

(** The signature and the version of a candidate buffer: the little-endian
    values of its bytes 64..67 and 68..71. *)
Definition signature_field (buf : list byte) : Z := le_combine (slice buf 64 4).
Definition version_field (buf : list byte) : Z := le_combine (slice buf 68 4).

(** The header of an image file decoded as little endian, whatever the
    host. *)
Definition decode_le (buf : list byte) : VdiHeader := header_of_mem false buf.

(** The first sector of the file behind [hd]. *)
Definition sector0 (hd : Host) : list byte := disk_bytes (disk hd) 0 512.

(** The six tests [vdi_open] makes on the header. *)
Definition open_checks (h : VdiHeader) : bool :=
  (version h =? VDI_VERSION_1_1)
  && (offset_blockmap h mod SECTOR_SIZE =? 0)
  && (offset_data h mod SECTOR_SIZE =? 0)
  && (sector_size h =? SECTOR_SIZE)
  && (block_size h =? 1 * MiB)
  && (disk_size h =? blocks_in_image h * block_size h).

(** Entry [i] of the block map of an image file, read as little endian at
    the offset its header gives. *)
Definition file_map_entry (file : list byte) (i : Z) : Z :=
  le_combine
    (slice file (Z.to_nat (offset_blockmap (decode_le file) + 4 * i)) 4).

(** ** Well-formed states *)

Definition u32 (x : Z) : bool := (0 <=? x) && (x <? UINT32_MOD).
Definition u64 (x : Z) : bool := (0 <=? x) && (x <? UINT64_MOD).

(** Every converted scalar of the header is within its C type. *)
Definition header_in_range (h : VdiHeader) : bool :=
  u32 (signature h) && u32 (version h) && u32 (header_size h)
  && u32 (image_type h) && u32 (image_flags h) && u32 (offset_blockmap h)
  && u32 (offset_data h) && u32 (cylinders h) && u32 (heads h)
  && u32 (sectors h) && u32 (sector_size h) && u64 (disk_size h)
  && u32 (block_size h) && u32 (block_extra h) && u32 (blocks_in_image h)
  && u32 (blocks_allocated h).

(** A block map word stands for an allocated block. *)
Definition is_allocated (be : bool) (w : Z) : bool :=
  negb (le_to_cpu be 4 w =? VDI_UNALLOCATED).

(** The number of block map entries that are not [VDI_UNALLOCATED]. *)
Definition count_allocated (be : bool) (m : list Z) : Z :=
  Z.of_nat (List.length (filter (is_allocated be) m)).

(** The physical indices the block map refers to. *)
Definition physical_indices (be : bool) (m : list Z) : list Z :=
  map (le_to_cpu be 4) (filter (is_allocated be) m).

Fixpoint distinct (l : list Z) : bool :=
  match l with
  | [] => true
  | x :: t => negb (existsb (Z.eqb x) t) && distinct t
  end.

(** What [vdi_open] establishes on the sizes, and what the loops of
    [vdi_read] and [vdi_write] rely on: a block has a positive number of
    sectors, the block buffer holds a whole block, and every sector below
    [total_sectors] has an entry in the block map. *)
Definition geometry_ok (bs : BlockDriverState) : bool :=
  let s := opaque bs in
  (0 <? BDRV.block_sectors s) && (BDRV.block_sectors s <? UINT32_MOD)
  && (BDRV.block_size s =? BDRV.block_sectors s * SECTOR_SIZE)
  && (total_sectors bs
      <=? Z.of_nat (List.length (BDRV.blockmap s)) * BDRV.block_sectors s).

(** The invariant of the allocation counter: the header counts the
    entries of the block map that are allocated. *)
Definition image_ok (be : bool) (bs : BlockDriverState) : bool :=
  let s := opaque bs in
  geometry_ok bs
  && header_in_range (BDRV.header s)
  && (Z.of_nat (List.length (BDRV.blockmap s)) <? UINT32_MOD)
  && (count_allocated be (BDRV.blockmap s)
      =? blocks_allocated (BDRV.header s)).

(** The layout of the file: the header sector, then the sectors of the
    block map, then the data. *)
Definition layout_ok (bs : BlockDriverState) : bool :=
  let s := opaque bs in
  let h := BDRV.header s in
  (1 <=? offset_blockmap h / SECTOR_SIZE)
  && (offset_blockmap h / SECTOR_SIZE
      + (Z.of_nat (List.length (BDRV.blockmap s)) + 127) / 128
      <=? offset_data h / SECTOR_SIZE).

(** The invariant of the data region: allocated entries refer to distinct
    blocks below [blocks_allocated]. *)
Definition data_ok (be : bool) (bs : BlockDriverState) : bool :=
  let s := opaque bs in
  image_ok be bs && layout_ok bs
  && distinct (physical_indices be (BDRV.blockmap s))
  && forallb (fun k => (0 <=? k) && (k <? blocks_allocated (BDRV.header s)))
             (physical_indices be (BDRV.blockmap s)).

(** ** Logical sectors and the content of the virtual disk *)

(** Entry [i] of the block map, in host order. *)
Definition block_entry_at (be : bool) (bs : BlockDriverState) (i : nat)
  : option Z :=
  option_map (le_to_cpu be 4) (nth_error (BDRV.blockmap (opaque bs)) i).

(** The block map entry, in host order, of the block that holds logical
    sector [t]. *)
Definition block_entry (be : bool) (bs : BlockDriverState) (t : Z)
  : option Z :=
  block_entry_at be bs (Z.to_nat (t / BDRV.block_sectors (opaque bs))).

(** A request [vdi_read] makes to the file for sectors of the range
    [\[sector_num, sector_num + nb_sectors)]: it starts at the physical
    sector of a sector [t] of the range whose block is allocated, and stays
    within that block. *)
Definition read_of_allocated (be : bool) (bs : BlockDriverState)
    (sector_num nb_sectors : Z) (rq : io_req) : Prop :=
  exists t e n,
    sector_num <= t < sector_num + nb_sectors /\
    block_entry be bs t = Some e /\ e <> VDI_UNALLOCATED /\
    0 < n <= BDRV.block_sectors (opaque bs)
             - t mod BDRV.block_sectors (opaque bs) /\
    rq = IoRead ((offset_data (BDRV.header (opaque bs)) / SECTOR_SIZE
                  + e * BDRV.block_sectors (opaque bs)
                  + t mod BDRV.block_sectors (opaque bs)) mod UINT64_MOD) n.

(** The byte at byte address [a] of the virtual disk, as the block map of
    [bs] and the bytes [d] of the file define it: zero in an unallocated
    block, otherwise the byte of the data region at the same offset within
    the physical block. *)
Definition logical_byte (be : bool) (bs : BlockDriverState) (d : Z -> byte)
    (a : Z) : byte :=
  let s := opaque bs in
  let block_bytes := BDRV.block_sectors s * SECTOR_SIZE in
  match block_entry_at be bs (Z.to_nat (a / block_bytes)) with
  | Some e =>
    if e =? VDI_UNALLOCATED then Byte.x00
    else d ((offset_data (BDRV.header s) / SECTOR_SIZE
             + e * BDRV.block_sectors s) * SECTOR_SIZE + a mod block_bytes)
  | None => Byte.x00
  end.

(** Allocated entries lie below [blocks_allocated], and no two entries
    refer to the same physical block. *)
Definition entries_ok (be : bool) (bs : BlockDriverState) : Prop :=
  forall i e,
    block_entry_at be bs i = Some e -> e <> VDI_UNALLOCATED ->
    0 <= e < blocks_allocated (BDRV.header (opaque bs)) /\
    forall j, block_entry_at be bs j = Some e -> j = i.

(** The invariant [data_ok], with its last two parts stated on indices. *)
Definition data_inv (be : bool) (bs : BlockDriverState) : Prop :=
  image_ok be bs = true /\ layout_ok bs = true /\ entries_ok be bs.

(** ** The effect of writes on the state *)

(** The state after the reservation of a new block for the logical block
    [block_index]: the entry holds the prior [blocks_allocated], in little
    endian, and the counter is incremented. *)
Definition allocate (be : bool) (bs : BlockDriverState) (block_index : nat)
  : BlockDriverState :=
  let s := opaque bs in
  set_opaque bs
    (set_header
       (set_blockmap s
          (array_set (BDRV.blockmap s) block_index
             (cpu_to_le be 4 (blocks_allocated (BDRV.header s)))))
       (set_blocks_allocated (BDRV.header s)
          ((blocks_allocated (BDRV.header s) + 1) mod UINT32_MOD))).

(** The number of sectors one iteration of the loops handles. *)
Definition chunk_sectors (bs : BlockDriverState) (sector_num nb_sectors : Z)
  : Z :=
  let B := BDRV.block_sectors (opaque bs) in
  if B - sector_num mod B >? nb_sectors then nb_sectors
  else B - sector_num mod B.

(** A write request: [sector_num], [buf], [nb_sectors]. *)
Definition write_req : Type := Z * list byte * Z.

(** A sequence of calls of [vdi_write], whatever they return: the states
    after each call, and the file at the end. *)
Fixpoint write_seq (be : bool) (reqs : list write_req) (bs : BlockDriverState)
    (hd : Host) : option (list BlockDriverState * Host) :=
  match reqs with
  | [] => Some ([], hd)
  | (sector_num, buf, nb_sectors) :: reqs =>
    match vdi_write be bs hd sector_num buf nb_sectors with
    | None => None
    | Some (_, bs, hd) =>
      match write_seq be reqs bs hd with
      | None => None
      | Some (states, hd) => Some (bs :: states, hd)
      end
    end
  end.

(** [h'] is [h] but for its allocation counter, which is the counter of
    [h] advanced by the allocations made, at most [n] of them: every field
    of [h'] is a host-order value. *)
Definition host_order_after (n : Z) (h h' : VdiHeader) : Prop :=
  exists m, 0 <= m <= n /\
    h' = set_blocks_allocated h ((blocks_allocated h + m) mod UINT32_MOD).

(** ** Concrete files and states *)

(** A file with the bytes [img] whose next requests fail as [fl] tells,
    and a file with no failing request. *)
Definition faulty_host (img : list byte) (fl : list bool) : Host :=
  {| disk := fun a => nth (Z.to_nat a) img Byte.x00;
     faults := fl; trace := [] |}.

Definition host_of (img : list byte) : Host := faulty_host img [].

(** The file [vdi_create] writes for a dynamic image of [blocks] MiB, and
    the state [vdi_open] builds from it. *)
Definition fresh_file (be : bool) (blocks : Z) : list byte :=
  snd (vdi_create be true [] [] [(BLOCK_OPT_SIZE, blocks * MiB)]).

Definition fresh_state (blocks : Z) : BlockDriverState :=
  {| total_sectors := blocks * 2048;
     opaque :=
       {| BDRV.blockmap := repeat VDI_UNALLOCATED (Z.to_nat blocks);
          BDRV.block_size := MiB;
          BDRV.block_sectors := 2048;
          BDRV.header :=
            create_header (blocks * MiB) VDI_TYPE_DYNAMIC MiB blocks
                          (512 * ((blocks * 4 + 511) / 512)) [] [] |} |}.

(** The file of a dynamic image of 128 MiB with its signature field
    zeroed, and with its version field zeroed. *)
Definition image_no_signature : list byte :=
  memcpy_at (fresh_file false 128) 64 (repeat Byte.x00 4) 4.

Definition image_no_version : list byte :=
  memcpy_at (fresh_file false 128) 68 (repeat Byte.x00 4) 4.

(** 512 bytes whose signature field is the magic number and whose version
    field is zero. *)
Definition probe_bad_version : list byte :=
  repeat Byte.x00 64 ++ le_split 4 VDI_SIGNATURE ++ repeat Byte.x00 444.

(** The options of a static image of 2 MiB. *)
Definition static_2MiB : list option_param :=
  [(BLOCK_OPT_SIZE, 2 * MiB); (BLOCK_OPT_STATIC, 1)].

(** One sector with the bytes 0, 1, ..., 255, 0, 1, ... *)
Definition pattern : list byte :=
  map (fun i => byte.of_Z (Z.of_nat i)) (seq 0 512).

(** 2049 sectors, from the last sector of a block to the last sector of
    the next one: a sector of [pattern], 2047 sectors of zeros and a sector
    of 0xff. *)
Definition wide_buf : list byte :=
  pattern ++ repeat Byte.x00 (Z.to_nat (2047 * 512)) ++ repeat Byte.xff 512.

(** What is looked at after a write: the return value, the requests made
    to the file (latest first), entry [i] of the block map in memory and
    entry [i] of the block map in the file. *)
Definition observe_entry (i : nat) (x : Z * BlockDriverState * Host)
  : Z * list io_req * option Z * Z :=
  let '(r, bs, hd) := x in
  (r, trace hd, nth_error (BDRV.blockmap (opaque bs)) i,
   le_combine (disk_bytes (disk hd)
                 (offset_blockmap (BDRV.header (opaque bs))
                  + 4 * Z.of_nat i) 4)).

(** ** Header objects *)

(** The arrays of the header have the lengths of their C types and each
    scalar, converted or not, is within its C type. *)
Definition header_wf (h : VdiHeader) : bool :=
  header_in_range h && u32 (unused1 h)
  && (List.length (text h) =? 64)%nat
  && (List.length (description h) =? 256)%nat
  && (List.length (uuid_image h) =? 16)%nat
  && (List.length (uuid_last_snap h) =? 16)%nat
  && (List.length (uuid_link h) =? 16)%nat
  && (List.length (uuid_parent h) =? 16)%nat
  && (List.length (unused2 h) =? 7)%nat
  && forallb u64 (unused2 h).

(** ** Files written by [vdi_create] *)

(** The size [vdi_create] reads out of its options. *)
Definition option_size (options : list option_param) : Z :=
  fst (read_options options 0 VDI_TYPE_DYNAMIC).

(** ** What [vdi_check] counts *)

(** The entries [vdi_check] looks at, in host order: the first
    [blocks_in_image] ones. *)
Definition checked_entries (be : bool) (bs : BlockDriverState) : list Z :=
  map (le_to_cpu be 4)
      (firstn (Z.to_nat (blocks_in_image (BDRV.header (opaque bs))))
              (BDRV.blockmap (opaque bs))).

(** An entry that refers to a block of an image of [n] blocks, and an entry
    that is reported as too large. *)
Definition entry_in_image (n e : Z) : bool :=
  negb (e =? VDI_UNALLOCATED) && (e <? n).
Definition entry_too_large (n e : Z) : bool :=
  negb (e =? VDI_UNALLOCATED) && negb (e <? n).

Definition count (p : Z -> bool) (l : list Z) : Z :=
  Z.of_nat (List.length (filter p l)).

(** The state with entry [j] of the block map set to the word [w]. *)
Definition with_entry (bs : BlockDriverState) (j : nat) (w : Z)
  : BlockDriverState :=
  set_opaque bs
    (set_blockmap (opaque bs) (array_set (BDRV.blockmap (opaque bs)) j w)).

(** The state after a write of two sectors across the boundary of the
    first two blocks of a fresh image of 128 MiB, on a little-endian
    host. *)
Definition two_blocks : BlockDriverState :=
  match vdi_write false (fresh_state 128) (host_of (fresh_file false 128))
                  2047 (pattern ++ pattern) 2 with
  | Some (_, bs, _) => bs
  | None => fresh_state 128
  end.

(** ** Files compared *)


(** ** The header sector of the file *)

(** The header in memory is the one [vdi_open] would read from the first
    sector of the file. *)
Definition header_on_disk (be : bool) (bs : BlockDriverState) (hd : Host)
  : Prop :=
  vdi_header_to_cpu be (header_of_mem be (sector0 hd))
  = BDRV.header (opaque bs).

(** * Properties *)

(** ** Byte order *)

Section ByteOrder.

Lemma bswap_bswap (n : nat) (x : Z) :
  bswap n (bswap n x) = x mod 2 ^ (Z.of_nat n * 8).
Proof.
  unfold bswap.
  rewrite split_le_combine' by (rewrite length_rev; apply length_le_split).
  rewrite rev_involutive. apply le_combine_split.
Qed.

Lemma bswap_range (n : nat) (x : Z) : 0 <= bswap n x < 2 ^ (Z.of_nat n * 8).
Proof.
  unfold bswap.
  pose proof (le_combine_bound (rev (le_split n x))) as H.
  rewrite length_rev, length_le_split in H.
  replace (Z.of_nat n * 8) with (8 * Z.of_nat n) by lia. exact H.
Qed.

(** A round trip through little endian gives the value back. *)
Lemma le_to_cpu_to_le (be : bool) (n : nat) (x : Z) :
  0 <= x < 2 ^ (Z.of_nat n * 8) -> le_to_cpu be n (cpu_to_le be n x) = x.
Proof.
  intros Hx. unfold le_to_cpu, cpu_to_le. destruct be; [|reflexivity].
  rewrite bswap_bswap. apply Z.mod_small; exact Hx.
Qed.

Lemma cpu_to_le_range (be : bool) (n : nat) (x : Z) :
  0 <= x < 2 ^ (Z.of_nat n * 8) ->
  0 <= cpu_to_le be n x < 2 ^ (Z.of_nat n * 8).
Proof.
  intros Hx. unfold cpu_to_le. destruct be; [apply bswap_range | exact Hx].
Qed.

(** Whatever the host, a value converted with [cpu_to_le] sits in memory
    as its little-endian bytes. *)
Lemma mem_bytes_cpu_to_le (be : bool) (n : nat) (x : Z) :
  mem_bytes be n (cpu_to_le be n x) = le_split n x.
Proof.
  unfold mem_bytes, cpu_to_le, bswap. destruct be; [|reflexivity].
  rewrite split_le_combine' by (rewrite length_rev; apply length_le_split).
  apply rev_involutive.
Qed.

(** Whatever the host, a load followed by [le_to_cpu] decodes the bytes as
    little endian. *)
Lemma le_to_cpu_mem_load (be : bool) (n : nat) (bs : list byte) :
  List.length bs = n -> le_to_cpu be n (mem_load be bs) = le_combine bs.
Proof.
  intros Hn. unfold le_to_cpu, mem_load, bswap. destruct be; [|reflexivity].
  rewrite split_le_combine' by (rewrite length_rev; exact Hn).
  now rewrite rev_involutive.
Qed.

Lemma length_mem_bytes (be : bool) (n : nat) (x : Z) :
  List.length (mem_bytes be n x) = n.
Proof.
  unfold mem_bytes. destruct be; rewrite ?length_rev; apply length_le_split.
Qed.

Lemma bswap_unallocated : bswap 4 VDI_UNALLOCATED = VDI_UNALLOCATED.
Proof. reflexivity. Qed.

End ByteOrder.

(** ** Buffers *)

Lemma length_slice (buf : list byte) (off n : nat) :
  List.length (slice buf off n) = n.
Proof.
  unfold slice. rewrite length_firstn, length_app, repeat_length. lia.
Qed.

Lemma slice_app_exact (a b c : list byte) :
  slice (a ++ b ++ c) (List.length a) (List.length b) = b.
Proof.
  unfold slice. rewrite skipn_app, skipn_all, Nat.sub_diag. cbn [skipn app].
  rewrite <- !app_assoc. rewrite firstn_app, firstn_all, Nat.sub_diag.
  cbn [firstn]. apply app_nil_r.
Qed.

(** ** [vdi_probe] *)

Lemma signature_of_mem (be : bool) (buf : list byte) :
  le_to_cpu be 4 (signature (header_of_mem be buf)) = signature_field buf.
Proof. apply le_to_cpu_mem_load, length_slice. Qed.

Lemma version_of_mem (be : bool) (buf : list byte) :
  le_to_cpu be 4 (version (header_of_mem be buf)) = version_field buf.
Proof. apply le_to_cpu_mem_load, length_slice. Qed.

Lemma vdi_probe_eq (be : bool) (buf : list byte) (buf_size : Z) :
  vdi_probe be buf buf_size =
  if (sizeof_VdiHeader <=? to_size_t buf_size)
     && (signature_field buf =? VDI_SIGNATURE)
  then 100 else 0.
Proof.
  unfold vdi_probe. rewrite signature_of_mem.
  destruct (Z.ltb_spec (to_size_t buf_size) sizeof_VdiHeader);
    destruct (Z.leb_spec sizeof_VdiHeader (to_size_t buf_size)); try lia;
    reflexivity.
Qed.

Lemma to_size_t_int (x : Z) : 0 <= x < 2 ^ 31 -> to_size_t x = x.
Proof. intros H. apply Z.mod_small. unfold UINT64_MOD. lia. Qed.

(** C9: [vdi_probe] yields only 0 or 100; it yields 100 exactly when the
    buffer has at least the size of the header structure and its
    little-endian signature field is [VDI_SIGNATURE], and 0 in every other
    case, in particular for every buffer shorter than the structure. *)
Theorem vdi_probe_two_valued (be : bool) (buf : list byte) (buf_size : Z) :
  0 <= buf_size < 2 ^ 31 ->
  (vdi_probe be buf buf_size = 0 \/ vdi_probe be buf buf_size = 100) /\
  (sizeof_VdiHeader <= buf_size /\ signature_field buf = VDI_SIGNATURE ->
   vdi_probe be buf buf_size = 100) /\
  (~ (sizeof_VdiHeader <= buf_size /\ signature_field buf = VDI_SIGNATURE) ->
   vdi_probe be buf buf_size = 0) /\
  (buf_size < sizeof_VdiHeader -> vdi_probe be buf buf_size = 0).
Proof.
  intros Hsz. rewrite vdi_probe_eq, to_size_t_int by exact Hsz.
  destruct (Z.leb_spec sizeof_VdiHeader buf_size) as [Hle|Hlt];
    destruct (Z.eqb_spec (signature_field buf) VDI_SIGNATURE) as [He|Hne];
    cbn [andb]; repeat split; intros; auto; try lia; tauto.
Qed.

Lemma vdi_probe_two_valued_witness :
  0 <= 512 < 2 ^ 31 /\
  ((vdi_probe false (fresh_file false 2) 512 = 0 \/
    vdi_probe false (fresh_file false 2) 512 = 100) /\
   (sizeof_VdiHeader <= 512 /\ signature_field (fresh_file false 2) = VDI_SIGNATURE ->
    vdi_probe false (fresh_file false 2) 512 = 100) /\
   (~ (sizeof_VdiHeader <= 512 /\
       signature_field (fresh_file false 2) = VDI_SIGNATURE) ->
    vdi_probe false (fresh_file false 2) 512 = 0) /\
   (512 < sizeof_VdiHeader -> vdi_probe false (fresh_file false 2) 512 = 0)).
Proof.
  split; [lia | apply (vdi_probe_two_valued false (fresh_file false 2) 512); lia].
Defined.

Lemma slice_app_at (a b c : list byte) (off n : nat) :
  List.length a = off -> List.length b = n -> slice (a ++ b ++ c) off n = b.
Proof. intros <- <-. apply slice_app_exact. Qed.

Lemma signature_field_header_mem (be : bool) (h : VdiHeader) (rest : list byte) :
  signature_field (header_mem be (vdi_header_to_le be h) ++ rest)
  = signature h mod 2 ^ 32.
Proof.
  unfold signature_field, header_mem.
  cbn [signature vdi_header_to_le map_scalars].
  rewrite <- !app_assoc.
  rewrite slice_app_at
    by (first [apply length_slice | apply length_mem_bytes]).
  rewrite mem_bytes_cpu_to_le. apply le_combine_split.
Qed.

Lemma created_file_signature (be : bool) (u1 u2 : list byte)
    (options : list option_param) :
  signature_field (snd (vdi_create be true u1 u2 options)) = VDI_SIGNATURE.
Proof.
  unfold vdi_create. destruct (read_options options 0 VDI_TYPE_DYNAMIC) as [bytes ty].
  cbn [negb snd]. rewrite signature_field_header_mem. reflexivity.
Qed.

(** C3, as stated, fails: [vdi_probe] answers 100 for a buffer whose
    version field is not [VDI_VERSION_1_1]. *)
Lemma vdi_probe_ignores_version :
  ~ (vdi_probe false probe_bad_version 512 = 100 <->
     sizeof_VdiHeader <= 512 /\
     signature_field probe_bad_version = VDI_SIGNATURE /\
     version_field probe_bad_version = VDI_VERSION_1_1).
Proof.
  intros [H _].
  assert (Hp : vdi_probe false probe_bad_version 512 = 100)
    by (vm_compute; reflexivity).
  destruct (H Hp) as (_ & _ & Hv). vm_compute in Hv. discriminate Hv.
Qed.

(** C3, amended: [vdi_probe] yields 100 if and only if the buffer has at
    least the size of the header and its signature field is
    [VDI_SIGNATURE] (the version field is not looked at); the file written
    by [vdi_create] probes as 100, and any 64 bytes probe as 0. *)
Theorem vdi_probe_signature_only (be : bool) :
  (forall buf buf_size, 0 <= buf_size < 2 ^ 31 ->
     (vdi_probe be buf buf_size = 100 <->
      sizeof_VdiHeader <= buf_size /\ signature_field buf = VDI_SIGNATURE)) /\
  (forall u1 u2 options buf_size, sizeof_VdiHeader <= buf_size < 2 ^ 31 ->
     vdi_probe be (snd (vdi_create be true u1 u2 options)) buf_size = 100) /\
  (forall buf, vdi_probe be buf 64 = 0).
Proof.
  split; [|split].
  - intros buf buf_size Hsz. rewrite vdi_probe_eq, to_size_t_int by exact Hsz.
    destruct (Z.leb_spec sizeof_VdiHeader buf_size);
      destruct (Z.eqb_spec (signature_field buf) VDI_SIGNATURE);
      cbn [andb]; split; intros; try discriminate; try tauto; lia.
  - intros u1 u2 options buf_size Hsz.
    assert (Hr : 0 <= buf_size < 2 ^ 31) by (unfold sizeof_VdiHeader in Hsz; lia).
    rewrite vdi_probe_eq, to_size_t_int, created_file_signature by exact Hr.
    destruct (Z.leb_spec sizeof_VdiHeader buf_size); [reflexivity | lia].
  - intros buf. rewrite vdi_probe_eq. reflexivity.
Qed.

Lemma vdi_probe_signature_only_witness :
  0 <= 512 < 2 ^ 31 /\
  (vdi_probe true probe_bad_version 512 = 100 <->
   sizeof_VdiHeader <= 512 /\
   signature_field probe_bad_version = VDI_SIGNATURE) /\
  sizeof_VdiHeader <= 1024 < 2 ^ 31 /\
  vdi_probe true
    (snd (vdi_create true true [] [] [(BLOCK_OPT_SIZE, 2 * MiB)])) 1024 = 100.
Proof.
  split; [lia|]. split.
  - apply (proj1 (vdi_probe_signature_only true) probe_bad_version 512). lia.
  - split; [unfold sizeof_VdiHeader; lia|].
    apply (proj1 (proj2 (vdi_probe_signature_only true))).
    unfold sizeof_VdiHeader; lia.
Defined.

(** ** [vdi_open] *)

Lemma slice_all (l : list byte) (n : nat) : List.length l = n -> slice l 0 n = l.
Proof.
  intros <-. unfold slice. cbn [skipn].
  rewrite firstn_app, firstn_all, Nat.sub_diag. cbn [firstn]. apply app_nil_r.
Qed.

Lemma length_disk_bytes (d : Z -> byte) (off : Z) (n : nat) :
  List.length (disk_bytes d off n) = n.
Proof. unfold disk_bytes. now rewrite length_map, length_seq. Qed.

Lemma bdrv_read_sector0 (hd : Host) :
  bdrv_read hd 0 (repeat Byte.x00 512) 1 =
  if next_fault hd
  then (-1, repeat Byte.x00 512,
        {| disk := disk hd; faults := tl (faults hd);
           trace := IoRead 0 1 :: trace hd |})
  else (0, sector0 hd,
        {| disk := disk hd; faults := tl (faults hd);
           trace := IoRead 0 1 :: trace hd |}).
Proof.
  unfold bdrv_read, sector0. destruct (next_fault hd); [reflexivity|].
  change (Z.to_nat (1 * SECTOR_SIZE)) with 512%nat.
  change (0 * SECTOR_SIZE) with 0.
  rewrite skipn_all2 by (rewrite repeat_length; lia).
  now rewrite app_nil_r.
Qed.

Lemma mem_load_bound (be : bool) (bs : list byte) :
  0 <= mem_load be bs < 2 ^ (8 * Z.of_nat (List.length bs)).
Proof.
  unfold mem_load. destruct be.
  - rewrite <- (length_rev bs). apply le_combine_bound.
  - apply le_combine_bound.
Qed.

(** The tests of [vdi_open] bear on the little-endian decoding of the first
    sector, whatever the host. *)
Lemma open_checks_host (be : bool) (buf : list byte) :
  let h := vdi_header_to_cpu be (header_of_mem be buf) in
  negb (version h =? VDI_VERSION_1_1)
  || negb (offset_blockmap h mod SECTOR_SIZE =? 0)
  || negb (offset_data h mod SECTOR_SIZE =? 0)
  || negb (sector_size h =? SECTOR_SIZE)
  || negb (block_size h =? 1 * MiB)
  || negb (disk_size h =? (blocks_in_image h * block_size h) mod UINT64_MOD)
  = negb (open_checks (decode_le buf)).
Proof.
  cbv zeta. unfold open_checks, decode_le, vdi_header_to_cpu.
  cbn [version offset_blockmap offset_data sector_size block_size disk_size
       blocks_in_image map_scalars header_of_mem].
  rewrite !le_to_cpu_mem_load by apply length_slice.
  cbn [mem_load].
  pose proof (le_combine_bound (slice buf 384 4)) as Hb.
  pose proof (le_combine_bound (slice buf 376 4)) as Hs.
  rewrite !length_slice in Hb, Hs.
  rewrite (Z.mod_small (_ * _)) by (unfold UINT64_MOD; nia).
  rewrite !negb_andb. reflexivity.
Qed.

Lemma vdi_open_fails_early (be : bool) (open_ret : Z) (hd : Host)
    (heap : list byte) :
  open_ret < 0 \/ next_fault hd = true \/ open_checks (decode_le (sector0 hd)) = false ->
  fst (fst (vdi_open be open_ret hd heap)) < 0 /\
  snd (fst (vdi_open be open_ret hd heap)) = None.
Proof.
  intros H. unfold vdi_open.
  destruct (Z.ltb_spec open_ret 0) as [Hneg|Hpos]; [cbn; auto|].
  rewrite bdrv_read_sector0.
  destruct (next_fault hd) eqn:Hf; [cbn; split; [lia | reflexivity]|].
  change (0 <? 0) with false. cbv iota.
  destruct H as [H|[H|H]]; [lia | discriminate |].
  pose proof (open_checks_host be (sector0 hd)) as Hc. cbv zeta in Hc.
  rewrite H in Hc. cbn [negb] in Hc.
  set (h := vdi_header_to_cpu be (header_of_mem be (sector0 hd))) in *.
  destruct (negb (version h =? VDI_VERSION_1_1)); [cbn; split; [lia|reflexivity]|].
  destruct (negb (offset_blockmap h mod SECTOR_SIZE =? 0)); [cbn; split; [lia|reflexivity]|].
  destruct (negb (offset_data h mod SECTOR_SIZE =? 0)); [cbn; split; [lia|reflexivity]|].
  destruct (negb (sector_size h =? SECTOR_SIZE)); [cbn; split; [lia|reflexivity]|].
  destruct (negb (block_size h =? 1 * MiB)); [cbn; split; [lia|reflexivity]|].
  destruct (negb (disk_size h =? (blocks_in_image h * block_size h) mod UINT64_MOD));
    [cbn; split; [lia|reflexivity]|].
  discriminate Hc.
Qed.

Lemma vdi_open_succeeds (be : bool) (open_ret : Z) (hd : Host)
    (heap : list byte) :
  0 <= open_ret -> faults hd = [] ->
  open_checks (decode_le (sector0 hd)) = true ->
  fst (fst (vdi_open be open_ret hd heap)) = 0 /\
  exists bs, snd (fst (vdi_open be open_ret hd heap)) = Some bs.
Proof.
  intros Hret Hfl H. unfold vdi_open.
  destruct (Z.ltb_spec open_ret 0) as [Hneg|Hpos]; [lia|].
  assert (Hnf : next_fault hd = false) by (unfold next_fault; now rewrite Hfl).
  rewrite bdrv_read_sector0, Hnf.
  change (0 <? 0) with false. cbv iota.
  pose proof (open_checks_host be (sector0 hd)) as Hc. cbv zeta in Hc.
  rewrite H in Hc. cbn [negb] in Hc.
  set (h := vdi_header_to_cpu be (header_of_mem be (sector0 hd))) in *.
  repeat match goal with
         | H : _ || _ = false |- _ => apply orb_false_iff in H; destruct H
         end.
  repeat match goal with
         | H : negb ?b = false |- context [negb ?b] => rewrite H
         end.
  cbv iota. unfold bdrv_read, next_fault. cbn [faults]. rewrite Hfl.
  cbn [tl]. change (0 <? 0) with false. cbv iota. cbn [fst snd]. eauto.
Qed.

(** C2, as stated, fails: [vdi_open] accepts a file whose signature field
    is zero when the rest of its header is in order. *)
Lemma vdi_open_accepts_bad_signature :
  ~ (signature (decode_le (sector0 (host_of image_no_signature)))
       <> VDI_SIGNATURE ->
     fst (fst (vdi_open false 0 (host_of image_no_signature) [])) < 0).
Proof.
  intros H.
  assert (Hs : signature (decode_le (sector0 (host_of image_no_signature)))
               <> VDI_SIGNATURE) by (vm_compute; discriminate).
  apply H in Hs. vm_compute in Hs. discriminate Hs.
Qed.

(** C2, amended: [vdi_open] rejects every header that fails one of its six
    tests (version, alignment of the block map and of the data, sector
    size, block size, disk size against the block count); the signature is
    not among them, and a header that passes the six tests is accepted when
    the file can be opened and read. *)
Theorem vdi_open_header_tests (be : bool) (open_ret : Z) (hd : Host)
    (heap : list byte) :
  (open_checks (decode_le (sector0 hd)) = false ->
   fst (fst (vdi_open be open_ret hd heap)) < 0 /\
   snd (fst (vdi_open be open_ret hd heap)) = None) /\
  (0 <= open_ret -> faults hd = [] ->
   open_checks (decode_le (sector0 hd)) = true ->
   fst (fst (vdi_open be open_ret hd heap)) = 0 /\
   exists bs, snd (fst (vdi_open be open_ret hd heap)) = Some bs).
Proof.
  split.
  - intros H. apply vdi_open_fails_early. auto.
  - apply vdi_open_succeeds.
Qed.

Lemma vdi_open_header_tests_witness :
  (open_checks (decode_le (sector0 (host_of image_no_version))) = false /\
   fst (fst (vdi_open true 0 (host_of image_no_version) [])) < 0 /\
   snd (fst (vdi_open true 0 (host_of image_no_version) [])) = None) /\
  (0 <= 0 /\ faults (host_of image_no_signature) = [] /\
   open_checks (decode_le (sector0 (host_of image_no_signature))) = true /\
   fst (fst (vdi_open true 0 (host_of image_no_signature) [])) = 0 /\
   exists bs,
     snd (fst (vdi_open true 0 (host_of image_no_signature) [])) = Some bs).
Proof.
  split.
  - split; [vm_compute; reflexivity|].
    apply (proj1 (vdi_open_header_tests true 0 (host_of image_no_version) [])).
    vm_compute; reflexivity.
  - split; [lia|]. split; [reflexivity|]. split; [vm_compute; reflexivity|].
    apply (proj2 (vdi_open_header_tests true 0
                    (host_of image_no_signature) []));
      [lia | reflexivity | vm_compute; reflexivity].
Defined.

(** ** States built by [vdi_open] from files written by [vdi_create] *)

Lemma open_fresh_128 (be : bool) :
  snd (fst (vdi_open be 0 (host_of (fresh_file be 128)) []))
  = Some (fresh_state 128).
Proof. destruct be; vm_compute; reflexivity. Qed.

Lemma open_fresh_256 (be : bool) :
  snd (fst (vdi_open be 0 (host_of (fresh_file be 256)) []))
  = Some (fresh_state 256).
Proof. destruct be; vm_compute; reflexivity. Qed.

Lemma fresh_state_ok :
  data_ok true (fresh_state 128) = true /\ data_ok false (fresh_state 128) = true.
Proof. split; vm_compute; reflexivity. Qed.

(** ** The header in memory *)

Lemma u32_true (x : Z) : u32 x = true -> 0 <= x < 2 ^ (Z.of_nat 4 * 8).
Proof. unfold u32, UINT32_MOD. cbn. lia. Qed.

Lemma u64_true (x : Z) : u64 x = true -> 0 <= x < 2 ^ (Z.of_nat 8 * 8).
Proof. unfold u64, UINT64_MOD. cbn. lia. Qed.

(** Converting the header to little endian and back restores it. *)
Lemma header_roundtrip (be : bool) (h : VdiHeader) :
  header_in_range h = true ->
  vdi_header_to_cpu be (vdi_header_to_le be h) = h.
Proof.
  unfold header_in_range. intros H.
  repeat match goal with
         | H : _ && _ = true |- _ => apply andb_prop in H; destruct H
         end.
  destruct h; cbn in *.
  unfold vdi_header_to_cpu, vdi_header_to_le, map_scalars; cbn.
  repeat match goal with
         | H : u32 _ = true |- _ => apply u32_true in H
         | H : u64 _ = true |- _ => apply u64_true in H
         end.
  rewrite !le_to_cpu_to_le by assumption. reflexivity.
Qed.

Lemma header_in_range_set_blocks_allocated (h : VdiHeader) (v : Z) :
  header_in_range h = true ->
  header_in_range (set_blocks_allocated h (v mod UINT32_MOD)) = true.
Proof.
  unfold header_in_range.
  cbn [signature version header_size image_type image_flags offset_blockmap
       offset_data cylinders heads sectors sector_size disk_size block_size
       block_extra blocks_in_image blocks_allocated set_blocks_allocated].
  intros H. apply andb_prop in H. destruct H as [H _]. rewrite H.
  cbn [andb]. unfold u32.
  pose proof (Z.mod_pos_bound v UINT32_MOD eq_refl) as [Hlo Hhi].
  apply andb_true_intro. split; [apply Z.leb_le | apply Z.ltb_lt]; assumption.
Qed.

(** ** One iteration of [vdi_write] *)

Lemma geometry_ok_facts (bs : BlockDriverState) :
  geometry_ok bs = true ->
  0 < BDRV.block_sectors (opaque bs) < UINT32_MOD /\
  BDRV.block_size (opaque bs) = BDRV.block_sectors (opaque bs) * SECTOR_SIZE /\
  total_sectors bs
  <= Z.of_nat (List.length (BDRV.blockmap (opaque bs)))
     * BDRV.block_sectors (opaque bs).
Proof.
  unfold geometry_ok. intros H.
  repeat match goal with
         | H : _ && _ = true |- _ => apply andb_prop in H; destruct H
         end.
  repeat match goal with
         | H : (_ <? _) = true |- _ => apply Z.ltb_lt in H
         | H : (_ <=? _) = true |- _ => apply Z.leb_le in H
         | H : (_ =? _) = true |- _ => apply Z.eqb_eq in H
         end.
  auto.
Qed.

(** When the write of the new block fails, the iteration returns at once:
    the entry stays assigned and the counter stays incremented. *)
Lemma vdi_write_block_write1_fails (be : bool) (bs : BlockDriverState)
    (hd : Host) (sector_num : Z) (buf : list byte) (nb_sectors w : Z) :
  geometry_ok bs = true ->
  nth_error (BDRV.blockmap (opaque bs))
            (Z.to_nat (sector_num / BDRV.block_sectors (opaque bs))) = Some w ->
  le_to_cpu be 4 w = VDI_UNALLOCATED ->
  next_fault hd = true ->
  exists n bs' hd',
    vdi_write_block be bs hd sector_num buf nb_sectors = Some (-1, n, bs', hd') /\
    BDRV.blockmap (opaque bs') =
      array_set (BDRV.blockmap (opaque bs))
        (Z.to_nat (sector_num / BDRV.block_sectors (opaque bs)))
        (cpu_to_le be 4 (blocks_allocated (BDRV.header (opaque bs)))) /\
    BDRV.header (opaque bs') =
      set_blocks_allocated (BDRV.header (opaque bs))
        ((blocks_allocated (BDRV.header (opaque bs)) + 1) mod UINT32_MOD) /\
    disk hd' = disk hd.
Proof.
  intros Hg Hnth Hw Hf.
  destruct (geometry_ok_facts bs Hg) as (HB & Hsz & _).
  unfold vdi_write_block.
  destruct (Z.eqb_spec (BDRV.block_sectors (opaque bs)) 0) as [E|_]; [lia|].
  rewrite Hnth, Hw. change (VDI_UNALLOCATED =? VDI_UNALLOCATED) with true.
  cbv iota. cbn [BDRV.block_size BDRV.block_sectors set_header set_blockmap].
  destruct (Z.ltb_spec (BDRV.block_size (opaque bs))
              (BDRV.block_sectors (opaque bs) * SECTOR_SIZE)) as [E|_]; [lia|].
  unfold bdrv_write at 1. rewrite Hf.
  change (-1 <? 0) with true. cbv iota.
  do 3 eexists. split; [reflexivity|]. cbn. auto.
Qed.

Lemma vdi_write_first_block (be : bool) (bs : BlockDriverState) (hd : Host)
    (sector_num : Z) (buf : list byte) (nb_sectors : Z) :
  0 <= sector_num < total_sectors bs -> 0 < nb_sectors ->
  exists fuel,
    vdi_write be bs hd sector_num buf nb_sectors =
    match vdi_write_block be bs hd sector_num buf nb_sectors with
    | None => None
    | Some (r, n_sectors, bs, hd) =>
      if r <? 0 then Some (-1, bs, hd)
      else
        vdi_write_loop be fuel bs hd (sector_num + n_sectors)
          (skipn (Z.to_nat (n_sectors * SECTOR_SIZE)) buf)
          (nb_sectors - n_sectors)
    end.
Proof.
  intros Hs Hn. unfold vdi_write.
  destruct (Z.ltb_spec sector_num 0); [lia|].
  destruct (Z.to_nat nb_sectors) as [|fuel] eqn:E; [lia|].
  exists fuel. cbn [vdi_write_loop].
  destruct (Z.gtb_spec nb_sectors 0); [|lia].
  destruct (Z.ltb_spec sector_num (total_sectors bs)); [|lia].
  reflexivity.
Qed.

(** C4, as stated, fails: after the failure of the write of the new block
    the block map entry and the counter are not what they were. *)
Lemma write1_failure_not_reverted :
  ~ (forall r bs' hd',
       vdi_write false (fresh_state 128)
                 (faulty_host (fresh_file false 128) [true]) 0 pattern 1
       = Some (r, bs', hd') ->
       r < 0 ->
       BDRV.blockmap (opaque bs') = BDRV.blockmap (opaque (fresh_state 128)) /\
       blocks_allocated (BDRV.header (opaque bs'))
       = blocks_allocated (BDRV.header (opaque (fresh_state 128)))).
Proof.
  intros H.
  destruct (vdi_write_first_block false (fresh_state 128)
              (faulty_host (fresh_file false 128) [true]) 0 pattern 1)
    as [fuel Hw]; [cbn; lia | lia |].
  destruct (vdi_write_block_write1_fails false (fresh_state 128)
              (faulty_host (fresh_file false 128) [true]) 0 pattern 1
              VDI_UNALLOCATED)
    as (n & bs' & hd' & Hb & Hm & Hh & _); try reflexivity.
  rewrite Hb in Hw. change (-1 <? 0) with true in Hw. cbv iota in Hw.
  destruct (H _ _ _ Hw) as [_ Hc]; [lia|].
  rewrite Hh in Hc. vm_compute in Hc. discriminate Hc.
Qed.

(** C4, amended: when the write of the new block (the first write of the
    growth protocol) fails, [vdi_write] surfaces the error and reverts
    nothing: the block map entry of the logical block holds the reserved
    index, [blocks_allocated] is its prior value plus one, and the file is
    as it was. *)
Theorem write1_failure_keeps_allocation (be : bool) (bs : BlockDriverState)
    (hd : Host) (sector_num : Z) (buf : list byte) (nb_sectors w : Z) :
  geometry_ok bs = true ->
  0 <= sector_num < total_sectors bs -> 0 < nb_sectors ->
  nth_error (BDRV.blockmap (opaque bs))
            (Z.to_nat (sector_num / BDRV.block_sectors (opaque bs))) = Some w ->
  le_to_cpu be 4 w = VDI_UNALLOCATED ->
  next_fault hd = true ->
  exists bs' hd',
    vdi_write be bs hd sector_num buf nb_sectors = Some (-1, bs', hd') /\
    BDRV.blockmap (opaque bs') =
      array_set (BDRV.blockmap (opaque bs))
        (Z.to_nat (sector_num / BDRV.block_sectors (opaque bs)))
        (cpu_to_le be 4 (blocks_allocated (BDRV.header (opaque bs)))) /\
    BDRV.header (opaque bs') =
      set_blocks_allocated (BDRV.header (opaque bs))
        ((blocks_allocated (BDRV.header (opaque bs)) + 1) mod UINT32_MOD) /\
    disk hd' = disk hd.
Proof.
  intros Hg Hs Hn Hnth Hw Hf.
  destruct (vdi_write_first_block be bs hd sector_num buf nb_sectors Hs Hn)
    as [fuel Hwr].
  destruct (vdi_write_block_write1_fails be bs hd sector_num buf nb_sectors w
              Hg Hnth Hw Hf) as (n & bs' & hd' & Hb & Hrest).
  rewrite Hb in Hwr. change (-1 <? 0) with true in Hwr. cbv iota in Hwr.
  exists bs', hd'. split; [exact Hwr | exact Hrest].
Qed.

Lemma write1_failure_keeps_allocation_witness :
  let bs := fresh_state 128 in
  let hd := faulty_host (fresh_file true 128) [true] in
  geometry_ok bs = true /\
  0 <= 2048 < total_sectors bs /\ 0 < 1 /\
  nth_error (BDRV.blockmap (opaque bs))
            (Z.to_nat (2048 / BDRV.block_sectors (opaque bs)))
    = Some VDI_UNALLOCATED /\
  le_to_cpu true 4 VDI_UNALLOCATED = VDI_UNALLOCATED /\
  next_fault hd = true /\
  exists bs' hd',
    vdi_write true bs hd 2048 pattern 1 = Some (-1, bs', hd') /\
    BDRV.blockmap (opaque bs') =
      array_set (BDRV.blockmap (opaque bs))
        (Z.to_nat (2048 / BDRV.block_sectors (opaque bs)))
        (cpu_to_le true 4 (blocks_allocated (BDRV.header (opaque bs)))) /\
    BDRV.header (opaque bs') =
      set_blocks_allocated (BDRV.header (opaque bs))
        ((blocks_allocated (BDRV.header (opaque bs)) + 1) mod UINT32_MOD) /\
    disk hd' = disk hd.
Proof.
  cbv zeta.
  split; [vm_compute; reflexivity|].
  split; [vm_compute; split; [discriminate | reflexivity]|].
  split; [lia|].
  split; [vm_compute; reflexivity|].
  split; [vm_compute; reflexivity|].
  split; [reflexivity|].
  apply (write1_failure_keeps_allocation true (fresh_state 128)
           (faulty_host (fresh_file true 128) [true]) 2048 pattern 1
           VDI_UNALLOCATED).
  - vm_compute; reflexivity.
  - vm_compute; split; [discriminate | reflexivity].
  - lia.
  - vm_compute; reflexivity.
  - vm_compute; reflexivity.
  - reflexivity.
Defined.

(** ** The map sector write *)

(** C1: a first write to block 128 of a fresh image of 256 blocks.  The
    entry assigned is entry 128 of the block map, which lies in map sector
    floor(128 * 4 / 512) = 1, file sector 2.  Both [vdi_write] and the
    callbacks of [vdi_aio_writev] write the new block at file sector 3,
    then map sector 0 (file sector 1), then the header: the sector written
    is the one holding the entry whose index is the physical index 0.
    Entry 128 of the map on disk is left [VDI_UNALLOCATED].  No request
    fails here, so that the value [err] of the block layer for a failure
    plays no part. *)
Theorem map_sector_write_uses_physical_index :
  let bs := fresh_state 256 in
  let hd := host_of (fresh_file false 256) in
  offset_blockmap (BDRV.header (opaque bs)) / SECTOR_SIZE
    + 128 * 4 / SECTOR_SIZE = 2 /\
  option_map (observe_entry 128)
             (vdi_write false bs hd (128 * 2048) pattern 1)
  = Some (0, [IoWrite 0 1; IoWrite 1 1; IoWrite 3 2048],
          Some 0, VDI_UNALLOCATED) /\
  (forall err,
     option_map (observe_entry 128)
                (vdi_aio_writev false bs hd (128 * 2048) pattern 1 err)
     = Some (0, [IoWrite 0 1; IoWrite 1 1; IoWrite 3 2048],
             Some 0, VDI_UNALLOCATED)).
Proof.
  cbv zeta. split; [reflexivity|].
  split; [|intros err]; vm_compute; reflexivity.
Qed.

(** ** Chunks *)

Lemma chunk_bounds (B sn nb : Z) :
  0 < B -> 0 <= sn -> 0 < nb ->
  let sib := sn mod B in
  let n := if B - sib >? nb then nb else B - sib in
  1 <= n <= nb /\ n <= B - sib /\ 0 <= sib < B.
Proof.
  intros HB Hsn Hnb. cbv zeta.
  pose proof (Z.mod_pos_bound sn B HB).
  destruct (Z.gtb_spec (B - sn mod B) nb); lia.
Qed.

Lemma same_block (B sn t : Z) :
  0 < B -> 0 <= sn -> sn <= t < sn + (B - sn mod B) ->
  t / B = sn / B /\ t mod B = sn mod B + (t - sn).
Proof.
  intros HB Hsn Ht.
  pose proof (Z.mod_pos_bound sn B HB).
  pose proof (Z.div_mod sn B ltac:(lia)) as Hdm.
  assert (Heq : t = B * (sn / B) + (sn mod B + (t - sn))) by lia.
  split.
  - symmetry. apply (Z.div_unique t B (sn / B) (sn mod B + (t - sn))); [lia | exact Heq].
  - symmetry. apply (Z.mod_unique t B (sn / B) (sn mod B + (t - sn))); [lia | exact Heq].
Qed.

Lemma block_index_in_range (bs : BlockDriverState) (sn : Z) :
  geometry_ok bs = true -> 0 <= sn < total_sectors bs ->
  exists w, nth_error (BDRV.blockmap (opaque bs))
                      (Z.to_nat (sn / BDRV.block_sectors (opaque bs))) = Some w.
Proof.
  intros Hg Hsn. destruct (geometry_ok_facts bs Hg) as (HB & _ & Ht).
  assert (Hlt : sn / BDRV.block_sectors (opaque bs)
                < Z.of_nat (List.length (BDRV.blockmap (opaque bs)))).
  { apply Z.div_lt_upper_bound; [lia | nia]. }
  assert (Hge : 0 <= sn / BDRV.block_sectors (opaque bs))
    by (apply Z.div_pos; lia).
  destruct (nth_error (BDRV.blockmap (opaque bs))
              (Z.to_nat (sn / BDRV.block_sectors (opaque bs)))) as [w|] eqn:E.
  - eauto.
  - apply nth_error_None in E. lia.
Qed.

(** ** Slices *)

Lemma nth_slice (buf : list byte) (off n i : nat) :
  (i < n)%nat -> nth i (slice buf off n) Byte.x00 = nth (off + i) buf Byte.x00.
Proof.
  intros Hi. unfold slice. rewrite nth_firstn.
  destruct (Nat.ltb_spec i n) as [_|]; [|lia].
  destruct (Nat.lt_ge_cases i (List.length (skipn off buf))) as [Hlt|Hge].
  - rewrite app_nth1 by exact Hlt. apply nth_skipn.
  - rewrite app_nth2 by exact Hge. rewrite nth_repeat.
    rewrite length_skipn in Hge. symmetry. apply nth_overflow. lia.
Qed.

Lemma slice_ext (a b : list byte) (offa offb n : nat) :
  (forall i, (i < n)%nat ->
             nth (offa + i) a Byte.x00 = nth (offb + i) b Byte.x00) ->
  slice a offa n = slice b offb n.
Proof.
  intros H. apply (nth_ext _ _ Byte.x00 Byte.x00).
  - now rewrite !length_slice.
  - intros i Hi. rewrite length_slice in Hi. rewrite !nth_slice by exact Hi.
    apply H, Hi.
Qed.

Lemma slice_app_l (a b : list byte) (off n : nat) :
  (off + n <= List.length a)%nat -> slice (a ++ b) off n = slice a off n.
Proof.
  intros H. apply slice_ext. intros i Hi. apply app_nth1. lia.
Qed.

Lemma slice_app_r (a b : list byte) (off n : nat) :
  slice (a ++ b) (List.length a + off) n = slice b off n.
Proof.
  apply slice_ext. intros i Hi. rewrite app_nth2 by lia. f_equal. lia.
Qed.

Lemma slice_zeros (m off n : nat) :
  slice (repeat Byte.x00 m) off n = repeat Byte.x00 n.
Proof.
  apply (nth_ext _ _ Byte.x00 Byte.x00).
  - now rewrite length_slice, repeat_length.
  - intros i Hi. rewrite length_slice in Hi.
    rewrite nth_slice by exact Hi. now rewrite !nth_repeat.
Qed.

(** ** [vdi_read] *)

Lemma block_entry_same_block (be : bool) (bs : BlockDriverState) (sn t : Z) :
  0 < BDRV.block_sectors (opaque bs) -> 0 <= sn ->
  sn <= t < sn + (BDRV.block_sectors (opaque bs)
                  - sn mod BDRV.block_sectors (opaque bs)) ->
  block_entry be bs t = block_entry be bs sn.
Proof.
  intros HB Hsn Ht. unfold block_entry.
  destruct (same_block _ sn t HB Hsn Ht) as [-> _]. reflexivity.
Qed.

Lemma vdi_read_loop_spec (be : bool) (bs : BlockDriverState) (fuel : nat) :
  geometry_ok bs = true ->
  forall (hd : Host) (sector_num : Z) (buf : list byte) (nb_sectors : Z),
    0 <= sector_num -> sector_num + nb_sectors <= total_sectors bs ->
    (Z.to_nat nb_sectors <= fuel)%nat ->
    exists r out hd' reqs,
      vdi_read_loop be fuel bs hd sector_num buf nb_sectors
        = Some (r, out, hd') /\
      disk hd' = disk hd /\
      trace hd' = reqs ++ trace hd /\
      Forall (read_of_allocated be bs sector_num nb_sectors) reqs /\
      (r = 0 ->
       forall t, sector_num <= t < sector_num + nb_sectors ->
         block_entry be bs t = Some VDI_UNALLOCATED ->
         slice out (Z.to_nat ((t - sector_num) * SECTOR_SIZE)) 512
         = repeat Byte.x00 512).
Proof.
  intros Hg. destruct (geometry_ok_facts bs Hg) as (HB & _ & Htot).
  induction fuel as [|fuel IH]; intros hd sector_num buf nb_sectors Hsn Hend Hfuel.
  - exists 0, buf, hd, []. cbn [vdi_read_loop].
    destruct (Z.gtb_spec nb_sectors 0) as [Hnb|Hnb]; [lia|]. cbn [andb].
    repeat split; auto. intros _ t Ht. lia.
  - cbn [vdi_read_loop].
    destruct (Z.gtb_spec nb_sectors 0) as [Hnb|Hnb]; cbn [andb].
    2:{ exists 0, buf, hd, []. repeat split; auto. intros _ t Ht. lia. }
    destruct (Z.ltb_spec sector_num (total_sectors bs)) as [Hlt|Hge]; [|lia].
    destruct (Z.eqb_spec (BDRV.block_sectors (opaque bs)) 0) as [E|_]; [lia|].
    destruct (block_index_in_range bs sector_num Hg ltac:(lia)) as [w Hw].
    rewrite Hw.
    pose proof (chunk_bounds (BDRV.block_sectors (opaque bs)) sector_num
                  nb_sectors ltac:(lia) Hsn ltac:(lia)) as Hn.
    cbv zeta in Hn.
    set (B := BDRV.block_sectors (opaque bs)) in *.
    set (n := if B - sector_num mod B >? nb_sectors then nb_sectors
              else B - sector_num mod B) in *.
    destruct Hn as (Hn1 & Hn2 & Hsib).
    assert (Hentry : block_entry be bs sector_num = Some (le_to_cpu be 4 w)).
    { unfold block_entry, block_entry_at. fold B. now rewrite Hw. }
    assert (Hlen : Z.to_nat (n * SECTOR_SIZE) = (Z.to_nat n * 512)%nat).
    { unfold SECTOR_SIZE. rewrite Z2Nat.inj_mul by lia. reflexivity. }
    destruct (Z.eqb_spec (le_to_cpu be 4 w) VDI_UNALLOCATED) as [Hun|Hal].
    + (* Block not allocated, return zeros. *)
      change (0 <? 0) with false. cbv iota.
      destruct (IH hd (sector_num + n)
                  (skipn (Z.to_nat (n * SECTOR_SIZE))
                         (memset0 buf (n * SECTOR_SIZE)))
                  (nb_sectors - n) ltac:(lia) ltac:(lia) ltac:(lia))
        as (r & rest & hd' & reqs & Hrun & Hdisk & Htr & Hreqs & Hz).
      rewrite Hrun. exists r, (firstn (Z.to_nat (n * SECTOR_SIZE))
                                 (memset0 buf (n * SECTOR_SIZE)) ++ rest),
                    hd', reqs.
      split; [reflexivity|]. split; [exact Hdisk|]. split; [exact Htr|].
      split.
      * eapply Forall_impl; [|exact Hreqs].
        intros rq (t & e & m & Ht & He & Hne & Hm & Hrq).
        exists t, e, m. repeat split; auto; lia.
      * intros Hr t Ht Hte.
        assert (Hfirst : firstn (Z.to_nat (n * SECTOR_SIZE))
                           (memset0 buf (n * SECTOR_SIZE))
                         = repeat Byte.x00 (Z.to_nat (n * SECTOR_SIZE))).
        { unfold memset0. rewrite firstn_app, repeat_length, Nat.sub_diag.
          cbn [firstn]. rewrite app_nil_r.
          apply firstn_all2. now rewrite repeat_length. }
        rewrite Hfirst.
        destruct (Z.lt_ge_cases t (sector_num + n)) as [Hin|Hout].
        -- rewrite slice_app_l.
           ++ apply slice_zeros.
           ++ rewrite repeat_length, Hlen. unfold SECTOR_SIZE.
              rewrite Z2Nat.inj_mul by lia. change (Z.to_nat 512) with 512%nat.
              assert (Z.to_nat (t - sector_num) < Z.to_nat n)%nat by lia. lia.
        -- replace (Z.to_nat ((t - sector_num) * SECTOR_SIZE))
             with (List.length (repeat Byte.x00 (Z.to_nat (n * SECTOR_SIZE)))
                   + Z.to_nat ((t - (sector_num + n)) * SECTOR_SIZE))%nat
             by (rewrite repeat_length; unfold SECTOR_SIZE; lia).
           rewrite slice_app_r. apply (Hz Hr t); [lia | exact Hte].
    + (* The block is allocated: read it from the file. *)
      set (offset := (offset_data (BDRV.header (opaque bs)) / SECTOR_SIZE
                      + le_to_cpu be 4 w * B + sector_num mod B)
                       mod UINT64_MOD).
      assert (Hrq : read_of_allocated be bs sector_num nb_sectors
                      (IoRead offset n)).
      { exists sector_num, (le_to_cpu be 4 w), n. fold B.
        repeat split; auto; lia. }
      unfold bdrv_read. destruct (next_fault hd).
      * change (-1 <? 0) with true. cbv iota.
        exists (-1), buf,
          {| disk := disk hd; faults := tl (faults hd);
             trace := IoRead offset n :: trace hd |}, [IoRead offset n].
        repeat split; auto. intros Hr. discriminate Hr.
      * change (0 <? 0) with false. cbv iota.
        set (hd1 := {| disk := disk hd; faults := tl (faults hd);
                       trace := IoRead offset n :: trace hd |}).
        set (buf1 := disk_bytes (disk hd) (offset * SECTOR_SIZE)
                       (Z.to_nat (n * SECTOR_SIZE))
                     ++ skipn (Z.to_nat (n * SECTOR_SIZE)) buf).
        destruct (IH hd1 (sector_num + n)
                    (skipn (Z.to_nat (n * SECTOR_SIZE)) buf1)
                    (nb_sectors - n) ltac:(lia) ltac:(lia) ltac:(lia))
          as (r & rest & hd' & reqs & Hrun & Hdisk & Htr & Hreqs & Hz).
        rewrite Hrun.
        exists r, (firstn (Z.to_nat (n * SECTOR_SIZE)) buf1 ++ rest), hd',
               (reqs ++ [IoRead offset n]).
        split; [reflexivity|]. split; [exact Hdisk|].
        split; [rewrite Htr; cbn [trace hd1]; now rewrite <- app_assoc|].
        split.
        -- apply Forall_app. split.
           ++ eapply Forall_impl; [|exact Hreqs].
              intros rq (t & e & m & Ht & He & Hne & Hm & Hrq').
              exists t, e, m. repeat split; auto; lia.
           ++ constructor; [exact Hrq | constructor].
        -- intros Hr t Ht Hte.
           assert (Hfirst : List.length (firstn (Z.to_nat (n * SECTOR_SIZE)) buf1)
                            = Z.to_nat (n * SECTOR_SIZE)).
           { unfold buf1. rewrite firstn_app, length_disk_bytes, Nat.sub_diag.
             cbn [firstn]. rewrite app_nil_r, firstn_all2
               by (rewrite length_disk_bytes; lia).
             apply length_disk_bytes. }
           destruct (Z.lt_ge_cases t (sector_num + n)) as [Hin|Hout].
           ++ exfalso.
              rewrite (block_entry_same_block be bs sector_num t) in Hte
                by (fold B; lia).
              rewrite Hentry in Hte. congruence.
           ++ replace (Z.to_nat ((t - sector_num) * SECTOR_SIZE))
                with (List.length (firstn (Z.to_nat (n * SECTOR_SIZE)) buf1)
                      + Z.to_nat ((t - (sector_num + n)) * SECTOR_SIZE))%nat
                by (rewrite Hfirst; unfold SECTOR_SIZE; lia).
              rewrite slice_app_r. apply (Hz Hr t); [lia | exact Hte].
Qed.

(** The outcome of [vdi_read]: its result is -1 exactly when a request it
    made to the file failed; the requests use up the outcomes of the file
    in order; a buffer that holds the sectors asked for keeps its
    length. *)
Lemma vdi_read_loop_outcome (be : bool) (bs : BlockDriverState) (fuel : nat) :
  geometry_ok bs = true ->
  forall (hd : Host) (sector_num : Z) (buf : list byte) (nb_sectors : Z),
    0 <= sector_num -> sector_num + nb_sectors <= total_sectors bs ->
    (Z.to_nat nb_sectors <= fuel)%nat ->
    exists r out hd' reqs,
      vdi_read_loop be fuel bs hd sector_num buf nb_sectors
        = Some (r, out, hd') /\
      trace hd' = reqs ++ trace hd /\
      faults hd' = skipn (List.length reqs) (faults hd) /\
      r = (if existsb (fun f => f) (firstn (List.length reqs) (faults hd))
           then -1 else 0) /\
      ((Z.to_nat (nb_sectors * SECTOR_SIZE) <= List.length buf)%nat ->
       List.length out = List.length buf).
Proof.
  intros Hg. destruct (geometry_ok_facts bs Hg) as (HB & _ & Htot).
  induction fuel as [|fuel IH]; intros hd sector_num buf nb_sectors Hsn Hend Hfuel.
  - exists 0, buf, hd, []. cbn [vdi_read_loop].
    destruct (Z.gtb_spec nb_sectors 0) as [Hnb|Hnb]; [lia|]. cbn [andb].
    repeat split; auto.
  - cbn [vdi_read_loop].
    destruct (Z.gtb_spec nb_sectors 0) as [Hnb|Hnb]; cbn [andb].
    2:{ exists 0, buf, hd, []. repeat split; auto. }
    destruct (Z.ltb_spec sector_num (total_sectors bs)) as [Hlt|Hge]; [|lia].
    destruct (Z.eqb_spec (BDRV.block_sectors (opaque bs)) 0) as [E|_]; [lia|].
    destruct (block_index_in_range bs sector_num Hg ltac:(lia)) as [w Hw].
    rewrite Hw.
    pose proof (chunk_bounds (BDRV.block_sectors (opaque bs)) sector_num
                  nb_sectors ltac:(lia) Hsn ltac:(lia)) as Hn.
    cbv zeta in Hn.
    set (B := BDRV.block_sectors (opaque bs)) in *.
    set (n := if B - sector_num mod B >? nb_sectors then nb_sectors
              else B - sector_num mod B) in *.
    destruct Hn as (Hn1 & Hn2 & Hsib).
    set (len := Z.to_nat (n * SECTOR_SIZE)).
    assert (Hlen : (len <= Z.to_nat (nb_sectors * SECTOR_SIZE))%nat)
      by (unfold len, SECTOR_SIZE; lia).
    assert (Hrest : (Z.to_nat ((nb_sectors - n) * SECTOR_SIZE)
                     = Z.to_nat (nb_sectors * SECTOR_SIZE) - len)%nat)
      by (unfold len, SECTOR_SIZE; lia).
    destruct (le_to_cpu be 4 w =? VDI_UNALLOCATED).
    + (* Block not allocated, return zeros. *)
      change (0 <? 0) with false. cbv iota. fold len.
      destruct (IH hd (sector_num + n)
                  (skipn len (memset0 buf (n * SECTOR_SIZE)))
                  (nb_sectors - n) ltac:(lia) ltac:(lia) ltac:(lia))
        as (r & rest & hd' & reqs & Hrun & Htr & Hfl & Hret & Hlr).
      rewrite Hrun.
      exists r, (firstn len (memset0 buf (n * SECTOR_SIZE)) ++ rest), hd', reqs.
      split; [reflexivity|]. split; [exact Htr|]. split; [exact Hfl|].
      split; [exact Hret|]. intros Hb.
      assert (Hm : List.length (memset0 buf (n * SECTOR_SIZE))
                   = List.length buf).
      { unfold memset0. fold len.
        rewrite length_app, repeat_length, length_skipn. lia. }
      rewrite length_app, length_firstn, Hlr, length_skipn, Hm; [lia|].
      rewrite length_skipn, Hm. lia.
    + (* The block is allocated: read it from the file. *)
      set (offset := (offset_data (BDRV.header (opaque bs)) / SECTOR_SIZE
                      + le_to_cpu be 4 w * B + sector_num mod B)
                       mod UINT64_MOD).
      unfold bdrv_read, next_fault. fold len.
      destruct (faults hd) as [|f fl] eqn:Hf; [|destruct f].
      * change (0 <? 0) with false. cbv iota.
        set (hd1 := {| disk := disk hd; faults := tl [];
                       trace := IoRead offset n :: trace hd |}).
        set (buf1 := disk_bytes (disk hd) (offset * SECTOR_SIZE) len
                     ++ skipn len buf).
        destruct (IH hd1 (sector_num + n) (skipn len buf1)
                    (nb_sectors - n) ltac:(lia) ltac:(lia) ltac:(lia))
          as (r & rest & hd' & reqs & Hrun & Htr & Hfl & Hret & Hlr).
        rewrite Hrun.
        exists r, (firstn len buf1 ++ rest), hd', (reqs ++ [IoRead offset n]).
        split; [reflexivity|].
        split; [rewrite Htr; cbn [trace hd1]; now rewrite <- app_assoc|].
        cbn [faults hd1 tl] in Hfl, Hret.
        rewrite skipn_nil in Hfl. rewrite firstn_nil in Hret.
        rewrite skipn_nil, firstn_nil.
        split; [exact Hfl|]. split; [exact Hret|]. intros Hb.
        assert (Hm : List.length buf1 = List.length buf).
        { unfold buf1. rewrite length_app, length_disk_bytes, length_skipn.
          lia. }
        rewrite length_app, length_firstn, Hlr, length_skipn, Hm; [lia|].
        rewrite length_skipn, Hm. lia.
      * change (-1 <? 0) with true. cbv iota.
        exists (-1), buf,
          {| disk := disk hd; faults := tl (true :: fl);
             trace := IoRead offset n :: trace hd |}, [IoRead offset n].
        repeat split; auto.
      * change (0 <? 0) with false. cbv iota.
        set (hd1 := {| disk := disk hd; faults := tl (false :: fl);
                       trace := IoRead offset n :: trace hd |}).
        set (buf1 := disk_bytes (disk hd) (offset * SECTOR_SIZE) len
                     ++ skipn len buf).
        destruct (IH hd1 (sector_num + n) (skipn len buf1)
                    (nb_sectors - n) ltac:(lia) ltac:(lia) ltac:(lia))
          as (r & rest & hd' & reqs & Hrun & Htr & Hfl & Hret & Hlr).
        rewrite Hrun.
        exists r, (firstn len buf1 ++ rest), hd', (reqs ++ [IoRead offset n]).
        split; [reflexivity|].
        split; [rewrite Htr; cbn [trace hd1]; now rewrite <- app_assoc|].
        cbn [faults hd1 tl] in Hfl, Hret.
        rewrite length_app, Nat.add_comm. cbn [List.length Nat.add].
        cbn [skipn firstn existsb orb].
        split; [exact Hfl|]. split; [exact Hret|]. intros Hb.
        assert (Hm : List.length buf1 = List.length buf).
        { unfold buf1. rewrite length_app, length_disk_bytes, length_skipn.
          lia. }
        rewrite length_app, length_firstn, Hlr, length_skipn, Hm; [lia|].
        rewrite length_skipn, Hm. lia.
Qed.

(** C7: [vdi_read] of a range within the disk into a buffer that holds the
    sectors asked for returns, and the buffer keeps its length.  Every
    request it makes to the file is made for a sector whose block is
    allocated and stays within that block, so that nothing is read from the
    file for an unallocated block; the bytes of the file are not changed.
    The result is 0 unless one of these requests fails, in which case it is
    -1; in particular it is 0 and no request is made when no block of the
    range is allocated.  When the result is 0, the 512 bytes of every
    sector of the range whose block map entry is [VDI_UNALLOCATED] are zero
    in the destination buffer. *)
Theorem vdi_read_unallocated_zero (be : bool) (bs : BlockDriverState)
    (hd : Host) (sector_num : Z) (buf : list byte) (nb_sectors : Z) :
  geometry_ok bs = true ->
  0 <= sector_num -> sector_num + nb_sectors <= total_sectors bs ->
  (Z.to_nat (nb_sectors * SECTOR_SIZE) <= List.length buf)%nat ->
  exists r out hd' reqs,
    vdi_read be bs hd sector_num buf nb_sectors = Some (r, out, hd') /\
    List.length out = List.length buf /\
    disk hd' = disk hd /\
    trace hd' = reqs ++ trace hd /\
    faults hd' = skipn (List.length reqs) (faults hd) /\
    Forall (read_of_allocated be bs sector_num nb_sectors) reqs /\
    r = (if existsb (fun f => f) (firstn (List.length reqs) (faults hd))
         then -1 else 0) /\
    ((forall t, sector_num <= t < sector_num + nb_sectors ->
                block_entry be bs t = Some VDI_UNALLOCATED) ->
     reqs = [] /\ r = 0) /\
    (r = 0 ->
     forall t, sector_num <= t < sector_num + nb_sectors ->
       block_entry be bs t = Some VDI_UNALLOCATED ->
       firstn 512 (skipn (Z.to_nat ((t - sector_num) * SECTOR_SIZE)) out)
       = repeat Byte.x00 512).
Proof.
  intros Hg Hsn Hend Hbuf. unfold vdi_read.
  destruct (Z.ltb_spec sector_num 0) as [Hneg|_]; [lia|].
  destruct (vdi_read_loop_spec be bs (Z.to_nat nb_sectors) Hg hd sector_num
              buf nb_sectors Hsn Hend ltac:(lia))
    as (r & out & hd' & reqs & Hrun & Hdisk & Htr & Hreqs & Hz).
  destruct (vdi_read_loop_outcome be bs (Z.to_nat nb_sectors) Hg hd sector_num
              buf nb_sectors Hsn Hend ltac:(lia))
    as (r2 & out2 & hd2 & reqs2 & Hrun2 & Htr2 & Hfl & Hret & Hlen).
  rewrite Hrun in Hrun2. injection Hrun2 as <- <- <-.
  rewrite Htr in Htr2. apply app_inv_tail in Htr2. subst reqs2.
  specialize (Hlen Hbuf).
  exists r, out, hd', reqs.
  split; [exact Hrun|]. split; [exact Hlen|]. split; [exact Hdisk|].
  split; [exact Htr|]. split; [exact Hfl|]. split; [exact Hreqs|].
  split; [exact Hret|]. split.
  - intros Hall.
    assert (Hnil : reqs = []).
    { destruct reqs as [|rq reqs]; [reflexivity|]. exfalso.
      apply Forall_inv in Hreqs.
      destruct Hreqs as (t & e & m & Ht & He & Hne & _).
      rewrite (Hall t Ht) in He. congruence. }
    split; [exact Hnil|]. rewrite Hret, Hnil. reflexivity.
  - intros Hr t Ht Hte. specialize (Hz Hr t Ht Hte).
    unfold slice in Hz. rewrite firstn_app in Hz.
    assert (Hs : (512 <= List.length
                    (skipn (Z.to_nat ((t - sector_num) * SECTOR_SIZE)) out))%nat).
    { rewrite length_skipn, Hlen. unfold SECTOR_SIZE in *. lia. }
    replace (512 - List.length
                     (skipn (Z.to_nat ((t - sector_num) * SECTOR_SIZE)) out))%nat
      with 0%nat in Hz by lia.
    cbn [firstn] in Hz. now rewrite app_nil_r in Hz.
Qed.

Lemma vdi_read_unallocated_zero_witness :
  let bs := fresh_state 128 in
  let hd := faulty_host (fresh_file true 128) [true] in
  let buf := repeat Byte.xff 1024 in
  geometry_ok bs = true /\ 0 <= 2047 /\ 2047 + 2 <= total_sectors bs /\
  (Z.to_nat (2 * SECTOR_SIZE) <= List.length buf)%nat /\
  exists r out hd' reqs,
    vdi_read true bs hd 2047 buf 2 = Some (r, out, hd') /\
    List.length out = List.length buf /\
    disk hd' = disk hd /\
    trace hd' = reqs ++ trace hd /\
    faults hd' = skipn (List.length reqs) (faults hd) /\
    Forall (read_of_allocated true bs 2047 2) reqs /\
    r = (if existsb (fun f => f) (firstn (List.length reqs) (faults hd))
         then -1 else 0) /\
    ((forall t, 2047 <= t < 2047 + 2 ->
                block_entry true bs t = Some VDI_UNALLOCATED) ->
     reqs = [] /\ r = 0) /\
    (r = 0 ->
     forall t, 2047 <= t < 2047 + 2 ->
       block_entry true bs t = Some VDI_UNALLOCATED ->
       firstn 512 (skipn (Z.to_nat ((t - 2047) * SECTOR_SIZE)) out)
       = repeat Byte.x00 512).
Proof.
  cbv zeta. split; [vm_compute; reflexivity|]. split; [lia|].
  split; [vm_compute; discriminate|].
  split; [vm_compute; apply Nat.le_refl|].
  apply (vdi_read_unallocated_zero true (fresh_state 128)
           (faulty_host (fresh_file true 128) [true]) 2047
           (repeat Byte.xff 1024) 2).
  - vm_compute; reflexivity.
  - lia.
  - vm_compute; discriminate.
  - vm_compute; apply Nat.le_refl.
Defined.

(** ** The state after one iteration of [vdi_write] *)

Lemma set_header_roundtrip (be : bool) (s : BDRV.BDRVVdiState) :
  header_in_range (BDRV.header s) = true ->
  set_header (set_header s (vdi_header_to_le be (BDRV.header s)))
    (vdi_header_to_cpu be
       (BDRV.header (set_header s (vdi_header_to_le be (BDRV.header s)))))
  = s.
Proof.
  intros H. cbn [BDRV.header set_header]. rewrite header_roundtrip by exact H.
  destruct s; reflexivity.
Qed.

(** Whatever the outcome of the requests to the file, an iteration leaves
    the state as it was (existing block) or as the reservation made it
    (new block), with the header in host order. *)
Lemma vdi_write_block_state (be : bool) (bs : BlockDriverState) (hd : Host)
    (sector_num : Z) (buf : list byte) (nb_sectors w : Z) :
  geometry_ok bs = true ->
  header_in_range (BDRV.header (opaque bs)) = true ->
  nth_error (BDRV.blockmap (opaque bs))
            (Z.to_nat (sector_num / BDRV.block_sectors (opaque bs))) = Some w ->
  exists r hd',
    vdi_write_block be bs hd sector_num buf nb_sectors
    = Some (r, chunk_sectors bs sector_num nb_sectors,
            (if le_to_cpu be 4 w =? VDI_UNALLOCATED
             then allocate be bs
                    (Z.to_nat (sector_num / BDRV.block_sectors (opaque bs)))
             else bs), hd') /\
    (r = 0 \/ r = -1).
Proof.
  intros Hg Hr Hnth.
  destruct (geometry_ok_facts bs Hg) as (HB & Hsz & _).
  unfold vdi_write_block, chunk_sectors.
  destruct (Z.eqb_spec (BDRV.block_sectors (opaque bs)) 0) as [E|_]; [lia|].
  rewrite Hnth.
  destruct (le_to_cpu be 4 w =? VDI_UNALLOCATED).
  - cbn [BDRV.block_size BDRV.block_sectors set_header set_blockmap].
    destruct (Z.ltb_spec (BDRV.block_size (opaque bs))
                (BDRV.block_sectors (opaque bs) * SECTOR_SIZE)) as [E|_]; [lia|].
    set (s1 := set_header _ _).
    assert (Hr1 : header_in_range (BDRV.header s1) = true)
      by (apply header_in_range_set_blocks_allocated, Hr).
    unfold bdrv_write at 1. destruct (next_fault hd).
    { change (-1 <? 0) with true. cbv iota. eauto. }
    change (0 <? 0) with false. cbv iota.
    unfold bdrv_write at 1. destruct (next_fault _).
    { change (-1 <? 0) with true. cbv iota. eauto. }
    change (0 <? 0) with false. cbv iota.
    unfold bdrv_write at 1. destruct (next_fault _).
    { change (-1 <? 0) with true. cbv iota.
      rewrite set_header_roundtrip by exact Hr1. eauto. }
    change (0 <? 0) with false. cbv iota.
    rewrite set_header_roundtrip by exact Hr1. eauto.
  - unfold bdrv_write. destruct (next_fault hd).
    + change (-1 <? 0) with true. cbv iota. eauto.
    + change (0 <? 0) with false. cbv iota. eauto.
Qed.

(** ** The allocation counter *)

Lemma length_array_set (a : list Z) (i : nat) (v : Z) :
  List.length (array_set a i v) = List.length a.
Proof.
  revert i. induction a as [|x a IH]; intros [|i]; cbn; auto.
Qed.

Lemma nth_error_array_set_same (a : list Z) (i : nat) (v : Z) :
  (i < List.length a)%nat -> nth_error (array_set a i v) i = Some v.
Proof.
  revert i. induction a as [|x a IH]; intros [|i] H; cbn in *; try lia; auto.
  apply IH. lia.
Qed.

Lemma nth_error_array_set_other (a : list Z) (i j : nat) (v : Z) :
  i <> j -> nth_error (array_set a i v) j = nth_error a j.
Proof.
  revert i j. induction a as [|x a IH]; intros [|i] [|j] H; cbn; auto; try lia.
Qed.

Lemma count_allocated_cons (be : bool) (w : Z) (m : list Z) :
  count_allocated be (w :: m)
  = (if is_allocated be w then 1 else 0) + count_allocated be m.
Proof.
  unfold count_allocated. cbn [filter].
  destruct (is_allocated be w); cbn [List.length]; lia.
Qed.

Lemma count_allocated_bounds (be : bool) (m : list Z) :
  0 <= count_allocated be m <= Z.of_nat (List.length m).
Proof.
  induction m as [|w m IH].
  - cbn. lia.
  - rewrite count_allocated_cons. cbn [List.length].
    destruct (is_allocated be w); lia.
Qed.

(** An unallocated entry leaves room in the counter. *)
Lemma count_allocated_lt (be : bool) (m : list Z) (i : nat) (w : Z) :
  nth_error m i = Some w -> is_allocated be w = false ->
  count_allocated be m < Z.of_nat (List.length m).
Proof.
  revert i. induction m as [|x m IH]; intros [|i] Hn Hw; cbn in Hn; try discriminate.
  - injection Hn as ->. rewrite count_allocated_cons, Hw. cbn [List.length].
    pose proof (count_allocated_bounds be m). lia.
  - rewrite count_allocated_cons. cbn [List.length].
    specialize (IH i Hn Hw). destruct (is_allocated be x); lia.
Qed.

(** Assigning an allocated value to an unallocated entry adds one. *)
Lemma count_allocated_array_set (be : bool) (m : list Z) (i : nat) (w v : Z) :
  nth_error m i = Some w -> is_allocated be w = false ->
  is_allocated be v = true ->
  count_allocated be (array_set m i v) = count_allocated be m + 1.
Proof.
  revert i. induction m as [|x m IH]; intros [|i] Hn Hw Hv; cbn in Hn; try discriminate.
  - injection Hn as ->. cbn [array_set].
    rewrite !count_allocated_cons, Hw, Hv. lia.
  - cbn [array_set]. rewrite !count_allocated_cons.
    rewrite (IH i Hn Hw Hv). lia.
Qed.

Lemma image_ok_facts (be : bool) (bs : BlockDriverState) :
  image_ok be bs = true ->
  geometry_ok bs = true /\
  header_in_range (BDRV.header (opaque bs)) = true /\
  Z.of_nat (List.length (BDRV.blockmap (opaque bs))) < UINT32_MOD /\
  count_allocated be (BDRV.blockmap (opaque bs))
  = blocks_allocated (BDRV.header (opaque bs)).
Proof.
  unfold image_ok. intros H.
  repeat match goal with
         | H : _ && _ = true |- _ => apply andb_prop in H; destruct H
         end.
  repeat split; auto; [apply Z.ltb_lt | apply Z.eqb_eq]; assumption.
Qed.

Lemma is_allocated_false (be : bool) (w : Z) :
  is_allocated be w = false <-> le_to_cpu be 4 w = VDI_UNALLOCATED.
Proof.
  unfold is_allocated. destruct (Z.eqb_spec (le_to_cpu be 4 w) VDI_UNALLOCATED);
    cbn; split; intros; congruence.
Qed.

(** The reservation of a new block keeps the invariant of the counter; the
    new entry decodes to the prior value of the counter. *)
Lemma allocate_image_ok (be : bool) (bs : BlockDriverState) (i : nat) (w : Z) :
  image_ok be bs = true ->
  nth_error (BDRV.blockmap (opaque bs)) i = Some w ->
  le_to_cpu be 4 w = VDI_UNALLOCATED ->
  image_ok be (allocate be bs i) = true /\
  total_sectors (allocate be bs i) = total_sectors bs /\
  blocks_allocated (BDRV.header (opaque (allocate be bs i)))
  = blocks_allocated (BDRV.header (opaque bs)) + 1 /\
  block_entry_at be (allocate be bs i) i
  = Some (blocks_allocated (BDRV.header (opaque bs))) /\
  blocks_allocated (BDRV.header (opaque bs)) <> VDI_UNALLOCATED.
Proof.
  intros Hok Hn Hw.
  destruct (image_ok_facts be bs Hok) as (Hg & Hr & Hlen & Hcnt).
  apply is_allocated_false in Hw.
  pose proof (count_allocated_lt be _ i w Hn Hw) as Hlt.
  pose proof (count_allocated_bounds be (BDRV.blockmap (opaque bs))) as Hb.
  set (k := blocks_allocated (BDRV.header (opaque bs))) in *.
  assert (Hk : 0 <= k < 2 ^ (Z.of_nat 4 * 8)).
  { change (2 ^ (Z.of_nat 4 * 8)) with UINT32_MOD. lia. }
  assert (Hkne : k <> VDI_UNALLOCATED).
  { unfold UINT32_MOD, VDI_UNALLOCATED in *. lia. }
  assert (Hv : is_allocated be (cpu_to_le be 4 k) = true).
  { unfold is_allocated. rewrite le_to_cpu_to_le by exact Hk.
    destruct (Z.eqb_spec k VDI_UNALLOCATED); [contradiction | reflexivity]. }
  assert (Hi : (i < List.length (BDRV.blockmap (opaque bs)))%nat).
  { apply nth_error_Some. congruence. }
  assert (Hmod : (k + 1) mod UINT32_MOD = k + 1).
  { apply Z.mod_small. unfold UINT32_MOD in *. lia. }
  split; [|split; [reflexivity|split; [|split]]].
  - unfold image_ok, allocate.
    cbn [opaque set_opaque BDRV.header BDRV.blockmap set_header set_blockmap].
    apply andb_true_intro; split; [apply andb_true_intro; split;
      [apply andb_true_intro; split|]|].
    + unfold geometry_ok in *.
      cbn [opaque set_opaque total_sectors BDRV.header BDRV.blockmap
           BDRV.block_size BDRV.block_sectors set_header set_blockmap].
      rewrite length_array_set. exact Hg.
    + apply header_in_range_set_blocks_allocated, Hr.
    + rewrite length_array_set. apply Z.ltb_lt, Hlen.
    + apply Z.eqb_eq. cbn [blocks_allocated set_blocks_allocated].
      rewrite (count_allocated_array_set be _ i w) by assumption.
      fold k. rewrite Hmod. lia.
  - unfold allocate.
    cbn [opaque set_opaque BDRV.header set_header blocks_allocated
         set_blocks_allocated]. fold k. exact Hmod.
  - unfold block_entry_at, allocate.
    cbn [opaque set_opaque BDRV.blockmap set_header set_blockmap].
    rewrite nth_error_array_set_same by exact Hi. cbn [option_map].
    fold k. now rewrite le_to_cpu_to_le by exact Hk.
  - exact Hkne.
Qed.

Lemma vdi_write_block_image_ok (be : bool) (bs : BlockDriverState) (hd : Host)
    (sector_num : Z) (buf : list byte) (nb_sectors : Z) :
  image_ok be bs = true -> 0 <= sector_num < total_sectors bs ->
  exists r bs' hd',
    vdi_write_block be bs hd sector_num buf nb_sectors
    = Some (r, chunk_sectors bs sector_num nb_sectors, bs', hd') /\
    (r = 0 \/ r = -1) /\
    image_ok be bs' = true /\
    total_sectors bs' = total_sectors bs /\
    blocks_allocated (BDRV.header (opaque bs))
    <= blocks_allocated (BDRV.header (opaque bs')) /\
    (block_entry be bs sector_num = Some VDI_UNALLOCATED ->
     block_entry_at be bs'
       (Z.to_nat (sector_num / BDRV.block_sectors (opaque bs)))
     = Some (blocks_allocated (BDRV.header (opaque bs))) /\
     blocks_allocated (BDRV.header (opaque bs'))
     = blocks_allocated (BDRV.header (opaque bs)) + 1 /\
     blocks_allocated (BDRV.header (opaque bs)) <> VDI_UNALLOCATED) /\
    (block_entry be bs sector_num <> Some VDI_UNALLOCATED -> bs' = bs).
Proof.
  intros Hok Hsn.
  destruct (image_ok_facts be bs Hok) as (Hg & Hr & _ & _).
  destruct (block_index_in_range bs sector_num Hg Hsn) as [w Hw].
  destruct (vdi_write_block_state be bs hd sector_num buf nb_sectors w Hg Hr Hw)
    as (r & hd' & Hrun & Hret).
  assert (He : block_entry be bs sector_num = Some (le_to_cpu be 4 w)).
  { unfold block_entry, block_entry_at. now rewrite Hw. }
  destruct (Z.eqb_spec (le_to_cpu be 4 w) VDI_UNALLOCATED) as [Hun|Hal].
  - destruct (allocate_image_ok be bs _ w Hok Hw Hun)
      as (Hok' & Htot & Hba & Hent & Hne).
    do 3 eexists. split; [exact Hrun|]. split; [exact Hret|].
    split; [exact Hok'|]. split; [exact Htot|]. split; [lia|].
    split; [auto|]. intros Hc. rewrite He, Hun in Hc. congruence.
  - do 3 eexists. split; [exact Hrun|]. split; [exact Hret|].
    split; [exact Hok|]. split; [reflexivity|]. split; [lia|].
    split; [|reflexivity]. intros Hc. rewrite He in Hc. congruence.
Qed.

Lemma vdi_write_loop_image_ok (be : bool) (fuel : nat) :
  forall (bs : BlockDriverState) (hd : Host) (sector_num : Z)
         (buf : list byte) (nb_sectors : Z),
    image_ok be bs = true -> 0 <= sector_num ->
    (Z.to_nat nb_sectors <= fuel)%nat ->
    exists r bs' hd',
      vdi_write_loop be fuel bs hd sector_num buf nb_sectors
      = Some (r, bs', hd') /\
      image_ok be bs' = true /\
      total_sectors bs' = total_sectors bs /\
      blocks_allocated (BDRV.header (opaque bs))
      <= blocks_allocated (BDRV.header (opaque bs')).
Proof.
  induction fuel as [|fuel IH]; intros bs hd sector_num buf nb_sectors Hok Hsn Hfuel.
  - cbn [vdi_write_loop].
    destruct (Z.gtb_spec nb_sectors 0) as [Hnb|Hnb]; [lia|]. cbn [andb].
    exists 0, bs, hd. repeat split; auto; lia.
  - cbn [vdi_write_loop].
    destruct (Z.gtb_spec nb_sectors 0) as [Hnb|Hnb]; cbn [andb].
    2:{ exists 0, bs, hd. repeat split; auto; lia. }
    destruct (Z.ltb_spec sector_num (total_sectors bs)) as [Hlt|Hge].
    2:{ exists 0, bs, hd. repeat split; auto; lia. }
    destruct (vdi_write_block_image_ok be bs hd sector_num buf nb_sectors Hok
                ltac:(lia))
      as (r & bs1 & hd1 & Hrun & Hret & Hok1 & Htot1 & Hba1 & _).
    rewrite Hrun.
    destruct (image_ok_facts be bs Hok) as (Hg & _).
    destruct (geometry_ok_facts bs Hg) as (HB & _).
    pose proof (chunk_bounds (BDRV.block_sectors (opaque bs)) sector_num
                  nb_sectors ltac:(lia) Hsn ltac:(lia)) as Hn.
    cbv zeta in Hn. fold (chunk_sectors bs sector_num nb_sectors) in Hn.
    destruct Hn as (Hn1 & Hn2 & _).
    destruct Hret as [-> | ->].
    + change (0 <? 0) with false. cbv iota.
      destruct (IH bs1 hd1 (sector_num + chunk_sectors bs sector_num nb_sectors)
                  (skipn (Z.to_nat (chunk_sectors bs sector_num nb_sectors
                                    * SECTOR_SIZE)) buf)
                  (nb_sectors - chunk_sectors bs sector_num nb_sectors)
                  Hok1 ltac:(lia) ltac:(lia))
        as (r & bs' & hd' & Hrun' & Hok' & Htot' & Hba').
      exists r, bs', hd'. repeat split; auto; lia.
    + change (-1 <? 0) with true. cbv iota.
      exists (-1), bs1, hd1. repeat split; auto.
Qed.

Lemma vdi_write_image_ok (be : bool) (bs : BlockDriverState) (hd : Host)
    (sector_num : Z) (buf : list byte) (nb_sectors : Z) :
  image_ok be bs = true ->
  exists r bs' hd',
    vdi_write be bs hd sector_num buf nb_sectors = Some (r, bs', hd') /\
    image_ok be bs' = true /\
    total_sectors bs' = total_sectors bs /\
    blocks_allocated (BDRV.header (opaque bs))
    <= blocks_allocated (BDRV.header (opaque bs')).
Proof.
  intros Hok. unfold vdi_write.
  destruct (Z.ltb_spec sector_num 0) as [Hneg|Hpos].
  - exists (-1), bs, hd. repeat split; auto; lia.
  - apply vdi_write_loop_image_ok; auto.
Qed.

Lemma write_seq_image_ok (be : bool) (reqs : list write_req) :
  forall (bs : BlockDriverState) (hd : Host),
    image_ok be bs = true ->
    exists states hd',
      write_seq be reqs bs hd = Some (states, hd') /\
      Sorted Z.le (map (fun b => blocks_allocated (BDRV.header (opaque b)))
                       (bs :: states)) /\
      Forall (fun b => image_ok be b = true) states.
Proof.
  induction reqs as [|[[sector_num buf] nb_sectors] reqs IH]; intros bs hd Hok.
  - exists [], hd. cbn. repeat split; auto.
  - cbn [write_seq].
    destruct (vdi_write_image_ok be bs hd sector_num buf nb_sectors Hok)
      as (r & bs1 & hd1 & Hrun & Hok1 & _ & Hba).
    rewrite Hrun.
    destruct (IH bs1 hd1 Hok1) as (states & hd' & Hseq & Hsorted & Hall).
    rewrite Hseq. exists (bs1 :: states), hd'.
    split; [reflexivity|]. split.
    + cbn [map] in *. constructor; [exact Hsorted|]. constructor. exact Hba.
    + constructor; assumption.
Qed.

(** ** The header stays in host order *)

Lemma geometry_ok_allocate (be : bool) (bs : BlockDriverState) (i : nat) :
  geometry_ok (allocate be bs i) = geometry_ok bs.
Proof.
  unfold geometry_ok, allocate.
  cbn [opaque set_opaque total_sectors BDRV.header BDRV.blockmap
       BDRV.block_size BDRV.block_sectors set_header set_blockmap].
  now rewrite length_array_set.
Qed.

Lemma set_blocks_allocated_same (h : VdiHeader) :
  set_blocks_allocated h (blocks_allocated h) = h.
Proof. destruct h; reflexivity. Qed.

Lemma host_order_after_refl (n : Z) (h : VdiHeader) :
  0 <= n -> header_in_range h = true -> host_order_after n h h.
Proof.
  intros Hn H. exists 0. split; [lia|].
  assert (Hb : u32 (blocks_allocated h) = true).
  { unfold header_in_range in H. apply andb_prop in H. tauto. }
  apply u32_true in Hb. change (2 ^ (Z.of_nat 4 * 8)) with UINT32_MOD in Hb.
  rewrite Z.add_0_r, Z.mod_small by exact Hb.
  symmetry. apply set_blocks_allocated_same.
Qed.

Lemma host_order_after_trans (n1 n2 : Z) (h1 h2 h3 : VdiHeader) :
  host_order_after n1 h1 h2 -> host_order_after n2 h2 h3 ->
  host_order_after (n1 + n2) h1 h3.
Proof.
  intros (m1 & Hm1 & ->) (m2 & Hm2 & ->). exists (m1 + m2). split; [lia|].
  cbn [blocks_allocated set_blocks_allocated].
  rewrite Zplus_mod_idemp_l, Z.add_assoc. reflexivity.
Qed.

Lemma host_order_after_le (n n' : Z) (h h' : VdiHeader) :
  n <= n' -> host_order_after n h h' -> host_order_after n' h h'.
Proof. intros Hn (m & Hm & ->). exists m. split; [lia | reflexivity]. Qed.

Lemma host_order_after_allocate (be : bool) (bs : BlockDriverState) (i : nat) :
  host_order_after 1 (BDRV.header (opaque bs))
                   (BDRV.header (opaque (allocate be bs i))).
Proof. exists 1. split; [lia | reflexivity]. Qed.

Lemma header_in_range_allocate (be : bool) (bs : BlockDriverState) (i : nat) :
  header_in_range (BDRV.header (opaque bs)) = true ->
  header_in_range (BDRV.header (opaque (allocate be bs i))) = true.
Proof. intros H. apply header_in_range_set_blocks_allocated, H. Qed.

(** Each iteration of [vdi_write] handles at least one sector and
    allocates at most one block. *)
Lemma vdi_write_loop_header (be : bool) (fuel : nat) :
  forall (bs : BlockDriverState) (hd : Host) (sector_num : Z)
         (buf : list byte) (nb_sectors r : Z) (bs' : BlockDriverState)
         (hd' : Host),
    geometry_ok bs = true ->
    header_in_range (BDRV.header (opaque bs)) = true ->
    0 <= sector_num ->
    vdi_write_loop be fuel bs hd sector_num buf nb_sectors
    = Some (r, bs', hd') ->
    host_order_after (Z.max 0 nb_sectors)
      (BDRV.header (opaque bs)) (BDRV.header (opaque bs')) /\
    header_in_range (BDRV.header (opaque bs')) = true.
Proof.
  induction fuel as [|fuel IH];
    intros bs hd sector_num buf nb_sectors r bs' hd' Hg Hr Hsn Hrun;
    cbn [vdi_write_loop] in Hrun;
    destruct ((nb_sectors >? 0) && (sector_num <? total_sectors bs)) eqn:Hc.
  - discriminate Hrun.
  - injection Hrun as <- <- <-.
    split; [apply host_order_after_refl; [lia|]|]; exact Hr.
  - apply andb_prop in Hc. destruct Hc as [Hnb Hlt].
    apply Z.gtb_lt in Hnb. apply Z.ltb_lt in Hlt.
    destruct (block_index_in_range bs sector_num Hg ltac:(lia)) as [w Hw].
    destruct (vdi_write_block_state be bs hd sector_num buf nb_sectors w
                Hg Hr Hw) as (r1 & hd1 & Hblk & Hret).
    rewrite Hblk in Hrun.
    set (bs1 := if le_to_cpu be 4 w =? VDI_UNALLOCATED
                then allocate be bs _ else bs) in *.
    assert (H1 : geometry_ok bs1 = true /\
                 header_in_range (BDRV.header (opaque bs1)) = true /\
                 host_order_after 1 (BDRV.header (opaque bs))
                                  (BDRV.header (opaque bs1))).
    { unfold bs1. destruct (le_to_cpu be 4 w =? VDI_UNALLOCATED).
      - rewrite geometry_ok_allocate. split; [exact Hg|].
        split; [apply header_in_range_allocate, Hr
               | apply host_order_after_allocate].
      - split; [exact Hg|]. split; [exact Hr|].
        apply host_order_after_refl; [lia | exact Hr]. }
    destruct H1 as (Hg1 & Hr1 & Hh1).
    destruct (geometry_ok_facts bs Hg) as (HB & _).
    pose proof (chunk_bounds (BDRV.block_sectors (opaque bs)) sector_num
                  nb_sectors ltac:(lia) Hsn ltac:(lia)) as Hn.
    cbv zeta in Hn. fold (chunk_sectors bs sector_num nb_sectors) in Hn.
    destruct Hn as (Hn1 & _).
    destruct Hret as [-> | ->].
    + change (0 <? 0) with false in Hrun. cbv iota in Hrun.
      assert (Hsn' : 0 <= sector_num + chunk_sectors bs sector_num nb_sectors)
        by lia.
      destruct (IH _ _ _ _ _ _ _ _ Hg1 Hr1 Hsn' Hrun) as [Hh Hr'].
      split; [|exact Hr'].
      eapply host_order_after_le;
        [|eapply host_order_after_trans; eassumption]. lia.
    + change (-1 <? 0) with true in Hrun. cbv iota in Hrun.
      injection Hrun as <- <- <-. split; [|exact Hr1].
      eapply host_order_after_le; [|exact Hh1]. lia.
  - injection Hrun as <- <- <-.
    split; [apply host_order_after_refl; [lia|]|]; exact Hr.
Qed.

Lemma aio_write_next_header (be : bool) (bs : BlockDriverState)
    (acb : AIO.VdiAIOCB) (ret : Z) (submit : bool)
    (bs' : BlockDriverState) (acb' : AIO.VdiAIOCB) (act : AIO.aio_action) :
  header_in_range (BDRV.header (opaque bs)) = true ->
  aio_write_next be bs acb ret submit = Some (bs', acb', act) ->
  host_order_after 1 (BDRV.header (opaque bs)) (BDRV.header (opaque bs')) /\
  header_in_range (BDRV.header (opaque bs')) = true.
Proof.
  intros Hr Hrun. unfold aio_write_next, aio_submit in Hrun.
  repeat match type of Hrun with
         | (if ?c then _ else _) = Some _ => destruct c
         | match ?x with Some _ => _ | None => _ end = Some _ => destruct x
         | None = Some _ => discriminate Hrun
         | Some _ = Some _ => injection Hrun as <- <- <-
         end;
    first [ split; [apply host_order_after_refl; [lia|]|]; exact Hr
          | split; [exists 1; split; [lia | reflexivity]
                   | apply header_in_range_set_blocks_allocated, Hr] ].
Qed.

Lemma vdi_aio_write_cb_header (be : bool) (bs : BlockDriverState)
    (acb : AIO.VdiAIOCB) (ret : Z) (submit : bool)
    (bs' : BlockDriverState) (acb' : AIO.VdiAIOCB) (act : AIO.aio_action) :
  header_in_range (BDRV.header (opaque bs)) = true ->
  vdi_aio_write_cb be bs acb ret submit = Some (bs', acb', act) ->
  host_order_after 1 (BDRV.header (opaque bs)) (BDRV.header (opaque bs')) /\
  header_in_range (BDRV.header (opaque bs')) = true.
Proof.
  intros Hr Hrun. unfold vdi_aio_write_cb in Hrun.
  destruct (ret <? 0).
  { injection Hrun as <- <- <-.
    split; [apply host_order_after_refl; [lia|]|]; exact Hr. }
  destruct (AIO.state acb).
  - eapply aio_write_next_header; eassumption.
  - unfold aio_submit in Hrun. destruct submit; injection Hrun as <- <- <-;
      (split; [apply host_order_after_refl; [lia|]|]; exact Hr).
  - destruct (AIO.block_buffer acb) as [block|]; [|discriminate Hrun].
    rewrite set_header_roundtrip in Hrun by exact Hr.
    unfold aio_submit in Hrun. destruct submit; injection Hrun as <- <- <-;
      cbn [opaque set_opaque];
      (split; [apply host_order_after_refl; [lia|]|]; exact Hr).
  - eapply aio_write_next_header; eassumption.
Qed.

Lemma length_concat_mem_bytes (be : bool) (n : nat) (l : list Z) :
  List.length (List.concat (map (mem_bytes be n) l)) = (n * List.length l)%nat.
Proof.
  induction l as [|x l IH]; cbn [map List.concat List.length].
  - lia.
  - rewrite length_app, length_mem_bytes, IH. lia.
Qed.

Lemma length_header_mem (be : bool) (h : VdiHeader) :
  List.length (header_mem be h) = 512%nat.
Proof.
  unfold header_mem, fixlen.
  rewrite !length_app, !length_slice, !length_mem_bytes,
    length_concat_mem_bytes, length_firstn, length_app, repeat_length.
  lia.
Qed.

(** In the state [aio_must_write_header] the callback submits the header
    in little endian and leaves the state of the image as it was. *)
Lemma vdi_aio_write_cb_header_step (be : bool) (bs : BlockDriverState)
    (acb : AIO.VdiAIOCB) (ret : Z) (block : list byte) :
  header_in_range (BDRV.header (opaque bs)) = true ->
  0 <= ret -> AIO.state acb = AIO.aio_must_write_header ->
  AIO.block_buffer acb = Some block ->
  exists acb',
    vdi_aio_write_cb be bs acb ret true
    = Some (bs, acb',
            AIO.Submitted 0
              (header_mem be (vdi_header_to_le be (BDRV.header (opaque bs))))
              1).
Proof.
  intros Hr Hret Hst Hbb. unfold vdi_aio_write_cb.
  destruct (Z.ltb_spec ret 0) as [Hneg|_]; [lia|].
  rewrite Hst, Hbb. rewrite set_header_roundtrip by exact Hr.
  unfold aio_submit. eexists. f_equal. f_equal; [f_equal|].
  - destruct bs; reflexivity.
  - f_equal. cbn [BDRV.header set_header].
    unfold memcpy_at. change (Z.to_nat 0) with 0%nat.
    change (Z.to_nat SECTOR_SIZE) with 512%nat. cbn [firstn app].
    rewrite (slice_all (header_mem _ _)) by apply length_header_mem.
    rewrite slice_app_l by (rewrite length_header_mem; lia).
    apply slice_all, length_header_mem.
Qed.

(** X20: from a state that satisfies the invariant of the counter
    ([blocks_allocated] counts the allocated entries of the block map),
    every sequence of calls of [vdi_write] returns, [blocks_allocated]
    never decreases along it, and after every call the invariant holds
    again: [blocks_allocated] is the number of entries that are not
    [VDI_UNALLOCATED]; and from every state that satisfies the invariant,
    an iteration of [vdi_write] that finds the entry of its block
    unallocated gives the entry the prior value of [blocks_allocated],
    which goes up by one, and keeps the invariant. *)
Theorem blocks_allocated_counts_entries (be : bool) (bs : BlockDriverState) :
  image_ok be bs = true ->
  (forall (hd : Host) (reqs : list write_req),
     exists states hd',
       write_seq be reqs bs hd = Some (states, hd') /\
       Sorted Z.le (map (fun b => blocks_allocated (BDRV.header (opaque b)))
                        (bs :: states)) /\
       Forall (fun b => image_ok be b = true /\
                        count_allocated be (BDRV.blockmap (opaque b))
                        = blocks_allocated (BDRV.header (opaque b))) states) /\
  (forall (hd : Host) (sector_num : Z) (buf : list byte) (nb_sectors : Z),
     0 <= sector_num < total_sectors bs ->
     block_entry be bs sector_num = Some VDI_UNALLOCATED ->
     exists r n bs' hd',
       vdi_write_block be bs hd sector_num buf nb_sectors
       = Some (r, n, bs', hd') /\
       block_entry_at be bs'
         (Z.to_nat (sector_num / BDRV.block_sectors (opaque bs)))
       = Some (blocks_allocated (BDRV.header (opaque bs))) /\
       blocks_allocated (BDRV.header (opaque bs'))
       = blocks_allocated (BDRV.header (opaque bs)) + 1 /\
       image_ok be bs' = true).
Proof.
  intros Hok. split.
  - intros hd reqs.
    destruct (write_seq_image_ok be reqs bs hd Hok)
      as (states & hd' & Hseq & Hsorted & Hall).
    exists states, hd'. split; [exact Hseq|]. split; [exact Hsorted|].
    eapply Forall_impl; [|exact Hall].
    intros b Hb. split; [exact Hb|].
    now destruct (image_ok_facts be b Hb) as (_ & _ & _ & Hc).
  - intros hd sector_num buf nb_sectors Hsn Hun.
    destruct (vdi_write_block_image_ok be bs hd sector_num buf nb_sectors
                Hok Hsn)
      as (r & bs' & hd' & Hrun & _ & Hok' & _ & _ & Halloc & _).
    destruct (Halloc Hun) as (Hent & Hba & _).
    exists r, (chunk_sectors bs sector_num nb_sectors), bs', hd'. auto.
Qed.

Lemma blocks_allocated_counts_entries_witness :
  let bs := fresh_state 128 in
  let hd := host_of (fresh_file true 128) in
  let reqs := [(2048, pattern, 1); (0, pattern ++ pattern, 2)] in
  image_ok true bs = true /\
  (exists states hd',
     write_seq true reqs bs hd = Some (states, hd') /\
     Sorted Z.le (map (fun b => blocks_allocated (BDRV.header (opaque b)))
                      (bs :: states)) /\
     Forall (fun b => image_ok true b = true /\
                      count_allocated true (BDRV.blockmap (opaque b))
                      = blocks_allocated (BDRV.header (opaque b))) states) /\
  0 <= 2048 < total_sectors bs /\
  block_entry true bs 2048 = Some VDI_UNALLOCATED /\
  (exists r n bs' hd',
     vdi_write_block true bs hd 2048 pattern 1 = Some (r, n, bs', hd') /\
     block_entry_at true bs'
       (Z.to_nat (2048 / BDRV.block_sectors (opaque bs)))
     = Some (blocks_allocated (BDRV.header (opaque bs))) /\
     blocks_allocated (BDRV.header (opaque bs'))
     = blocks_allocated (BDRV.header (opaque bs)) + 1 /\
     image_ok true bs' = true).
Proof.
  cbv zeta.
  assert (Hok : image_ok true (fresh_state 128) = true)
    by (vm_compute; reflexivity).
  assert (Hsn : 0 <= 2048 < total_sectors (fresh_state 128))
    by (vm_compute; split; [discriminate | reflexivity]).
  assert (Hun : block_entry true (fresh_state 128) 2048 = Some VDI_UNALLOCATED)
    by (vm_compute; reflexivity).
  split; [exact Hok|].
  split; [apply (proj1 (blocks_allocated_counts_entries true _ Hok))|].
  split; [exact Hsn|]. split; [exact Hun|].
  apply (proj2 (blocks_allocated_counts_entries true _ Hok)); assumption.
Defined.

(** C10: the header in memory is in host order after [vdi_write], whatever
    it returns (success, failure of the write of the header, any other
    failure), and after every invocation of [vdi_aio_write_cb]: it is the
    header of before with its counter advanced by the allocations made (at
    most one for each sector of the request, at most one in a callback).
    The conversion to little endian only yields the bytes handed to the
    file: in the state [aio_must_write_header] the callback submits the
    little-endian header for sector 0 and leaves the state as it was. *)
Theorem header_kept_in_host_order (be : bool) (bs : BlockDriverState) :
  geometry_ok bs = true ->
  header_in_range (BDRV.header (opaque bs)) = true ->
  (forall hd sector_num buf nb_sectors r bs' hd',
     vdi_write be bs hd sector_num buf nb_sectors = Some (r, bs', hd') ->
     host_order_after (Z.max 0 nb_sectors)
       (BDRV.header (opaque bs)) (BDRV.header (opaque bs')) /\
     header_in_range (BDRV.header (opaque bs')) = true) /\
  (forall acb ret submit bs' acb' act,
     vdi_aio_write_cb be bs acb ret submit = Some (bs', acb', act) ->
     host_order_after 1 (BDRV.header (opaque bs)) (BDRV.header (opaque bs')) /\
     header_in_range (BDRV.header (opaque bs')) = true) /\
  (forall acb ret block,
     0 <= ret -> AIO.state acb = AIO.aio_must_write_header ->
     AIO.block_buffer acb = Some block ->
     exists acb',
       vdi_aio_write_cb be bs acb ret true
       = Some (bs, acb',
               AIO.Submitted 0
                 (header_mem be
                    (vdi_header_to_le be (BDRV.header (opaque bs)))) 1)).
Proof.
  intros Hg Hr. split; [|split].
  - intros hd sector_num buf nb_sectors r bs' hd' Hrun.
    unfold vdi_write in Hrun.
    destruct (Z.ltb_spec sector_num 0) as [Hneg|Hpos].
    + injection Hrun as <- <- <-.
      split; [apply host_order_after_refl; [lia|]|]; exact Hr.
    + eapply vdi_write_loop_header; eassumption.
  - intros acb ret submit bs' acb' act Hrun.
    eapply vdi_aio_write_cb_header; eassumption.
  - intros acb ret block Hret Hst Hbb.
    eapply vdi_aio_write_cb_header_step; eassumption.
Qed.

Lemma header_kept_in_host_order_witness :
  let bs := fresh_state 128 in
  geometry_ok bs = true /\
  header_in_range (BDRV.header (opaque bs)) = true /\
  match vdi_write true bs (faulty_host (fresh_file true 128)
                             [false; false; true]) 2048 pattern 1 with
  | Some (r, bs', _) =>
    r = -1 /\
    host_order_after (Z.max 0 1)
      (BDRV.header (opaque bs)) (BDRV.header (opaque bs')) /\
    header_in_range (BDRV.header (opaque bs')) = true
  | None => False
  end.
Proof.
  cbv zeta.
  assert (Hg : geometry_ok (fresh_state 128) = true)
    by (vm_compute; reflexivity).
  assert (Hr : header_in_range (BDRV.header (opaque (fresh_state 128))) = true)
    by (vm_compute; reflexivity).
  split; [exact Hg|]. split; [exact Hr|].
  destruct (vdi_write true (fresh_state 128)
              (faulty_host (fresh_file true 128) [false; false; true])
              2048 pattern 1) as [[[r bs'] hd']|] eqn:E.
  - split.
    + apply (f_equal (option_map (fun x => fst (fst x)))) in E.
      vm_compute in E. congruence.
    + apply (proj1 (header_kept_in_host_order true _ Hg Hr) _ _ _ _ _ _ _ E).
  - apply (f_equal (option_map (fun x => fst (fst x)))) in E.
    vm_compute in E. discriminate E.
Defined.

(** ** [vdi_create] *)

Lemma slice_skip (a b : list byte) (off n : nat) :
  (List.length a <= off)%nat ->
  slice (a ++ b) off n = slice b (off - List.length a) n.
Proof.
  intros H. apply slice_ext. intros i Hi. rewrite app_nth2 by lia.
  f_equal. lia.
Qed.

Lemma slice_head (b c : list byte) (n : nat) :
  List.length b = n -> slice (b ++ c) 0 n = b.
Proof.
  intros <-. rewrite slice_app_l by lia. now apply slice_all.
Qed.

Ltac header_field :=
  unfold header_mem, fixlen; rewrite <- !app_assoc;
  repeat (rewrite slice_skip
            by (rewrite ?length_slice, ?length_mem_bytes; cbn; lia);
          rewrite ?length_slice, ?length_mem_bytes; cbn [Nat.sub]);
  rewrite slice_head by apply length_mem_bytes.

Lemma header_mem_image_type (be : bool) (h : VdiHeader) (rest : list byte) :
  image_type (decode_le (header_mem be (vdi_header_to_le be h) ++ rest))
  = image_type h mod 2 ^ 32.
Proof.
  unfold decode_le, header_of_mem; cbn [image_type mem_load].
  header_field. cbn [image_type vdi_header_to_le map_scalars].
  rewrite mem_bytes_cpu_to_le. apply le_combine_split.
Qed.

Lemma header_mem_blocks_in_image (be : bool) (h : VdiHeader) (rest : list byte) :
  blocks_in_image (decode_le (header_mem be (vdi_header_to_le be h) ++ rest))
  = blocks_in_image h mod 2 ^ 32.
Proof.
  unfold decode_le, header_of_mem; cbn [blocks_in_image mem_load].
  header_field. cbn [blocks_in_image vdi_header_to_le map_scalars].
  rewrite mem_bytes_cpu_to_le. apply le_combine_split.
Qed.

Lemma header_mem_blocks_allocated (be : bool) (h : VdiHeader) (rest : list byte) :
  blocks_allocated (decode_le (header_mem be (vdi_header_to_le be h) ++ rest))
  = blocks_allocated h mod 2 ^ 32.
Proof.
  unfold decode_le, header_of_mem; cbn [blocks_allocated mem_load].
  header_field. cbn [blocks_allocated vdi_header_to_le map_scalars].
  rewrite mem_bytes_cpu_to_le. apply le_combine_split.
Qed.

Lemma header_mem_offset_blockmap (be : bool) (h : VdiHeader) (rest : list byte) :
  offset_blockmap (decode_le (header_mem be (vdi_header_to_le be h) ++ rest))
  = offset_blockmap h mod 2 ^ 32.
Proof.
  unfold decode_le, header_of_mem; cbn [offset_blockmap mem_load].
  header_field. cbn [offset_blockmap vdi_header_to_le map_scalars].
  rewrite mem_bytes_cpu_to_le. apply le_combine_split.
Qed.

(** The rounding of the size of the block map to whole sectors. *)
Lemma round_up_sector (x : Z) :
  0 <= x < 2 ^ 34 ->
  Z.land (to_size_t (to_size_t x + SECTOR_SIZE - 1))
         (to_size_t (Z.lnot (SECTOR_SIZE - 1)))
  = 512 * ((x + 511) / 512).
Proof.
  intros Hx. unfold to_size_t, UINT64_MOD, SECTOR_SIZE.
  rewrite (Z.mod_small x) by lia.
  rewrite (Z.mod_small (x + 512 - 1)) by lia.
  change (Z.lnot (512 - 1) mod 2 ^ 64)
    with (Z.land (Z.ones 64) (Z.lnot (Z.ones 9))).
  rewrite Z.land_assoc, Z.land_ones, (Z.mod_small (x + 512 - 1)) by lia.
  rewrite <- Z.ldiff_land.
  rewrite Z.ldiff_ones_r, Z.shiftr_div_pow2, Z.shiftl_mul_pow2 by lia.
  change (2 ^ 9) with 512. replace (x + 512 - 1) with (x + 511) by lia. lia.
Qed.

Lemma words_mem_unallocated (be : bool) (n : nat) :
  words_mem be (repeat VDI_UNALLOCATED n) = repeat Byte.xff (4 * n).
Proof.
  unfold words_mem. induction n as [|n IH].
  - reflexivity.
  - cbn [repeat map List.concat]. rewrite IH.
    replace (4 * S n)%nat with (4 + 4 * n)%nat by lia.
    rewrite repeat_app. f_equal. destruct be; reflexivity.
Qed.

Lemma create_blockmap_entry (be : bool) (blocks blockmap_size : Z) (i : Z) :
  0 <= i < blocks -> 4 * blocks <= blockmap_size ->
  slice (create_blockmap be blocks blockmap_size) (Z.to_nat (4 * i)) 4
  = repeat Byte.xff 4.
Proof.
  intros Hi Hsz. unfold create_blockmap. rewrite words_mem_unallocated.
  apply (nth_ext _ _ Byte.x00 Byte.x00).
  - now rewrite length_slice, repeat_length.
  - intros j Hj. rewrite length_slice in Hj.
    rewrite nth_slice by exact Hj. rewrite nth_slice by lia.
    cbn [Nat.add]. rewrite app_nth1 by (rewrite repeat_length; lia).
    rewrite !nth_repeat_lt by lia. reflexivity.
Qed.

Lemma length_create_blockmap (be : bool) (blocks blockmap_size : Z) :
  List.length (create_blockmap be blocks blockmap_size)
  = Z.to_nat blockmap_size.
Proof. apply length_slice. Qed.

(** Once the option [static] is met the image type is [VDI_TYPE_STATIC]. *)
Lemma read_options_static (options : list option_param) (n bytes ty : Z) :
  In (BLOCK_OPT_STATIC, n) options \/ ty = VDI_TYPE_STATIC ->
  snd (read_options options bytes ty) = VDI_TYPE_STATIC.
Proof.
  revert bytes ty.
  induction options as [|[name v] options IH]; intros bytes ty H.
  - destruct H as [[]| ->]. reflexivity.
  - cbn [read_options].
    destruct (String.eqb_spec name BLOCK_OPT_SIZE) as [Hsz|Hsz].
    + apply IH. destruct H as [[H|H]|H]; auto.
      injection H as -> _. discriminate Hsz.
    + destruct (String.eqb_spec name BLOCK_OPT_STATIC) as [Hst|Hst].
      * apply IH. now right.
      * apply IH. destruct H as [[H|H]|H]; auto.
        injection H as -> _. contradiction.
Qed.

(** C5, as stated, fails: the file [vdi_create] writes for a static image
    of 2 MiB records no allocated block, has no physical index in its block
    map and holds no data block. *)
Lemma vdi_create_static_not_preallocated :
  let file := snd (vdi_create false true [] [] static_2MiB) in
  let h := decode_le file in
  ~ (blocks_allocated h = blocks_in_image h /\
     (forall i, 0 <= i < blocks_in_image h -> file_map_entry file i = i) /\
     Z.of_nat (List.length file)
     = offset_data h + blocks_in_image h * block_size h).
Proof.
  cbv zeta. intros [H _]. vm_compute in H. discriminate H.
Qed.

(** C5, amended: with the option [static], [vdi_create] writes the encoded
    header, whose image type is 2 and whose [blocks_allocated] is 0, then a
    block map of [blocks_in_image] entries [VDI_UNALLOCATED] padded to a
    sector boundary, and nothing more: the file ends with the block map. *)
Theorem vdi_create_static_only_sets_type (be : bool) (u1 u2 : list byte)
    (options : list option_param) (n : Z) :
  In (BLOCK_OPT_STATIC, n) options ->
  let file := snd (vdi_create be true u1 u2 options) in
  let h := decode_le file in
  fst (vdi_create be true u1 u2 options) = 0 /\
  image_type h = VDI_TYPE_STATIC /\
  blocks_allocated h = 0 /\
  (forall i, 0 <= i < blocks_in_image h ->
             file_map_entry file i = VDI_UNALLOCATED) /\
  Z.of_nat (List.length file)
  = 512 + 512 * ((blocks_in_image h * 4 + 511) / 512).
Proof.
  intros Hin. cbv zeta. unfold file_map_entry, vdi_create.
  pose proof (read_options_static options n 0 VDI_TYPE_DYNAMIC (or_introl Hin))
    as Hty.
  destruct (read_options options 0 VDI_TYPE_DYNAMIC) as [bytes ty].
  cbn [snd] in Hty. subst ty. cbn [negb fst snd]. cbv zeta.
  set (blocks := (bytes / (1 * MiB)) mod UINT32_MOD).
  assert (Hb : 0 <= blocks < 2 ^ 32) by (apply Z.mod_pos_bound; reflexivity).
  rewrite round_up_sector by lia.
  rewrite header_mem_image_type, header_mem_blocks_allocated,
    header_mem_blocks_in_image, header_mem_offset_blockmap.
  cbn [image_type blocks_allocated blocks_in_image offset_blockmap
       create_header].
  rewrite (Z.mod_small blocks) by exact Hb.
  split; [reflexivity|]. split; [reflexivity|]. split; [reflexivity|]. split.
  - intros i Hi.
    change (512 mod 2 ^ 32) with 512.
    replace (Z.to_nat (512 + 4 * i)) with (512 + Z.to_nat (4 * i))%nat by lia.
    rewrite slice_skip by (rewrite length_header_mem; lia).
    rewrite length_header_mem.
    replace (512 + Z.to_nat (4 * i) - 512)%nat with (Z.to_nat (4 * i)) by lia.
    rewrite create_blockmap_entry; [reflexivity | exact Hi |].
    pose proof (Z.mul_div_le (blocks * 4 + 511) 512 ltac:(lia)).
    pose proof (Z.mod_pos_bound (blocks * 4 + 511) 512 ltac:(lia)).
    pose proof (Z.div_mod (blocks * 4 + 511) 512 ltac:(lia)). lia.
  - rewrite length_app, length_header_mem, length_create_blockmap.
    assert (0 <= (blocks * 4 + 511) / 512) by (apply Z.div_pos; lia). lia.
Qed.

Lemma vdi_create_static_only_sets_type_witness :
  In (BLOCK_OPT_STATIC, 1) static_2MiB /\
  let file := snd (vdi_create true true [] [] static_2MiB) in
  let h := decode_le file in
  fst (vdi_create true true [] [] static_2MiB) = 0 /\
  image_type h = VDI_TYPE_STATIC /\
  blocks_allocated h = 0 /\
  (forall i, 0 <= i < blocks_in_image h ->
             file_map_entry file i = VDI_UNALLOCATED) /\
  Z.of_nat (List.length file)
  = 512 + 512 * ((blocks_in_image h * 4 + 511) / 512).
Proof.
  split; [right; left; reflexivity|].
  apply (vdi_create_static_only_sets_type true [] [] static_2MiB 1).
  right; left; reflexivity.
Defined.

(** ** The invariant of the data region *)

Lemma distinct_NoDup (l : list Z) : distinct l = true -> NoDup l.
Proof.
  induction l as [|x l IH]; cbn [distinct]; intros H; constructor.
  - apply andb_prop in H. destruct H as [H _].
    intros Hin. apply negb_true_iff in H.
    assert (Hex : existsb (Z.eqb x) l = true).
    { apply existsb_exists. exists x. split; [exact Hin | apply Z.eqb_refl]. }
    congruence.
  - apply IH. apply andb_prop in H. tauto.
Qed.

Lemma physical_indices_cons (be : bool) (w : Z) (m : list Z) :
  physical_indices be (w :: m)
  = if is_allocated be w then le_to_cpu be 4 w :: physical_indices be m
    else physical_indices be m.
Proof.
  unfold physical_indices. cbn [filter]. now destruct (is_allocated be w).
Qed.

Lemma is_allocated_true (be : bool) (w : Z) :
  is_allocated be w = true <-> le_to_cpu be 4 w <> VDI_UNALLOCATED.
Proof.
  unfold is_allocated. destruct (Z.eqb_spec (le_to_cpu be 4 w) VDI_UNALLOCATED);
    cbn; split; intros; congruence.
Qed.

Lemma physical_indices_In (be : bool) (m : list Z) (i : nat) (w : Z) :
  nth_error m i = Some w -> le_to_cpu be 4 w <> VDI_UNALLOCATED ->
  In (le_to_cpu be 4 w) (physical_indices be m).
Proof.
  revert i. induction m as [|x m IH]; intros [|i] Hn Hw; cbn in Hn;
    try discriminate; rewrite physical_indices_cons.
  - injection Hn as ->. apply is_allocated_true in Hw. rewrite Hw. now left.
  - specialize (IH i Hn Hw). destruct (is_allocated be x); [right|]; exact IH.
Qed.

Lemma physical_indices_injective (be : bool) (m : list Z) :
  NoDup (physical_indices be m) ->
  forall i j wi wj,
    nth_error m i = Some wi -> nth_error m j = Some wj ->
    le_to_cpu be 4 wi <> VDI_UNALLOCATED ->
    le_to_cpu be 4 wj = le_to_cpu be 4 wi -> j = i.
Proof.
  induction m as [|x m IH]; intros Hnd [|i] [|j] wi wj Hi Hj Hal Heq;
    cbn in Hi, Hj; try discriminate; auto;
    rewrite physical_indices_cons in Hnd.
  - injection Hi as ->. exfalso.
    assert (Hx : is_allocated be wi = true) by now apply is_allocated_true.
    rewrite Hx in Hnd. apply NoDup_cons_iff in Hnd. destruct Hnd as [Hnin _].
    apply Hnin. rewrite <- Heq.
    apply (physical_indices_In be m j wj Hj). congruence.
  - injection Hj as ->. exfalso.
    assert (Hx : is_allocated be wj = true)
      by (apply is_allocated_true; congruence).
    rewrite Hx in Hnd. apply NoDup_cons_iff in Hnd. destruct Hnd as [Hnin _].
    apply Hnin. rewrite Heq.
    apply (physical_indices_In be m i wi Hi Hal).
  - f_equal. apply (IH ltac:(destruct (is_allocated be x);
                              [now apply NoDup_cons_iff in Hnd | exact Hnd])
                       i j wi wj Hi Hj Hal Heq).
Qed.

Lemma data_ok_inv (be : bool) (bs : BlockDriverState) :
  data_ok be bs = true -> data_inv be bs.
Proof.
  unfold data_ok. intros H.
  repeat match goal with
         | H : _ && _ = true |- _ => apply andb_prop in H; destruct H
         end.
  split; [assumption|]. split; [assumption|].
  intros i e Hi He. unfold block_entry_at in *.
  destruct (nth_error (BDRV.blockmap (opaque bs)) i) as [wi|] eqn:Hwi;
    [|discriminate]. cbn [option_map] in Hi. injection Hi as <-.
  split.
  - match goal with
    | H : forallb _ _ = true |- _ =>
        rewrite forallb_forall in H;
        specialize (H _ (physical_indices_In be _ i wi Hwi He))
    end. lia.
  - intros j Hj.
    destruct (nth_error (BDRV.blockmap (opaque bs)) j) as [wj|] eqn:Hwj;
      [|discriminate]. cbn [option_map] in Hj. injection Hj as Hj.
    eapply physical_indices_injective; eauto using distinct_NoDup.
Qed.

Lemma layout_ok_allocate (be : bool) (bs : BlockDriverState) (i : nat) :
  layout_ok (allocate be bs i) = layout_ok bs.
Proof.
  unfold layout_ok, allocate.
  cbn [opaque set_opaque BDRV.header BDRV.blockmap set_header set_blockmap
       offset_blockmap offset_data set_blocks_allocated].
  now rewrite length_array_set.
Qed.

Lemma block_entry_at_allocate_other (be : bool) (bs : BlockDriverState)
    (i j : nat) :
  i <> j -> block_entry_at be (allocate be bs i) j = block_entry_at be bs j.
Proof.
  intros H. unfold block_entry_at, allocate.
  cbn [opaque set_opaque BDRV.blockmap set_header set_blockmap].
  now rewrite nth_error_array_set_other.
Qed.

(** The reservation of a new block keeps the invariant of the data region. *)
Lemma allocate_data_inv (be : bool) (bs : BlockDriverState) (i : nat) :
  data_inv be bs -> block_entry_at be bs i = Some VDI_UNALLOCATED ->
  data_inv be (allocate be bs i).
Proof.
  intros (Hok & Hlay & Hent) Hi.
  assert (Hw : exists w, nth_error (BDRV.blockmap (opaque bs)) i = Some w /\
                         le_to_cpu be 4 w = VDI_UNALLOCATED).
  { unfold block_entry_at in Hi.
    destruct (nth_error (BDRV.blockmap (opaque bs)) i) as [w|]; [|discriminate].
    cbn in Hi. injection Hi as Hi. eauto. }
  destruct Hw as (w & Hw & Hun).
  destruct (allocate_image_ok be bs i w Hok Hw Hun)
    as (Hok' & _ & Hba & Hnew & Hne).
  split; [exact Hok'|]. split; [now rewrite layout_ok_allocate|].
  intros j e Hj He. rewrite Hba.
  destruct (Nat.eq_dec i j) as [<-|Hij].
  - rewrite Hnew in Hj. injection Hj as <-.
    destruct (image_ok_facts be bs Hok) as (_ & _ & _ & Hcnt).
    pose proof (count_allocated_bounds be (BDRV.blockmap (opaque bs))).
    split; [lia|]. intros j' Hj'.
    destruct (Nat.eq_dec i j') as [<-|Hij']; [reflexivity|].
    rewrite block_entry_at_allocate_other in Hj' by exact Hij'.
    destruct (Hent j' _ Hj' Hne) as [Hlt _]. lia.
  - rewrite block_entry_at_allocate_other in Hj by exact Hij.
    destruct (Hent j e Hj He) as [Hlt Hinj]. split; [lia|].
    intros j' Hj'.
    destruct (Nat.eq_dec i j') as [<-|Hij'].
    + rewrite Hnew in Hj'. injection Hj' as <-. lia.
    + rewrite block_entry_at_allocate_other in Hj' by exact Hij'. auto.
Qed.

(** ** The file after one iteration of [vdi_write] *)

Lemma vdi_write_block_success (be : bool) (bs : BlockDriverState) (hd : Host)
    (sector_num : Z) (buf : list byte) (nb_sectors w n : Z)
    (bs' : BlockDriverState) (hd' : Host) :
  geometry_ok bs = true ->
  header_in_range (BDRV.header (opaque bs)) = true ->
  nth_error (BDRV.blockmap (opaque bs))
            (Z.to_nat (sector_num / BDRV.block_sectors (opaque bs))) = Some w ->
  vdi_write_block be bs hd sector_num buf nb_sectors = Some (0, n, bs', hd') ->
  let s := opaque bs in
  let B := BDRV.block_sectors s in
  let D := offset_data (BDRV.header s) / SECTOR_SIZE in
  let M := offset_blockmap (BDRV.header s) / SECTOR_SIZE in
  let k := blocks_allocated (BDRV.header s) in
  let sib := sector_num mod B in
  n = chunk_sectors bs sector_num nb_sectors /\
  (le_to_cpu be 4 w = VDI_UNALLOCATED ->
   bs' = allocate be bs (Z.to_nat (sector_num / B)) /\
   exists mb hb,
     disk hd' =
     disk_store
       (disk_store
          (disk_store (disk hd) ((D + k * B) mod UINT64_MOD * SECTOR_SIZE)
             (memcpy_at (qemu_mallocz (BDRV.block_size s))
                        (sib * SECTOR_SIZE) buf (n * SECTOR_SIZE))
             (B * SECTOR_SIZE))
          ((M + Z.land k (Z.lnot (SECTOR_SIZE / 4 - 1)) / (SECTOR_SIZE / 4))
             mod UINT64_MOD * SECTOR_SIZE) mb (1 * SECTOR_SIZE))
       (0 * SECTOR_SIZE) hb (1 * SECTOR_SIZE)) /\
  (le_to_cpu be 4 w <> VDI_UNALLOCATED ->
   bs' = bs /\
   disk hd' =
   disk_store (disk hd)
     ((D + le_to_cpu be 4 w * B + sib) mod UINT64_MOD * SECTOR_SIZE)
     buf (n * SECTOR_SIZE)).
Proof.
  intros Hg Hr Hnth Hrun. cbv zeta.
  destruct (geometry_ok_facts bs Hg) as (HB & Hsz & _).
  unfold vdi_write_block in Hrun.
  destruct (Z.eqb_spec (BDRV.block_sectors (opaque bs)) 0) as [E|_]; [lia|].
  rewrite Hnth in Hrun. fold (chunk_sectors bs sector_num nb_sectors) in Hrun.
  destruct (Z.eqb_spec (le_to_cpu be 4 w) VDI_UNALLOCATED) as [Hun|Hal].
  - cbn [BDRV.block_size BDRV.block_sectors BDRV.header set_header
         set_blockmap offset_data offset_blockmap set_blocks_allocated]
      in Hrun.
    destruct (Z.ltb_spec (BDRV.block_size (opaque bs))
                (BDRV.block_sectors (opaque bs) * SECTOR_SIZE)) as [E|_]; [lia|].
    unfold bdrv_write at 1 in Hrun. destruct (next_fault hd).
    { change (-1 <? 0) with true in Hrun. cbv iota in Hrun. discriminate Hrun. }
    change (0 <? 0) with false in Hrun. cbv iota in Hrun.
    unfold bdrv_write at 1 in Hrun. destruct (next_fault _).
    { change (-1 <? 0) with true in Hrun. cbv iota in Hrun. discriminate Hrun. }
    change (0 <? 0) with false in Hrun. cbv iota in Hrun.
    unfold bdrv_write at 1 in Hrun. destruct (next_fault _).
    { change (-1 <? 0) with true in Hrun. cbv iota in Hrun. discriminate Hrun. }
    change (0 <? 0) with false in Hrun. cbv iota in Hrun.
    injection Hrun as <- <- <-.
    split; [reflexivity|]. split; [|intros Hc; contradiction].
    intros _. split.
    + unfold allocate. f_equal.
      match goal with
      | |- set_header (set_header ?s _) _ = _ =>
          apply (set_header_roundtrip be s)
      end.
      apply header_in_range_set_blocks_allocated, Hr.
    + cbn [disk]. eauto.
  - unfold bdrv_write in Hrun. destruct (next_fault hd).
    { change (-1 <? 0) with true in Hrun. cbv iota in Hrun. discriminate Hrun. }
    change (0 <? 0) with false in Hrun. cbv iota in Hrun.
    injection Hrun as <- <- <-.
    split; [reflexivity|]. split; [intros Hc; contradiction|].
    intros _. split; reflexivity.
Qed.

(** The requests of the growth protocol, latest first: the new block, then
    one sector of the block map, then the header.  The sector of the block
    map is chosen by the physical index [k], the prior value of
    [blocks_allocated], not by the index of the logical block. *)
Lemma vdi_write_block_requests (be : bool) (bs : BlockDriverState) (hd : Host)
    (sector_num : Z) (buf : list byte) (nb_sectors w n : Z)
    (bs' : BlockDriverState) (hd' : Host) :
  geometry_ok bs = true ->
  nth_error (BDRV.blockmap (opaque bs))
            (Z.to_nat (sector_num / BDRV.block_sectors (opaque bs))) = Some w ->
  le_to_cpu be 4 w = VDI_UNALLOCATED ->
  vdi_write_block be bs hd sector_num buf nb_sectors = Some (0, n, bs', hd') ->
  let s := opaque bs in
  let B := BDRV.block_sectors s in
  let D := offset_data (BDRV.header s) / SECTOR_SIZE in
  let M := offset_blockmap (BDRV.header s) / SECTOR_SIZE in
  let k := blocks_allocated (BDRV.header s) in
  trace hd' =
    IoWrite 0 1
    :: IoWrite ((M + Z.land k (Z.lnot (SECTOR_SIZE / 4 - 1))
                     / (SECTOR_SIZE / 4)) mod UINT64_MOD) 1
    :: IoWrite ((D + k * B) mod UINT64_MOD) B
    :: trace hd.
Proof.
  intros Hg Hnth Hun Hrun. cbv zeta.
  destruct (geometry_ok_facts bs Hg) as (HB & Hsz & _).
  unfold vdi_write_block in Hrun.
  destruct (Z.eqb_spec (BDRV.block_sectors (opaque bs)) 0) as [E|_]; [lia|].
  rewrite Hnth, Hun in Hrun.
  change (VDI_UNALLOCATED =? VDI_UNALLOCATED) with true in Hrun.
  cbv iota in Hrun.
  cbn [BDRV.block_size BDRV.block_sectors BDRV.header set_header
       set_blockmap offset_data offset_blockmap set_blocks_allocated]
    in Hrun.
  destruct (Z.ltb_spec (BDRV.block_size (opaque bs))
              (BDRV.block_sectors (opaque bs) * SECTOR_SIZE)) as [E|_]; [lia|].
  unfold bdrv_write at 1 in Hrun. destruct (next_fault hd).
  { change (-1 <? 0) with true in Hrun. cbv iota in Hrun. discriminate Hrun. }
  change (0 <? 0) with false in Hrun. cbv iota in Hrun.
  unfold bdrv_write at 1 in Hrun. destruct (next_fault _).
  { change (-1 <? 0) with true in Hrun. cbv iota in Hrun. discriminate Hrun. }
  change (0 <? 0) with false in Hrun. cbv iota in Hrun.
  unfold bdrv_write at 1 in Hrun. destruct (next_fault _).
  { change (-1 <? 0) with true in Hrun. cbv iota in Hrun. discriminate Hrun. }
  change (0 <? 0) with false in Hrun. cbv iota in Hrun.
  injection Hrun as _ _ <-. reflexivity.
Qed.

(** ** Addresses *)

Lemma offset_no_wrap (D e B s : Z) :
  0 <= D < 2 ^ 32 -> 0 <= e < 2 ^ 32 -> 0 < B < 2 ^ 32 -> 0 <= s < B ->
  (D + e * B + s) mod UINT64_MOD = D + e * B + s.
Proof.
  intros HD He HB Hs. apply Z.mod_small. unfold UINT64_MOD.
  assert (e * B <= (2 ^ 32 - 1) * (2 ^ 32 - 1)) by nia.
  assert (0 <= e * B) by nia. lia.
Qed.

(** The bytes of the sectors from [sn] to the end of its block lie in the
    block of [sn], at the offset of [sn] in the block. *)
Lemma chunk_addr (B sn j : Z) :
  0 < B -> 0 <= sn -> 0 <= j < (B - sn mod B) * 512 ->
  (sn * 512 + j) / (B * 512) = sn / B /\
  (sn * 512 + j) mod (B * 512) = sn mod B * 512 + j.
Proof.
  intros HB Hsn Hj.
  pose proof (Z.mod_pos_bound sn B HB) as Hm.
  pose proof (Z.div_mod sn B ltac:(lia)) as Hdm.
  assert (Heq : sn * 512 + j = B * 512 * (sn / B) + (sn mod B * 512 + j))
    by lia.
  split.
  - symmetry. apply (Z.div_unique _ _ _ (sn mod B * 512 + j)); [lia | exact Heq].
  - symmetry. apply (Z.mod_unique _ _ (sn / B)); [lia | exact Heq].
Qed.

Lemma land_lnot_127 (k : Z) :
  0 <= k -> Z.land k (Z.lnot (SECTOR_SIZE / 4 - 1)) / (SECTOR_SIZE / 4) = k / 128.
Proof.
  intros Hk. change (SECTOR_SIZE / 4 - 1) with (Z.ones 7).
  change (SECTOR_SIZE / 4) with (2 ^ 7).
  rewrite <- Z.ldiff_land, Z.ldiff_ones_r, Z.shiftl_mul_pow2,
    Z.shiftr_div_pow2 by lia.
  rewrite Z.div_mul by lia. reflexivity.
Qed.

Lemma nth_qemu_mallocz (n : Z) (j : nat) : nth j (qemu_mallocz n) Byte.x00 = Byte.x00.
Proof. unfold qemu_mallocz. apply nth_repeat. Qed.

(** The block buffer of an allocation: zeros but for the sectors copied
    from the caller. *)
Lemma nth_block_buffer (size off len : Z) (src : list byte) (j : Z) :
  0 <= off -> 0 <= len -> off + len <= size -> 0 <= j ->
  nth (Z.to_nat j) (memcpy_at (qemu_mallocz size) off src len) Byte.x00
  = if (off <=? j) && (j <? off + len)
    then nth (Z.to_nat (j - off)) src Byte.x00 else Byte.x00.
Proof.
  intros Hoff Hlen Hsz Hj. unfold memcpy_at.
  assert (Hl1 : List.length (firstn (Z.to_nat off) (qemu_mallocz size))
                = Z.to_nat off).
  { rewrite length_firstn. unfold qemu_mallocz. rewrite repeat_length. lia. }
  destruct (Z.leb_spec off j) as [H1|H1]; cbn [andb].
  - rewrite app_nth2 by lia. rewrite Hl1.
    destruct (Z.ltb_spec j (off + len)) as [H2|H2].
    + rewrite app_nth1 by (rewrite length_slice; lia).
      rewrite nth_slice by lia. f_equal. lia.
    + rewrite app_nth2 by (rewrite length_slice; lia).
      rewrite nth_skipn. apply nth_qemu_mallocz.
  - rewrite app_nth1 by lia. rewrite nth_firstn.
    destruct (Nat.ltb (Z.to_nat j) (Z.to_nat off)); [apply nth_qemu_mallocz | reflexivity].
Qed.

Lemma data_inv_facts (be : bool) (bs : BlockDriverState) :
  data_inv be bs ->
  let s := opaque bs in
  let B := BDRV.block_sectors s in
  let D := offset_data (BDRV.header s) / 512 in
  let M := offset_blockmap (BDRV.header s) / 512 in
  let L := Z.of_nat (List.length (BDRV.blockmap s)) in
  let k := blocks_allocated (BDRV.header s) in
  geometry_ok bs = true /\
  header_in_range (BDRV.header s) = true /\
  0 < B < 2 ^ 32 /\ BDRV.block_size s = B * 512 /\
  total_sectors bs <= L * B /\ L < 2 ^ 32 /\ 0 <= k <= L /\
  1 <= M /\ M + (L + 127) / 128 <= D /\ D < 2 ^ 32.
Proof.
  intros (Hok & Hlay & _). cbv zeta.
  destruct (image_ok_facts be bs Hok) as (Hg & Hr & HL & Hcnt).
  destruct (geometry_ok_facts bs Hg) as (HB & Hsz & Htot).
  pose proof (count_allocated_bounds be (BDRV.blockmap (opaque bs))) as Hc.
  unfold layout_ok in Hlay. apply andb_prop in Hlay. destruct Hlay as [HM HD].
  apply Z.leb_le in HM, HD. unfold SECTOR_SIZE, UINT32_MOD in *.
  assert (Hod : 0 <= offset_data (BDRV.header (opaque bs)) < 2 ^ 32).
  { unfold header_in_range in Hr.
    repeat match goal with
           | H : _ && _ = true |- _ => apply andb_prop in H; destruct H
           end.
    match goal with
    | H : u32 (offset_data _) = true |- _ => apply u32_true in H; exact H
    end. }
  assert (offset_data (BDRV.header (opaque bs)) / 512 < 2 ^ 32).
  { apply Z.div_lt_upper_bound; lia. }
  repeat split; auto; lia.
Qed.

Lemma in_range_true (lo hi x : Z) :
  lo <= x < hi -> (lo <=? x) && (x <? hi) = true.
Proof.
  intros H. apply andb_true_intro. split; [apply Z.leb_le | apply Z.ltb_lt]; lia.
Qed.

Lemma in_range_false (lo hi x : Z) :
  ~ lo <= x < hi -> (lo <=? x) && (x <? hi) = false.
Proof.
  intros H. destruct (Z.leb_spec lo x); destruct (Z.ltb_spec x hi);
    cbn [andb]; try reflexivity. lia.
Qed.

(** ** The content of the disk after one iteration of [vdi_write] *)

(** A write into an allocated block changes the bytes written and no
    other byte of the disk. *)
Lemma content_write_existing (be : bool) (bs : BlockDriverState)
    (d : Z -> byte) (sector_num n e : Z) (buf : list byte) (a : Z) :
  data_inv be bs ->
  let B := BDRV.block_sectors (opaque bs) in
  let D := offset_data (BDRV.header (opaque bs)) / SECTOR_SIZE in
  0 <= sector_num -> 1 <= n <= B - sector_num mod B ->
  block_entry be bs sector_num = Some e -> e <> VDI_UNALLOCATED ->
  0 <= a ->
  logical_byte be bs
    (disk_store d ((D + e * B + sector_num mod B) mod UINT64_MOD * SECTOR_SIZE)
                buf (n * SECTOR_SIZE)) a
  = if (sector_num * SECTOR_SIZE <=? a)
       && (a <? sector_num * SECTOR_SIZE + n * SECTOR_SIZE)
    then nth (Z.to_nat (a - sector_num * SECTOR_SIZE)) buf Byte.x00
    else logical_byte be bs d a.
Proof.
  intros Hinv. cbv zeta. intros Hsn Hn He Hne Ha.
  pose proof (data_inv_facts be bs Hinv) as F. cbv zeta in F.
  destruct F as (_ & _ & HB & _ & _ & HL & Hk & HM & HD & HD32).
  destruct Hinv as (_ & _ & Hent).
  unfold block_entry in He.
  destruct (Hent _ e He Hne) as [Hlt Hinj].
  unfold logical_byte. unfold SECTOR_SIZE in *.
  set (B := BDRV.block_sectors (opaque bs)) in *.
  set (D := offset_data (BDRV.header (opaque bs)) / 512) in *.
  set (M := offset_blockmap (BDRV.header (opaque bs)) / 512) in *.
  set (L := Z.of_nat (List.length (BDRV.blockmap (opaque bs)))) in *.
  assert (HL0 : 0 <= (L + 127) / 128) by (apply Z.div_pos; lia).
  pose proof (Z.mod_pos_bound sector_num B ltac:(lia)) as Hsib.
  rewrite offset_no_wrap by lia.
  set (BB := B * 512).
  assert (HBB : 0 < BB) by (unfold BB; lia).
  pose proof (Z.div_mod a BB ltac:(lia)) as Hdm.
  pose proof (Z.mod_pos_bound a BB HBB) as Ho.
  assert (Hq : 0 <= a / BB) by (apply Z.div_pos; lia).
  pose proof (Z.div_mod sector_num B ltac:(lia)) as Hsdm.
  assert (Hs512 : sector_num * 512 = BB * (sector_num / B)
                                      + sector_num mod B * 512)
    by (unfold BB; lia).
  destruct (Z.leb_spec (sector_num * 512) a) as [H1|H1];
    [destruct (Z.ltb_spec a (sector_num * 512 + n * 512)) as [H2|H2]|];
    cbn [andb].
  - (* a byte of the chunk *)
    destruct (chunk_addr B sector_num (a - sector_num * 512)
                ltac:(lia) Hsn ltac:(lia)) as [Hq' Ho'].
    replace (sector_num * 512 + (a - sector_num * 512)) with a in * by lia.
    fold BB in Hq', Ho'. rewrite Hq', He.
    destruct (Z.eqb_spec e VDI_UNALLOCATED) as [|_]; [contradiction|].
    unfold disk_store. rewrite Ho'.
    destruct (Z.leb_spec ((D + e * B + sector_num mod B) * 512)
                ((D + e * B) * 512
                 + (sector_num mod B * 512 + (a - sector_num * 512))));
      [|lia].
    destruct (Z.ltb_spec ((D + e * B) * 512
                          + (sector_num mod B * 512 + (a - sector_num * 512)))
                ((D + e * B + sector_num mod B) * 512 + n * 512)); [|lia].
    cbn [andb]. f_equal. lia.
  - (* after the chunk *)
    destruct (block_entry_at be bs (Z.to_nat (a / BB))) as [e'|] eqn:He';
      [|reflexivity].
    destruct (Z.eqb_spec e' VDI_UNALLOCATED) as [|Hne']; [reflexivity|].
    unfold disk_store.
    destruct (Hent _ e' He' Hne') as [Hlt' _].
    assert (Hout : ~ ((D + e * B + sector_num mod B) * 512
                      <= (D + e' * B) * 512 + a mod BB
                      < (D + e * B + sector_num mod B) * 512 + n * 512)).
    { destruct (Z.eq_dec e' e) as [->|Hee].
      - specialize (Hinj _ He'). apply Z2Nat.inj in Hinj;
          [|lia|apply Z.div_pos; lia].
        rewrite Hinj in Hdm. lia.
      - assert (HBBv : BB = B * 512) by reflexivity.
        destruct (Z.lt_ge_cases e' e).
        + assert (e' * B + B <= e * B) by nia. lia.
        + assert (e * B + B <= e' * B) by nia. lia. }
    destruct (Z.leb_spec ((D + e * B + sector_num mod B) * 512)
                ((D + e' * B) * 512 + a mod BB));
      destruct (Z.ltb_spec ((D + e' * B) * 512 + a mod BB)
                  ((D + e * B + sector_num mod B) * 512 + n * 512));
      cbn [andb]; try reflexivity; lia.
  - (* before the chunk *)
    destruct (block_entry_at be bs (Z.to_nat (a / BB))) as [e'|] eqn:He';
      [|reflexivity].
    destruct (Z.eqb_spec e' VDI_UNALLOCATED) as [|Hne']; [reflexivity|].
    unfold disk_store.
    destruct (Hent _ e' He' Hne') as [Hlt' _].
    assert (Hout : ~ ((D + e * B + sector_num mod B) * 512
                      <= (D + e' * B) * 512 + a mod BB
                      < (D + e * B + sector_num mod B) * 512 + n * 512)).
    { destruct (Z.eq_dec e' e) as [->|Hee].
      - specialize (Hinj _ He'). apply Z2Nat.inj in Hinj;
          [|lia|apply Z.div_pos; lia].
        rewrite Hinj in Hdm. lia.
      - assert (HBBv : BB = B * 512) by reflexivity.
        destruct (Z.lt_ge_cases e' e).
        + assert (e' * B + B <= e * B) by nia. lia.
        + assert (e * B + B <= e' * B) by nia. lia. }
    destruct (Z.leb_spec ((D + e * B + sector_num mod B) * 512)
                ((D + e' * B) * 512 + a mod BB));
      destruct (Z.ltb_spec ((D + e' * B) * 512 + a mod BB)
                  ((D + e * B + sector_num mod B) * 512 + n * 512));
      cbn [andb]; try reflexivity; lia.
Qed.

(** The first write into a block defines the bytes written, leaves the
    rest of the block zero and changes no byte of another block. *)
Lemma content_write_new (be : bool) (bs : BlockDriverState)
    (d : Z -> byte) (sector_num n : Z) (buf mb hb : list byte) (a : Z) :
  data_inv be bs ->
  let s := opaque bs in
  let B := BDRV.block_sectors s in
  let D := offset_data (BDRV.header s) / SECTOR_SIZE in
  let M := offset_blockmap (BDRV.header s) / SECTOR_SIZE in
  let k := blocks_allocated (BDRV.header s) in
  0 <= sector_num -> 1 <= n <= B - sector_num mod B ->
  block_entry be bs sector_num = Some VDI_UNALLOCATED ->
  0 <= a ->
  logical_byte be (allocate be bs (Z.to_nat (sector_num / B)))
    (disk_store
       (disk_store
          (disk_store d ((D + k * B) mod UINT64_MOD * SECTOR_SIZE)
             (memcpy_at (qemu_mallocz (BDRV.block_size s))
                        (sector_num mod B * SECTOR_SIZE) buf (n * SECTOR_SIZE))
             (B * SECTOR_SIZE))
          ((M + Z.land k (Z.lnot (SECTOR_SIZE / 4 - 1)) / (SECTOR_SIZE / 4))
             mod UINT64_MOD * SECTOR_SIZE) mb (1 * SECTOR_SIZE))
       (0 * SECTOR_SIZE) hb (1 * SECTOR_SIZE)) a
  = if (sector_num * SECTOR_SIZE <=? a)
       && (a <? sector_num * SECTOR_SIZE + n * SECTOR_SIZE)
    then nth (Z.to_nat (a - sector_num * SECTOR_SIZE)) buf Byte.x00
    else logical_byte be bs d a.
Proof.
  intros Hinv. cbv zeta. intros Hsn Hn He Ha.
  pose proof (data_inv_facts be bs Hinv) as F. cbv zeta in F.
  destruct F as (_ & _ & HB & Hbsz & _ & HL & Hk & HM & HD & HD32).
  destruct Hinv as (Hok & _ & Hent).
  unfold block_entry in He.
  assert (Hw : exists w, nth_error (BDRV.blockmap (opaque bs))
                 (Z.to_nat (sector_num / BDRV.block_sectors (opaque bs)))
               = Some w /\ le_to_cpu be 4 w = VDI_UNALLOCATED).
  { unfold block_entry_at in He.
    destruct (nth_error _ _) as [w|]; [|discriminate].
    cbn in He. injection He as He. eauto. }
  destruct Hw as (w & Hw & Hun).
  destruct (allocate_image_ok be bs _ w Hok Hw Hun)
    as (_ & _ & _ & Hnew & Hkne).
  pose proof (count_allocated_lt be _ _ w Hw
                (proj2 (is_allocated_false be w) Hun)) as HkL.
  destruct (image_ok_facts be bs Hok) as (_ & _ & _ & Hcnt).
  rewrite Hcnt in HkL.
  unfold logical_byte.
  change (BDRV.block_sectors (opaque (allocate be bs ?i)))
    with (BDRV.block_sectors (opaque bs)).
  change (offset_data (BDRV.header (opaque (allocate be bs ?i))))
    with (offset_data (BDRV.header (opaque bs))).
  rewrite land_lnot_127 by lia. rewrite Hbsz.
  unfold SECTOR_SIZE in *.
  set (B := BDRV.block_sectors (opaque bs)) in *.
  set (D := offset_data (BDRV.header (opaque bs)) / 512) in *.
  set (M := offset_blockmap (BDRV.header (opaque bs)) / 512) in *.
  set (L := Z.of_nat (List.length (BDRV.blockmap (opaque bs)))) in *.
  set (k := blocks_allocated (BDRV.header (opaque bs))) in *.
  assert (Hk128 : 0 <= k / 128 /\ k / 128 + 1 <= (L + 127) / 128).
  { split; [apply Z.div_pos; lia|].
    replace (L + 127) with (L - 1 + 1 * 128) by lia.
    rewrite Z.div_add by lia.
    pose proof (Z.div_le_mono k (L - 1) 128 ltac:(lia) ltac:(lia)). lia. }
  pose proof (Z.mod_pos_bound sector_num B ltac:(lia)) as Hsib.
  replace (D + k * B) with (D + k * B + 0) by lia.
  rewrite offset_no_wrap by lia. rewrite Z.add_0_r.
  rewrite (Z.mod_small (M + k / 128)) by (unfold UINT64_MOD; lia).
  set (BB := B * 512).
  assert (HBBv : BB = B * 512) by reflexivity.
  assert (HBB : 0 < BB) by lia.
  pose proof (Z.div_mod a BB ltac:(lia)) as Hdm.
  pose proof (Z.mod_pos_bound a BB HBB) as Ho.
  assert (Hq : 0 <= a / BB) by (apply Z.div_pos; lia).
  assert (Hidx : 0 <= sector_num / B) by (apply Z.div_pos; lia).
  pose proof (Z.div_mod sector_num B ltac:(lia)) as Hsdm.
  assert (Hs512 : sector_num * 512 = BB * (sector_num / B)
                                      + sector_num mod B * 512) by lia.
  assert (Hchunk : sector_num * 512 <= a < sector_num * 512 + n * 512 ->
                   a / BB = sector_num / B).
  { intros Hin.
    destruct (chunk_addr B sector_num (a - sector_num * 512)
                ltac:(lia) Hsn ltac:(lia)) as [Hq' _].
    replace (sector_num * 512 + (a - sector_num * 512)) with a in Hq' by lia.
    exact Hq'. }
  assert (HkB : 0 <= k * B) by nia.
  unfold disk_store.
  destruct (Z.eq_dec (a / BB) (sector_num / B)) as [Heq|Hneq].
  - (* a byte of the new block *)
    rewrite Heq, Hnew, He.
    destruct (Z.eqb_spec k VDI_UNALLOCATED) as [|_]; [contradiction|].
    change (VDI_UNALLOCATED =? VDI_UNALLOCATED) with true. cbv iota.
    rewrite Heq in Hdm.
    rewrite (in_range_false (0 * 512)) by lia.
    rewrite (in_range_false ((M + k / 128) * 512)) by lia.
    rewrite (in_range_true ((D + k * B) * 512)) by lia.
    replace ((D + k * B) * 512 + a mod BB - (D + k * B) * 512)
      with (a mod BB) by lia.
    rewrite nth_block_buffer by lia.
    destruct (Z.leb_spec (sector_num * 512) a) as [H1|H1];
      [destruct (Z.ltb_spec a (sector_num * 512 + n * 512)) as [H2|H2]|];
      cbn [andb].
    + rewrite in_range_true by lia. f_equal. lia.
    + rewrite in_range_false by lia. reflexivity.
    + rewrite in_range_false by lia. reflexivity.
  - (* a byte of another block *)
    assert (Hidxne : Z.to_nat (sector_num / B) <> Z.to_nat (a / BB)) by lia.
    rewrite block_entry_at_allocate_other by exact Hidxne.
    rewrite (in_range_false (sector_num * 512))
      by (intros Hin; apply Hneq, Hchunk, Hin).
    destruct (block_entry_at be bs (Z.to_nat (a / BB))) as [e'|] eqn:He';
      [|reflexivity].
    destruct (Z.eqb_spec e' VDI_UNALLOCATED) as [|Hne']; [reflexivity|].
    destruct (Hent _ e' He' Hne') as [Hlt' _].
    assert (e' * B + B <= k * B) by nia.
    assert (0 <= e' * B) by nia.
    rewrite (in_range_false (0 * 512)) by lia.
    rewrite (in_range_false ((M + k / 128) * 512)) by lia.
    rewrite (in_range_false ((D + k * B) * 512)) by lia.
    reflexivity.
Qed.

Lemma block_entry_of_word (be : bool) (bs : BlockDriverState) (t w : Z) :
  nth_error (BDRV.blockmap (opaque bs))
            (Z.to_nat (t / BDRV.block_sectors (opaque bs))) = Some w ->
  block_entry be bs t = Some (le_to_cpu be 4 w).
Proof. intros H. unfold block_entry, block_entry_at. now rewrite H. Qed.

Lemma vdi_write_block_content (be : bool) (bs : BlockDriverState) (hd : Host)
    (sector_num : Z) (buf : list byte) (nb_sectors n : Z)
    (bs' : BlockDriverState) (hd' : Host) :
  data_inv be bs -> 0 <= sector_num < total_sectors bs -> 0 < nb_sectors ->
  vdi_write_block be bs hd sector_num buf nb_sectors = Some (0, n, bs', hd') ->
  n = chunk_sectors bs sector_num nb_sectors /\
  data_inv be bs' /\
  total_sectors bs' = total_sectors bs /\
  forall a, 0 <= a ->
    logical_byte be bs' (disk hd') a
    = if (sector_num * SECTOR_SIZE <=? a)
         && (a <? sector_num * SECTOR_SIZE + n * SECTOR_SIZE)
      then nth (Z.to_nat (a - sector_num * SECTOR_SIZE)) buf Byte.x00
      else logical_byte be bs (disk hd) a.
Proof.
  intros Hinv Hsn Hnb Hrun.
  pose proof (data_inv_facts be bs Hinv) as F. cbv zeta in F.
  destruct F as (Hg & Hr & HB & _).
  destruct (block_index_in_range bs sector_num Hg Hsn) as [w Hw].
  pose proof (vdi_write_block_success be bs hd sector_num buf nb_sectors w n
                bs' hd' Hg Hr Hw Hrun) as S. cbv zeta in S.
  destruct S as (Hn & Hnew & Hold).
  pose proof (chunk_bounds (BDRV.block_sectors (opaque bs)) sector_num
                nb_sectors ltac:(lia) ltac:(lia) Hnb) as Hc.
  cbv zeta in Hc. fold (chunk_sectors bs sector_num nb_sectors) in Hc.
  rewrite <- Hn in Hc. destruct Hc as (Hn1 & Hn2 & _).
  pose proof (block_entry_of_word be bs sector_num w Hw) as He.
  split; [exact Hn|].
  destruct (Z.eq_dec (le_to_cpu be 4 w) VDI_UNALLOCATED) as [Hun|Hal].
  - destruct (Hnew Hun) as (-> & mb & hb & ->). rewrite Hun in He.
    split; [apply allocate_data_inv; [exact Hinv | exact He]|].
    split; [reflexivity|].
    intros a Ha. apply content_write_new; auto; lia.
  - destruct (Hold Hal) as (-> & ->).
    split; [exact Hinv|]. split; [reflexivity|].
    intros a Ha. apply content_write_existing; auto; lia.
Qed.

(** ** The content of the disk after [vdi_write] *)

Lemma vdi_write_loop_content (be : bool) (fuel : nat) :
  forall (bs : BlockDriverState) (hd : Host) (sector_num : Z)
         (buf : list byte) (nb_sectors : Z) (bs' : BlockDriverState)
         (hd' : Host),
    data_inv be bs -> 0 <= sector_num ->
    sector_num + nb_sectors <= total_sectors bs ->
    vdi_write_loop be fuel bs hd sector_num buf nb_sectors
    = Some (0, bs', hd') ->
    data_inv be bs' /\
    total_sectors bs' = total_sectors bs /\
    forall a, 0 <= a ->
      logical_byte be bs' (disk hd') a
      = if (sector_num * SECTOR_SIZE <=? a)
           && (a <? sector_num * SECTOR_SIZE + nb_sectors * SECTOR_SIZE)
        then nth (Z.to_nat (a - sector_num * SECTOR_SIZE)) buf Byte.x00
        else logical_byte be bs (disk hd) a.
Proof.
  induction fuel as [|fuel IH];
    intros bs hd sector_num buf nb_sectors bs' hd' Hinv Hsn Hend Hrun;
    cbn [vdi_write_loop] in Hrun;
    destruct (Z.gtb_spec nb_sectors 0) as [Hnb|Hnb]; cbn [andb] in Hrun.
  - destruct (Z.ltb_spec sector_num (total_sectors bs)); [discriminate|lia].
  - injection Hrun as <- <-. split; [exact Hinv|]. split; [reflexivity|].
    intros a Ha. rewrite in_range_false by (unfold SECTOR_SIZE; lia).
    reflexivity.
  - destruct (Z.ltb_spec sector_num (total_sectors bs)) as [Hlt|Hge]; [|lia].
    destruct Hinv as (Hok & Hlay & Hent).
    destruct (vdi_write_block_image_ok be bs hd sector_num buf nb_sectors Hok
                ltac:(lia))
      as (r & bs1 & hd1 & Hblk & Hret & _).
    rewrite Hblk in Hrun.
    destruct Hret as [-> | ->];
      [|change (-1 <? 0) with true in Hrun; discriminate Hrun].
    change (0 <? 0) with false in Hrun. cbv iota in Hrun.
    destruct (vdi_write_block_content be bs hd sector_num buf nb_sectors _
                bs1 hd1 (conj Hok (conj Hlay Hent)) ltac:(lia) Hnb Hblk)
      as (_ & Hinv1 & Htot1 & Hc1).
    pose proof (data_inv_facts be bs (conj Hok (conj Hlay Hent))) as F.
    cbv zeta in F. destruct F as (_ & _ & HB & _).
    pose proof (chunk_bounds (BDRV.block_sectors (opaque bs)) sector_num
                  nb_sectors ltac:(lia) Hsn Hnb) as Hn.
    cbv zeta in Hn. fold (chunk_sectors bs sector_num nb_sectors) in Hn.
    destruct Hn as (Hn1 & Hn2 & _).
    set (n := chunk_sectors bs sector_num nb_sectors) in *.
    destruct (IH bs1 hd1 (sector_num + n)
                (skipn (Z.to_nat (n * SECTOR_SIZE)) buf) (nb_sectors - n)
                bs' hd' Hinv1 ltac:(lia) ltac:(lia) Hrun)
      as (Hinv' & Htot' & Hc').
    split; [exact Hinv'|]. split; [lia|].
    intros a Ha. rewrite (Hc' a Ha), (Hc1 a Ha). unfold SECTOR_SIZE.
    destruct (Z.lt_ge_cases a (sector_num * 512)) as [C1|C1].
    + rewrite !in_range_false by lia. reflexivity.
    + destruct (Z.lt_ge_cases a (sector_num * 512 + n * 512)) as [C2|C2].
      * rewrite (in_range_false ((sector_num + n) * 512)) by lia.
        rewrite !in_range_true by lia. reflexivity.
      * destruct (Z.lt_ge_cases a (sector_num * 512 + nb_sectors * 512))
          as [C3|C3].
        -- rewrite !in_range_true by lia. rewrite nth_skipn. f_equal. lia.
        -- rewrite !in_range_false by lia. reflexivity.
  - injection Hrun as <- <-. split; [exact Hinv|]. split; [reflexivity|].
    intros a Ha. rewrite in_range_false by (unfold SECTOR_SIZE; lia).
    reflexivity.
Qed.

(** ** What [vdi_read] returns *)

Lemma nth_disk_bytes (d : Z -> byte) (off : Z) (n i : nat) :
  (i < n)%nat -> nth i (disk_bytes d off n) Byte.x00 = d (off + Z.of_nat i).
Proof.
  intros Hi. unfold disk_bytes.
  rewrite (nth_indep _ Byte.x00 (d (off + Z.of_nat 0)))
    by (rewrite length_map, length_seq; exact Hi).
  rewrite (map_nth (fun i => d (off + Z.of_nat i))). now rewrite seq_nth.
Qed.

(** A successful [vdi_read] returns the content of the virtual disk. *)
Lemma vdi_read_loop_content (be : bool) (bs : BlockDriverState) (fuel : nat) :
  data_inv be bs ->
  forall (hd : Host) (sector_num : Z) (buf : list byte) (nb_sectors : Z)
         (out : list byte) (hd' : Host),
    0 <= sector_num -> sector_num + nb_sectors <= total_sectors bs ->
    (Z.to_nat (nb_sectors * SECTOR_SIZE) <= List.length buf)%nat ->
    vdi_read_loop be fuel bs hd sector_num buf nb_sectors
    = Some (0, out, hd') ->
    List.length out = List.length buf /\
    forall i, (i < Z.to_nat (nb_sectors * SECTOR_SIZE))%nat ->
      nth i out Byte.x00
      = logical_byte be bs (disk hd) (sector_num * SECTOR_SIZE + Z.of_nat i).
Proof.
  intros Hinv.
  pose proof (data_inv_facts be bs Hinv) as F. cbv zeta in F.
  destruct F as (Hg & _ & HB & _ & _ & HL & Hk & HM & HD & HD32).
  destruct Hinv as (_ & _ & Hent).
  induction fuel as [|fuel IH];
    intros hd sector_num buf nb_sectors out hd' Hsn Hend Hlen Hrun;
    cbn [vdi_read_loop] in Hrun;
    destruct (Z.gtb_spec nb_sectors 0) as [Hnb|Hnb]; cbn [andb] in Hrun.
  - destruct (Z.ltb_spec sector_num (total_sectors bs)); [discriminate|lia].
  - injection Hrun as <- <-. split; [reflexivity|].
    intros i Hi. unfold SECTOR_SIZE in Hi. lia.
  - destruct (Z.ltb_spec sector_num (total_sectors bs)) as [Hlt|Hge]; [|lia].
    destruct (Z.eqb_spec (BDRV.block_sectors (opaque bs)) 0) as [E|_]; [lia|].
    destruct (block_index_in_range bs sector_num Hg ltac:(lia)) as [w Hw].
    rewrite Hw in Hrun.
    pose proof (block_entry_of_word be bs sector_num w Hw) as He.
    unfold block_entry in He.
    pose proof (chunk_bounds (BDRV.block_sectors (opaque bs)) sector_num
                  nb_sectors ltac:(lia) Hsn Hnb) as Hn.
    cbv zeta in Hn.
    unfold SECTOR_SIZE in *.
    set (B := BDRV.block_sectors (opaque bs)) in *.
    set (D := offset_data (BDRV.header (opaque bs)) / 512) in *.
    set (L := Z.of_nat (List.length (BDRV.blockmap (opaque bs)))) in *.
    assert (HL0 : 0 <= (L + 127) / 128) by (apply Z.div_pos; lia).
    set (n := if B - sector_num mod B >? nb_sectors then nb_sectors
              else B - sector_num mod B) in *.
    destruct Hn as (Hn1 & Hn2 & Hsib).
    set (len := Z.to_nat (n * 512)) in *.
    assert (Hlenv : Z.of_nat len = n * 512) by (unfold len; lia).
    assert (Hlenle : (len <= List.length buf)%nat) by lia.
    (* the bytes of this chunk belong to the block of [sector_num] *)
    assert (Haddr : forall i, (i < len)%nat ->
              (sector_num * 512 + Z.of_nat i) / (B * 512) = sector_num / B /\
              (sector_num * 512 + Z.of_nat i) mod (B * 512)
              = sector_num mod B * 512 + Z.of_nat i).
    { intros i Hi. apply chunk_addr; lia. }
    destruct (Z.eqb_spec (le_to_cpu be 4 w) VDI_UNALLOCATED) as [Hun|Hal].
    + change (0 <? 0) with false in Hrun. cbv iota in Hrun.
      destruct (vdi_read_loop be fuel bs hd (sector_num + n)
                  (skipn len (memset0 buf (n * 512))) (nb_sectors - n))
        as [[[r rest] hd1]|] eqn:Hrest; [|discriminate].
      injection Hrun as -> <- <-.
      assert (Hms : List.length (memset0 buf (n * 512)) = List.length buf).
      { unfold memset0. fold len.
        rewrite length_app, repeat_length, length_skipn. lia. }
      destruct (IH hd (sector_num + n) (skipn len (memset0 buf (n * 512)))
                  (nb_sectors - n) rest hd1 ltac:(lia) ltac:(lia)
                  ltac:(rewrite length_skipn, Hms; lia) Hrest)
        as (Hlrest & Hcont).
      assert (Hfirst : firstn len (memset0 buf (n * 512))
                       = repeat Byte.x00 len).
      { unfold memset0. fold len.
        rewrite firstn_app, repeat_length, Nat.sub_diag.
        cbn [firstn]. rewrite app_nil_r.
        apply firstn_all2. now rewrite repeat_length. }
      rewrite Hfirst. split.
      * rewrite length_app, repeat_length, Hlrest, length_skipn, Hms. lia.
      * intros i Hi.
        destruct (Nat.lt_ge_cases i len) as [C|C].
        -- rewrite app_nth1 by (rewrite repeat_length; exact C).
           rewrite nth_repeat. unfold logical_byte. fold B.
           unfold SECTOR_SIZE.
           destruct (Haddr i C) as [-> _]. rewrite He, Hun. reflexivity.
        -- rewrite app_nth2 by (rewrite repeat_length; exact C).
           rewrite repeat_length, Hcont by lia. f_equal. lia.
    + unfold bdrv_read in Hrun. destruct (next_fault hd).
      { change (-1 <? 0) with true in Hrun. cbv iota in Hrun.
        discriminate Hrun. }
      change (0 <? 0) with false in Hrun. cbv iota in Hrun.
      unfold SECTOR_SIZE in Hrun. fold len in Hrun.
      destruct (Hent _ _ He Hal) as [Hrange _].
      rewrite offset_no_wrap in Hrun by lia.
      set (buf1 := disk_bytes (disk hd)
                     ((D + le_to_cpu be 4 w * B + sector_num mod B) * 512) len
                   ++ skipn len buf) in *.
      match type of Hrun with
      | match vdi_read_loop be fuel bs ?h _ _ _ with _ => _ end = _ =>
          set (hd1 := h) in *
      end.
      destruct (vdi_read_loop be fuel bs hd1 (sector_num + n)
                  (skipn len buf1) (nb_sectors - n))
        as [[[r rest] hd2]|] eqn:Hrest; [|discriminate].
      injection Hrun as -> <- <-.
      assert (Hb1 : List.length buf1 = List.length buf).
      { unfold buf1. rewrite length_app, length_disk_bytes, length_skipn. lia. }
      destruct (IH hd1 (sector_num + n) (skipn len buf1) (nb_sectors - n)
                  rest hd2 ltac:(lia) ltac:(lia)
                  ltac:(rewrite length_skipn, Hb1; lia) Hrest)
        as (Hlrest & Hcont).
      assert (Hfirst : firstn len buf1
                       = disk_bytes (disk hd)
                           ((D + le_to_cpu be 4 w * B + sector_num mod B) * 512)
                           len).
      { unfold buf1. rewrite firstn_app, length_disk_bytes, Nat.sub_diag.
        cbn [firstn]. rewrite app_nil_r.
        apply firstn_all2. now rewrite length_disk_bytes. }
      rewrite Hfirst. split.
      * rewrite length_app, length_disk_bytes, Hlrest, length_skipn, Hb1. lia.
      * intros i Hi.
        destruct (Nat.lt_ge_cases i len) as [C|C].
        -- rewrite app_nth1 by (rewrite length_disk_bytes; exact C).
           rewrite nth_disk_bytes by exact C.
           unfold logical_byte. fold B. unfold SECTOR_SIZE. fold D.
           destruct (Haddr i C) as [-> ->]. rewrite He.
           destruct (Z.eqb_spec (le_to_cpu be 4 w) VDI_UNALLOCATED)
             as [|_]; [contradiction|].
           f_equal. lia.
        -- rewrite app_nth2 by (rewrite length_disk_bytes; exact C).
           rewrite length_disk_bytes, Hcont by lia.
           change (disk hd1) with (disk hd). f_equal. lia.
  - injection Hrun as <- <-. split; [reflexivity|].
    intros i Hi. unfold SECTOR_SIZE in Hi. lia.
Qed.

(** Without a failing request [vdi_read] returns 0. *)
Lemma vdi_read_loop_no_fault (be : bool) (bs : BlockDriverState) (fuel : nat) :
  forall (hd : Host) (sector_num : Z) (buf : list byte) (nb_sectors r : Z)
         (out : list byte) (hd' : Host),
    faults hd = [] ->
    vdi_read_loop be fuel bs hd sector_num buf nb_sectors
    = Some (r, out, hd') -> r = 0.
Proof.
  induction fuel as [|fuel IH];
    intros hd sector_num buf nb_sectors r out hd' Hf Hrun;
    cbn [vdi_read_loop] in Hrun;
    destruct ((nb_sectors >? 0) && (sector_num <? total_sectors bs));
    try discriminate; try (injection Hrun as <- _ _; reflexivity).
  destruct (BDRV.block_sectors (opaque bs) =? 0); [discriminate|].
  destruct (nth_error _ _) as [w|]; [|discriminate].
  destruct (le_to_cpu be 4 w =? VDI_UNALLOCATED).
  - change (0 <? 0) with false in Hrun. cbv iota in Hrun.
    destruct (vdi_read_loop be fuel bs hd _ _ _) as [[[r1 rest] hd1]|] eqn:E;
      [|discriminate].
    injection Hrun as <- _ _. eapply IH; eauto.
  - unfold bdrv_read, next_fault in Hrun. rewrite Hf in Hrun.
    change (0 <? 0) with false in Hrun. cbv iota in Hrun.
    match type of Hrun with
    | match vdi_read_loop be fuel bs ?h ?s ?b ?n with _ => _ end = _ =>
        destruct (vdi_read_loop be fuel bs h s b n)
          as [[[r1 rest] hd1]|] eqn:E; [|discriminate]
    end.
    injection Hrun as <- _ _. eapply IH; [|exact E]. reflexivity.
Qed.

(** ** Reading back what was written *)

(** X19: in a well-formed image (the counter counts the allocated entries,
    which refer to distinct blocks below it, and the data region follows
    the block map), after [vdi_write] of [nb_sectors] sectors within the
    disk has returned 0, the image is still well formed and [vdi_read] of
    the same range on the resulting state and file returns; when it returns
    0, which it does when no request to the file fails, the buffer holds
    exactly the bytes written. *)
Theorem read_after_write (be : bool) (bs : BlockDriverState) (hd : Host)
    (sector_num : Z) (buf dst : list byte) (nb_sectors : Z)
    (bs' : BlockDriverState) (hd' : Host) :
  data_ok be bs = true ->
  0 <= sector_num -> 0 <= nb_sectors ->
  sector_num + nb_sectors <= total_sectors bs ->
  List.length buf = Z.to_nat (nb_sectors * SECTOR_SIZE) ->
  List.length dst = Z.to_nat (nb_sectors * SECTOR_SIZE) ->
  vdi_write be bs hd sector_num buf nb_sectors = Some (0, bs', hd') ->
  data_inv be bs' /\
  exists r out hd'',
    vdi_read be bs' hd' sector_num dst nb_sectors = Some (r, out, hd'') /\
    (r = 0 -> out = buf) /\
    (faults hd' = [] -> r = 0).
Proof.
  intros Hok Hsn Hnb Hend Hbuf Hdst Hw.
  apply data_ok_inv in Hok.
  unfold vdi_write in Hw.
  destruct (Z.ltb_spec sector_num 0) as [Hneg|_]; [lia|].
  destruct (vdi_write_loop_content be _ bs hd sector_num buf nb_sectors
              bs' hd' Hok Hsn Hend Hw) as (Hinv' & Htot & Hcontent).
  pose proof (data_inv_facts be bs' Hinv') as F. cbv zeta in F.
  destruct F as (Hg' & _).
  unfold vdi_read.
  destruct (Z.ltb_spec sector_num 0) as [Hneg|_]; [lia|].
  destruct (vdi_read_loop_spec be bs' (Z.to_nat nb_sectors) Hg' hd'
              sector_num dst nb_sectors Hsn ltac:(lia) ltac:(lia))
    as (r & out & hd'' & reqs & Hrun & _).
  split; [exact Hinv'|].
  exists r, out, hd''. split; [exact Hrun|]. split.
  - intros ->.
    destruct (vdi_read_loop_content be bs' _ Hinv' hd' sector_num dst
                nb_sectors out hd'' Hsn ltac:(lia) ltac:(lia) Hrun)
      as (Hlen & Hnth).
    apply (nth_ext _ _ Byte.x00 Byte.x00); [lia|].
    intros i Hi. rewrite Hnth by lia.
    rewrite Hcontent by (unfold SECTOR_SIZE; lia).
    rewrite in_range_true by (unfold SECTOR_SIZE in *; lia).
    f_equal. lia.
  - intros Hf. eapply vdi_read_loop_no_fault; eassumption.
Qed.

Lemma read_after_write_witness :
  let bs := fresh_state 128 in
  let hd := host_of (fresh_file true 128) in
  let buf := pattern ++ pattern in
  let dst := repeat Byte.xff 1024 in
  data_ok true bs = true /\
  0 <= 2047 /\ 0 <= 2 /\ 2047 + 2 <= total_sectors bs /\
  List.length buf = Z.to_nat (2 * SECTOR_SIZE) /\
  List.length dst = Z.to_nat (2 * SECTOR_SIZE) /\
  match vdi_write true bs hd 2047 buf 2 with
  | Some (r, bs', hd') =>
    r = 0 /\
    data_inv true bs' /\
    exists r' out hd'',
      vdi_read true bs' hd' 2047 dst 2 = Some (r', out, hd'') /\
      (r' = 0 -> out = buf) /\
      (faults hd' = [] -> r' = 0)
  | None => False
  end.
Proof.
  cbv zeta.
  assert (Hok : data_ok true (fresh_state 128) = true)
    by (vm_compute; reflexivity).
  assert (Hend : 2047 + 2 <= total_sectors (fresh_state 128))
    by (vm_compute; discriminate).
  assert (Hbuf : List.length (pattern ++ pattern) = Z.to_nat (2 * SECTOR_SIZE))
    by (vm_compute; reflexivity).
  assert (Hdst : List.length (repeat Byte.xff 1024) = Z.to_nat (2 * SECTOR_SIZE))
    by (vm_compute; reflexivity).
  split; [exact Hok|]. split; [lia|]. split; [lia|]. split; [exact Hend|].
  split; [exact Hbuf|]. split; [exact Hdst|].
  destruct (vdi_write true (fresh_state 128) (host_of (fresh_file true 128))
              2047 (pattern ++ pattern) 2) as [[[r bs'] hd']|] eqn:E.
  - assert (Hr : r = 0).
    { apply (f_equal (option_map (fun x => fst (fst x)))) in E.
      vm_compute in E. congruence. }
    subst r. split; [reflexivity|].
    apply (read_after_write true (fresh_state 128)
             (host_of (fresh_file true 128)) 2047 (pattern ++ pattern)
             (repeat Byte.xff 1024) 2 bs' hd' Hok ltac:(lia) ltac:(lia)
             Hend Hbuf Hdst E).
  - apply (f_equal (option_map (fun x => fst (fst x)))) in E.
    vm_compute in E. discriminate E.
Defined.

(** ** An image of two blocks, created and opened *)

(** C6: the image [vdi_create] writes for 2 MiB is opened while the memory
    [qemu_malloc] returns for the block map holds zeros.  [vdi_open] reads
    8 / 512 = 0 sectors of the block map, so that both entries are 0 in
    memory, where the file has them [VDI_UNALLOCATED].  [vdi_write] of the
    2049 sectors from sector 2047 on returns 0 and sends both blocks to
    block 0 of the file; [vdi_read] of the same sectors returns 0, and the
    buffer it fills is not the buffer written: byte 1 is the 0xff of the
    last sector written, not the 0x01 of the first. *)
Theorem read_after_write_created_image :
  match vdi_open false 0 (host_of (fresh_file false 2))
                 (repeat Byte.x00 8) with
  | (r0, Some bs, hd) =>
    r0 = 0 /\ total_sectors bs = 4096 /\
    map (le_to_cpu false 4) (BDRV.blockmap (opaque bs)) = [0; 0] /\
    match vdi_write false bs hd 2047 wide_buf 2049 with
    | Some (r, bs', hd') =>
      r = 0 /\
      match vdi_read false bs' hd' 2047
                     (repeat Byte.x00 (Z.to_nat (2049 * 512))) 2049 with
      | Some (r', out, _) =>
        r' = 0 /\
        nth 1 out Byte.x00 = Byte.xff /\
        nth 1 wide_buf Byte.x00 = Byte.x01 /\
        nth 1 out Byte.x00 <> nth 1 wide_buf Byte.x00
      | None => False
      end
    | None => False
    end
  | _ => False
  end.
Proof.
  lazy. repeat split. discriminate.
Qed.

(** C8: on the same image, opened the same way, [vdi_write] of the first
    sector returns 0 and leaves [blocks_allocated] at 0, while both entries
    of the block map are allocated: the counter is not the number of
    entries that are not [VDI_UNALLOCATED]. *)
Theorem counter_misses_entries_created_image :
  match vdi_open false 0 (host_of (fresh_file false 2))
                 (repeat Byte.x00 8) with
  | (r0, Some bs, hd) =>
    r0 = 0 /\
    match vdi_write false bs hd 0 pattern 1 with
    | Some (r, bs', _) =>
      r = 0 /\
      blocks_allocated (BDRV.header (opaque bs')) = 0 /\
      count_allocated false (BDRV.blockmap (opaque bs')) = 2
    | None => False
    end
  | _ => False
  end.
Proof.
  vm_compute. repeat split.
Qed.
Lemma mem_load_mem_bytes (be : bool) (n : nat) (x : Z) :
  0 <= x < 2 ^ (Z.of_nat n * 8) -> mem_load be (mem_bytes be n x) = x.
Proof.
  intros H. unfold mem_load, mem_bytes. destruct be; rewrite ?rev_involutive;
    rewrite le_combine_split; apply Z.mod_small; lia.
Qed.

Lemma mem_bytes_mem_load (be : bool) (n : nat) (bs : list byte) :
  List.length bs = n -> mem_bytes be n (mem_load be bs) = bs.
Proof.
  intros <-. unfold mem_load, mem_bytes. destruct be.
  - rewrite <- (length_rev bs), split_le_combine. apply rev_involutive.
  - apply split_le_combine.
Qed.

Lemma cpu_to_le_to_cpu (be : bool) (n : nat) (x : Z) :
  0 <= x < 2 ^ (Z.of_nat n * 8) -> cpu_to_le be n (le_to_cpu be n x) = x.
Proof.
  intros H. unfold cpu_to_le, le_to_cpu. destruct be; [|reflexivity].
  rewrite bswap_bswap. apply Z.mod_small; lia.
Qed.

Lemma slice_app_adj (buf : list byte) (a n b m : nat) :
  b = (a + n)%nat -> slice buf a n ++ slice buf b m = slice buf a (n + m).
Proof.
  intros ->. apply nth_ext with (d := Byte.x00) (d' := Byte.x00).
  - rewrite length_app, !length_slice. reflexivity.
  - intros i Hi. rewrite length_app, !length_slice in Hi.
    destruct (Nat.lt_ge_cases i n) as [Hlt|Hge].
    + rewrite app_nth1 by (rewrite length_slice; lia).
      rewrite !nth_slice by lia. reflexivity.
    + rewrite app_nth2 by (rewrite length_slice; lia).
      rewrite length_slice. rewrite !nth_slice by lia. f_equal. lia.
Qed.

Lemma mem_load_slice_range (be : bool) (buf : list byte) (off n : nat) :
  0 <= mem_load be (slice buf off n) < 2 ^ (Z.of_nat n * 8).
Proof.
  pose proof (mem_load_bound be (slice buf off n)) as H.
  rewrite length_slice in H. replace (Z.of_nat n * 8) with (8 * Z.of_nat n) by lia.
  exact H.
Qed.

Lemma header_mem_of_mem (be : bool) (buf : list byte) :
  header_mem be (header_of_mem be buf) = slice buf 0 512.
Proof.
  unfold header_mem, header_of_mem, fixlen.
  cbn [text signature version header_size image_type image_flags description
       offset_blockmap offset_data cylinders heads sectors sector_size unused1
       disk_size block_size block_extra blocks_in_image blocks_allocated
       uuid_image uuid_last_snap uuid_link uuid_parent unused2].
  cbn [seq map app firstn List.concat Nat.add Nat.mul].
  rewrite !mem_bytes_mem_load by apply length_slice.
  rewrite !(slice_all (slice _ _ _)) by apply length_slice.
  rewrite app_nil_r.
  repeat (rewrite slice_app_adj by reflexivity; cbn [Nat.add]).
  reflexivity.
Qed.

Lemma header_in_range_of_mem (be : bool) (buf : list byte) :
  header_in_range (header_of_mem be buf) = true.
Proof.
  unfold header_in_range, header_of_mem, u32, u64, UINT32_MOD, UINT64_MOD.
  cbn [text signature version header_size image_type image_flags description
       offset_blockmap offset_data cylinders heads sectors sector_size unused1
       disk_size block_size block_extra blocks_in_image blocks_allocated].
  repeat (apply andb_true_intro; split);
    first [ apply Z.leb_le; apply (mem_load_slice_range be buf _ 4)
          | apply Z.leb_le; apply (mem_load_slice_range be buf _ 8)
          | apply Z.ltb_lt; apply (mem_load_slice_range be buf _ 4)
          | apply Z.ltb_lt; apply (mem_load_slice_range be buf _ 8) ].
Qed.

Lemma header_in_range_to_cpu (be : bool) (h : VdiHeader) :
  header_in_range h = true -> header_in_range (vdi_header_to_cpu be h) = true.
Proof.
  intros H. destruct be; [|destruct h; exact H].
  unfold header_in_range, vdi_header_to_cpu, map_scalars, le_to_cpu, u32, u64,
    UINT32_MOD, UINT64_MOD.
  cbn [signature version header_size image_type image_flags
       offset_blockmap offset_data cylinders heads sectors sector_size
       disk_size block_size block_extra blocks_in_image blocks_allocated].
  repeat (apply andb_true_intro; split);
    first [ apply Z.leb_le; apply (bswap_range 4)
          | apply Z.leb_le; apply (bswap_range 8)
          | apply Z.ltb_lt; apply (bswap_range 4)
          | apply Z.ltb_lt; apply (bswap_range 8) ].
Qed.

Lemma header_roundtrip_le (be : bool) (h : VdiHeader) :
  header_in_range h = true ->
  vdi_header_to_le be (vdi_header_to_cpu be h) = h.
Proof.
  unfold header_in_range. intros H.
  repeat match goal with
         | H : _ && _ = true |- _ => apply andb_prop in H; destruct H
         end.
  destruct h; cbn in *.
  unfold vdi_header_to_cpu, vdi_header_to_le, map_scalars; cbn.
  repeat match goal with
         | H : u32 _ = true |- _ => apply u32_true in H
         | H : u64 _ = true |- _ => apply u64_true in H
         end.
  rewrite !cpu_to_le_to_cpu by assumption. reflexivity.
Qed.


Ltac header_fields :=
  cbn [text signature version header_size image_type image_flags description
       offset_blockmap offset_data cylinders heads sectors sector_size unused1
       disk_size block_size block_extra blocks_in_image blocks_allocated
       uuid_image uuid_last_snap uuid_link uuid_parent unused2].

Ltac header_piece :=
  unfold header_mem, fixlen; header_fields;
  cbn [firstn app map List.concat]; rewrite <- ?app_assoc;
  repeat (rewrite slice_skip
            by (rewrite ?length_slice, ?length_mem_bytes; cbn; lia);
          rewrite ?length_slice, ?length_mem_bytes; cbn [Nat.sub]);
  rewrite slice_head by (rewrite ?length_slice, ?length_mem_bytes; reflexivity).

Lemma header_ext (a b : VdiHeader) :
  text a = text b -> signature a = signature b -> version a = version b ->
  header_size a = header_size b -> image_type a = image_type b ->
  image_flags a = image_flags b -> description a = description b ->
  offset_blockmap a = offset_blockmap b -> offset_data a = offset_data b ->
  cylinders a = cylinders b -> heads a = heads b -> sectors a = sectors b ->
  sector_size a = sector_size b -> unused1 a = unused1 b ->
  disk_size a = disk_size b -> block_size a = block_size b ->
  block_extra a = block_extra b -> blocks_in_image a = blocks_in_image b ->
  blocks_allocated a = blocks_allocated b -> uuid_image a = uuid_image b ->
  uuid_last_snap a = uuid_last_snap b -> uuid_link a = uuid_link b ->
  uuid_parent a = uuid_parent b -> unused2 a = unused2 b -> a = b.
Proof.
  destruct a, b. header_fields. intros. subst. reflexivity.
Qed.

Lemma header_of_mem_mem (be : bool) (h : VdiHeader) (rest : list byte) :
  header_wf h = true -> header_of_mem be (header_mem be h ++ rest) = h.
Proof.
  unfold header_wf, header_in_range. intros H.
  repeat match goal with
         | H : _ && _ = true |- _ => apply andb_prop in H; destruct H
         end.
  repeat match goal with
         | H : u32 _ = true |- _ => apply u32_true in H
         | H : u64 _ = true |- _ => apply u64_true in H
         | H : (_ =? _)%nat = true |- _ => apply Nat.eqb_eq in H
         end.
  assert (Hu : exists a b c d e f g, unused2 h = [a; b; c; d; e; f; g]).
  { destruct (unused2 h) as [|a [|b [|c [|d [|e [|f [|g [|x u]]]]]]]];
      try discriminate. now exists a, b, c, d, e, f, g. }
  destruct Hu as (a & b & c & d & e & f & g & Hu).
  match goal with H : forallb _ _ = true |- _ => rewrite Hu in H; cbn [forallb] in H end.
  repeat match goal with
         | H : _ && _ = true |- _ => apply andb_prop in H; destruct H
         end.
  repeat match goal with
         | H : u64 _ = true |- _ => apply u64_true in H
         end.
  apply header_ext; unfold header_of_mem; header_fields;
    try (header_piece;
         first [ apply mem_load_mem_bytes; assumption
               | apply slice_all; assumption ]).
  rewrite Hu. cbn [seq map Nat.add Nat.mul].
  repeat (apply f_equal2; [|try reflexivity]);
    unfold header_mem, fixlen; rewrite Hu; header_piece;
    apply mem_load_mem_bytes; assumption.
Qed.

Lemma header_wf_to_le (be : bool) (h : VdiHeader) :
  header_wf h = true -> header_wf (vdi_header_to_le be h) = true.
Proof.
  intros H. destruct be; [|destruct h; exact H].
  unfold header_wf in *.
  repeat match goal with
         | H : _ && _ = true |- _ => apply andb_prop in H; destruct H
         end.
  repeat match goal with
         | |- _ && _ = true => apply andb_true_intro; split
         end; try assumption.
  unfold header_in_range, vdi_header_to_le, map_scalars, cpu_to_le, u32, u64,
    UINT32_MOD, UINT64_MOD.
  header_fields.
  repeat (apply andb_true_intro; split);
    first [ apply Z.leb_le; apply (bswap_range 4)
          | apply Z.leb_le; apply (bswap_range 8)
          | apply Z.ltb_lt; apply (bswap_range 4)
          | apply Z.ltb_lt; apply (bswap_range 8) ].
Qed.

Lemma header_wf_in_range (h : VdiHeader) :
  header_wf h = true -> header_in_range h = true.
Proof.
  unfold header_wf. intros H.
  repeat match goal with
         | H : _ && _ = true |- _ => apply andb_prop in H; destruct H
         end.
  assumption.
Qed.

(** X1: any sector of 512 bytes, read as a header, converted with
    [vdi_header_to_cpu] and converted back with [vdi_header_to_le], is laid
    out in memory as the same 512 bytes, whatever the byte order of the
    host. *)
Theorem header_read_write_bytes (be : bool) (buf : list byte) :
  List.length buf = 512%nat ->
  header_mem be
    (vdi_header_to_le be (vdi_header_to_cpu be (header_of_mem be buf)))
  = buf.
Proof.
  intros Hlen.
  rewrite header_roundtrip_le by apply header_in_range_of_mem.
  rewrite header_mem_of_mem. now apply slice_all.
Qed.

Lemma header_read_write_bytes_witness :
  List.length (sector0 (host_of (fresh_file true 2))) = 512%nat /\
  header_mem true
    (vdi_header_to_le true
       (vdi_header_to_cpu true
          (header_of_mem true (sector0 (host_of (fresh_file true 2))))))
  = sector0 (host_of (fresh_file true 2)).
Proof.
  split; [reflexivity|]. apply header_read_write_bytes. reflexivity.
Defined.

(** X2: a header whose scalars fit their C types and whose arrays have
    the lengths of their C types, converted with [vdi_header_to_le], laid
    out in memory and converted with [vdi_header_to_cpu], is the header one
    started from. *)
Theorem header_write_read_object (be : bool) (h : VdiHeader)
    (rest : list byte) :
  header_wf h = true ->
  vdi_header_to_cpu be
    (header_of_mem be (header_mem be (vdi_header_to_le be h) ++ rest))
  = h.
Proof.
  intros H. rewrite header_of_mem_mem by now apply header_wf_to_le.
  apply header_roundtrip. now apply header_wf_in_range.
Qed.

Lemma header_write_read_object_witness :
  let h := create_header (2 * MiB) VDI_TYPE_DYNAMIC MiB 2 512 [] [] in
  header_wf h = true /\
  vdi_header_to_cpu true
    (header_of_mem true (header_mem true (vdi_header_to_le true h) ++ []))
  = h.
Proof.
  split; [vm_compute; reflexivity|].
  apply header_write_read_object. vm_compute; reflexivity.
Defined.

(** X3: the return value of [vdi_create] and the bytes it writes to the
    file do not depend on the byte order of the host. *)
Theorem vdi_create_host_independent (be fd_ok : bool) (u1 u2 : list byte)
    (options : list option_param) :
  vdi_create be fd_ok u1 u2 options = vdi_create false fd_ok u1 u2 options.
Proof.
  unfold vdi_create. destruct (read_options options 0 VDI_TYPE_DYNAMIC) as [bytes ty].
  destruct fd_ok; cbn [negb]; [|reflexivity].
  cbv zeta. f_equal. f_equal.
  - unfold header_mem, vdi_header_to_le, map_scalars, create_header.
    header_fields. rewrite !mem_bytes_cpu_to_le.
    unfold cpu_to_le, mem_bytes. cbn [firstn app repeat map List.concat].
    destruct be; reflexivity.
  - unfold create_blockmap. now rewrite !words_mem_unallocated.
Qed.

(** ** The state [vdi_open] builds *)

Lemma header_scalars_host (be : bool) (buf : list byte) :
  let h := vdi_header_to_cpu be (header_of_mem be buf) in
  let h' := decode_le buf in
  version h = version h' /\ offset_blockmap h = offset_blockmap h' /\
  offset_data h = offset_data h' /\ sector_size h = sector_size h' /\
  block_size h = block_size h' /\ disk_size h = disk_size h' /\
  blocks_in_image h = blocks_in_image h' /\
  blocks_allocated h = blocks_allocated h' /\
  signature h = signature h' /\ image_type h = image_type h'.
Proof.
  cbv zeta. unfold decode_le, vdi_header_to_cpu, header_of_mem, map_scalars.
  header_fields.
  rewrite !le_to_cpu_mem_load by apply length_slice.
  unfold mem_load. repeat split; reflexivity.
Qed.

Lemma open_checks_facts (h : VdiHeader) :
  open_checks h = true ->
  version h = VDI_VERSION_1_1 /\ offset_blockmap h mod SECTOR_SIZE = 0 /\
  offset_data h mod SECTOR_SIZE = 0 /\ sector_size h = SECTOR_SIZE /\
  block_size h = MiB /\ disk_size h = blocks_in_image h * block_size h.
Proof.
  unfold open_checks. intros H.
  repeat match goal with
         | H : _ && _ = true |- _ => apply andb_prop in H; destruct H
         end.
  repeat match goal with
         | H : (_ =? _) = true |- _ => apply Z.eqb_eq in H
         end.
  change (1 * MiB) with MiB in *. tauto.
Qed.

Lemma nth_error_map_seq {A : Type} (f : nat -> A) (n i : nat) :
  (i < n)%nat -> nth_error (map f (seq 0 n)) i = Some (f i).
Proof.
  intros H. rewrite nth_error_map, nth_error_seq.
  destruct (Nat.ltb_spec i n); [reflexivity | lia].
Qed.

Lemma vdi_open_result (be : bool) (open_ret : Z) (hd : Host)
    (heap : list byte) :
  0 <= open_ret -> faults hd = [] ->
  open_checks (decode_le (sector0 hd)) = true ->
  let h := vdi_header_to_cpu be (header_of_mem be (sector0 hd)) in
  let n := Z.to_nat (blocks_in_image h * 4 / SECTOR_SIZE * SECTOR_SIZE) in
  vdi_open be open_ret hd heap =
  (0,
   Some {| total_sectors := disk_size h / SECTOR_SIZE;
           opaque :=
             {| BDRV.blockmap :=
                  words_of_mem be
                    (disk_bytes (disk hd)
                       (offset_blockmap h / SECTOR_SIZE * SECTOR_SIZE) n
                     ++ skipn n (slice heap 0
                                   (Z.to_nat (blocks_in_image h * 4))))
                    (Z.to_nat (blocks_in_image h));
                BDRV.block_size := block_size h;
                BDRV.block_sectors := block_size h / SECTOR_SIZE;
                BDRV.header := h |} |},
   {| disk := disk hd; faults := [];
      trace := [IoRead (offset_blockmap h / SECTOR_SIZE)
                       (blocks_in_image h * 4 / SECTOR_SIZE);
                IoRead 0 1] ++ trace hd |}).
Proof.
  intros Hret Hfl H. cbv zeta. unfold vdi_open.
  destruct (Z.ltb_spec open_ret 0) as [Hneg|Hpos]; [lia|].
  assert (Hnf : next_fault hd = false) by (unfold next_fault; now rewrite Hfl).
  rewrite bdrv_read_sector0, Hnf.
  change (0 <? 0) with false. cbv iota.
  pose proof (open_checks_host be (sector0 hd)) as Hc. cbv zeta in Hc.
  rewrite H in Hc. cbn [negb] in Hc.
  set (h := vdi_header_to_cpu be (header_of_mem be (sector0 hd))) in *.
  repeat match goal with
         | H : _ || _ = false |- _ => apply orb_false_iff in H; destruct H
         end.
  repeat match goal with
         | H : negb ?b = false |- context [negb ?b] => rewrite H
         end.
  cbv iota. unfold bdrv_read, next_fault. cbn [faults]. rewrite Hfl.
  cbn [tl]. change (0 <? 0) with false. cbv iota.
  assert (Hb : 0 <= blocks_in_image h < 2 ^ 32).
  { unfold h, vdi_header_to_cpu, map_scalars, header_of_mem. header_fields.
    rewrite le_to_cpu_mem_load by apply length_slice.
    pose proof (le_combine_bound (slice (sector0 hd) 384 4)) as Hb.
    rewrite length_slice in Hb. exact Hb. }
  assert (Hsz : to_size_t (blocks_in_image h * 4) = blocks_in_image h * 4).
  { unfold to_size_t, UINT64_MOD. apply Z.mod_small. lia. }
  rewrite Hsz. cbn [disk app]. reflexivity.
Qed.

Lemma slice_disk_bytes (d : Z -> byte) (off : Z) (n o k : nat) :
  (o + k <= n)%nat ->
  slice (disk_bytes d off n) o k = disk_bytes d (off + Z.of_nat o) k.
Proof.
  intros H. apply nth_ext with (d := Byte.x00) (d' := Byte.x00).
  - now rewrite length_slice, length_disk_bytes.
  - intros i Hi. rewrite length_slice in Hi.
    rewrite nth_slice by lia. rewrite !nth_disk_bytes by lia. f_equal. lia.
Qed.

Lemma slice_skipn_slice (buf : list byte) (n m o k : nat) :
  (n <= o)%nat -> (o + k <= m)%nat ->
  slice (skipn n (slice buf 0 m)) (o - n) k = slice buf o k.
Proof.
  intros Hn Hm. apply slice_ext. intros i Hi.
  rewrite nth_skipn. replace (n + (o - n + i))%nat with (0 + (o + i))%nat by lia.
  rewrite nth_slice by lia. reflexivity.
Qed.

(** X4: when the file opens, no read fails and the header in the first
    sector passes the checks, [vdi_open] returns 0; the image has
    [disk_size / 512] sectors in blocks of 2048 sectors; the block map has
    [blocks_in_image] entries, of which those of the first
    [blocks_in_image / 128] sectors of the map come from the file and the
    remaining ones are what the allocated memory held; the file is
    unchanged and has been read twice, the header sector first. *)
Theorem vdi_open_reads_whole_map_sectors (be : bool) (open_ret : Z) (hd : Host)
    (heap : list byte) :
  0 <= open_ret -> faults hd = [] ->
  open_checks (decode_le (sector0 hd)) = true ->
  let h := decode_le (sector0 hd) in
  exists bs hd',
    vdi_open be open_ret hd heap = (0, Some bs, hd') /\
    total_sectors bs = disk_size h / SECTOR_SIZE /\
    BDRV.block_sectors (opaque bs) = 2048 /\
    BDRV.block_size (opaque bs) = MiB /\
    List.length (BDRV.blockmap (opaque bs)) = Z.to_nat (blocks_in_image h) /\
    blocks_allocated (BDRV.header (opaque bs)) = blocks_allocated h /\
    (forall i, 0 <= i < blocks_in_image h ->
       block_entry_at be bs (Z.to_nat i) =
       Some (if i <? 128 * (blocks_in_image h / 128)
             then le_combine
                    (disk_bytes (disk hd) (offset_blockmap h + 4 * i) 4)
             else le_combine (slice heap (Z.to_nat (4 * i)) 4))) /\
    disk hd' = disk hd /\
    trace hd' = [IoRead (offset_blockmap h / SECTOR_SIZE)
                        (blocks_in_image h / 128);
                 IoRead 0 1] ++ trace hd.
Proof.
  intros Hret Hfl H. cbv zeta.
  pose proof (vdi_open_result be open_ret hd heap Hret Hfl H) as Ho.
  cbv zeta in Ho.
  destruct (header_scalars_host be (sector0 hd))
    as (_ & Hob & _ & _ & Hbs & Hds & Hbi & Hba & _).
  destruct (open_checks_facts _ H) as (_ & Hobm & _ & _ & Hbsz & _).
  set (h := vdi_header_to_cpu be (header_of_mem be (sector0 hd))) in *.
  set (h' := decode_le (sector0 hd)) in *.
  rewrite Hob, Hbs, Hds, Hbi, Hbsz in Ho.
  assert (Hb : 0 <= blocks_in_image h' < 2 ^ 32).
  { unfold h', decode_le, header_of_mem. header_fields. unfold mem_load.
    pose proof (le_combine_bound (slice (sector0 hd) 384 4)) as Hb.
    rewrite length_slice in Hb. exact Hb. }
  assert (Hom : 0 <= offset_blockmap h').
  { unfold h', decode_le, header_of_mem. header_fields. unfold mem_load.
    apply le_combine_bound. }
  set (N := blocks_in_image h') in *.
  assert (Hq : N * 4 / SECTOR_SIZE = N / 128).
  { unfold SECTOR_SIZE. replace 512 with (4 * 128) by lia.
    rewrite <- Z.div_div by lia. now rewrite Z.div_mul by lia. }
  assert (Hmul : offset_blockmap h' / SECTOR_SIZE * SECTOR_SIZE
                 = offset_blockmap h').
  { pose proof (Z.div_mod (offset_blockmap h') SECTOR_SIZE) as Hd.
    unfold SECTOR_SIZE in *. lia. }
  rewrite Hq, Hmul in Ho.
  eexists. eexists. split; [exact Ho|].
  cbn [total_sectors opaque BDRV.block_sectors BDRV.block_size BDRV.blockmap
       BDRV.header disk trace].
  split; [reflexivity|]. split; [reflexivity|]. split; [reflexivity|].
  split; [unfold words_of_mem; now rewrite length_map, length_seq|].
  split; [exact Hba|].
  split; [|split; reflexivity].
  intros i Hi. unfold block_entry_at, words_of_mem.
  cbn [opaque BDRV.blockmap].
  rewrite nth_error_map_seq by lia. cbn [option_map].
  rewrite le_to_cpu_mem_load by apply length_slice. f_equal.
  assert (HN : 0 <= N / 128) by (apply Z.div_pos; lia).
  pose proof (Z.div_mod N 128) as Hdm.
  pose proof (Z.mod_pos_bound N 128) as Hmb.
  destruct (Z.ltb_spec i (128 * (N / 128))) as [Hlt|Hge].
  - rewrite slice_app_l
      by (rewrite length_disk_bytes; unfold SECTOR_SIZE; lia).
    rewrite slice_disk_bytes by (unfold SECTOR_SIZE; lia).
    do 2 f_equal. lia.
  - rewrite slice_skip by (rewrite length_disk_bytes; unfold SECTOR_SIZE; lia).
    rewrite length_disk_bytes.
    rewrite slice_skipn_slice by (unfold SECTOR_SIZE; lia).
    do 2 f_equal. lia.
Qed.

(** ** Files written by [vdi_create], opened *)

Lemma header_mem_to_le (be : bool) (h : VdiHeader) :
  unused1 h = 0 -> unused2 h = repeat 0 7 ->
  header_mem be (vdi_header_to_le be h) = header_mem false h.
Proof.
  intros H1 H2. unfold header_mem, vdi_header_to_le, map_scalars.
  header_fields. rewrite !mem_bytes_cpu_to_le, H1, H2.
  unfold mem_bytes. cbn [firstn app repeat map List.concat].
  destruct be; reflexivity.
Qed.

Lemma read_options_type (options : list option_param) (bytes ty : Z) :
  snd (read_options options bytes ty) = ty \/
  snd (read_options options bytes ty) = VDI_TYPE_STATIC.
Proof.
  revert bytes ty. induction options as [|[name v] options IH]; intros bytes ty.
  - now left.
  - cbn [read_options]. destruct (String.eqb name BLOCK_OPT_SIZE); [apply IH|].
    destruct (String.eqb name BLOCK_OPT_STATIC); [|apply IH].
    destruct (IH bytes VDI_TYPE_STATIC) as [H|H]; right; exact H.
Qed.

(** The bytes of the file [vdi_create] writes. *)
Lemma created_file (be : bool) (u1 u2 : list byte)
    (options : list option_param) :
  let bytes := option_size options in
  let ty := snd (read_options options 0 VDI_TYPE_DYNAMIC) in
  let blocks := (bytes / MiB) mod UINT32_MOD in
  let size := 512 * ((blocks * 4 + 511) / 512) in
  vdi_create be true u1 u2 options =
  (0, header_mem false (create_header bytes ty MiB blocks size u1 u2)
      ++ create_blockmap false blocks size).
Proof.
  cbv zeta. unfold vdi_create, option_size.
  destruct (read_options options 0 VDI_TYPE_DYNAMIC) as [bytes ty].
  cbn [negb fst snd]. cbv zeta. change (1 * MiB) with MiB.
  assert (Hb : 0 <= (bytes / MiB) mod UINT32_MOD < 2 ^ 32)
    by (apply Z.mod_pos_bound; reflexivity).
  rewrite round_up_sector by lia.
  rewrite header_mem_to_le by reflexivity.
  f_equal. f_equal. unfold create_blockmap.
  now rewrite !words_mem_unallocated.
Qed.

Lemma header_wf_create (bytes ty blocks size : Z) (u1 u2 : list byte) :
  0 <= bytes < 2 ^ 64 -> 0 <= ty < 2 ^ 32 -> 0 <= blocks < 2 ^ 32 ->
  header_wf (create_header bytes ty MiB blocks size u1 u2) = true.
Proof.
  intros Hb Ht Hn. unfold header_wf, header_in_range, create_header.
  header_fields.
  pose proof (Z.mod_pos_bound (512 + size) UINT32_MOD eq_refl) as Ho.
  unfold u32, u64, UINT32_MOD, UINT64_MOD in *.
  unfold fixlen. rewrite !length_slice, !repeat_length.
  repeat match goal with
         | |- _ && _ = true => apply andb_true_intro; split
         end;
    try reflexivity;
    first [ apply Z.leb_le; lia | apply Z.ltb_lt; lia ].
Qed.

Lemma disk_bytes_faulty_host (img : list byte) (fl : list bool) (off : Z)
    (n : nat) :
  0 <= off ->
  disk_bytes (disk (faulty_host img fl)) off n = slice img (Z.to_nat off) n.
Proof.
  intros H. apply nth_ext with (d := Byte.x00) (d' := Byte.x00).
  - now rewrite length_disk_bytes, length_slice.
  - intros i Hi. rewrite length_disk_bytes in Hi.
    rewrite nth_disk_bytes, nth_slice by lia. cbn [faulty_host disk].
    f_equal. lia.
Qed.

Lemma sector0_faulty_host (a b : list byte) (fl : list bool) :
  List.length a = 512%nat -> sector0 (faulty_host (a ++ b) fl) = a.
Proof.
  intros H. unfold sector0. rewrite disk_bytes_faulty_host by lia.
  now apply slice_head.
Qed.

(** The header sector of a created file decodes to the header
    [vdi_create] filled in. *)
Lemma created_file_header (be : bool) (u1 u2 : list byte)
    (options : list option_param) (fl : list bool) :
  let bytes := option_size options in
  let ty := snd (read_options options 0 VDI_TYPE_DYNAMIC) in
  let blocks := (bytes / MiB) mod UINT32_MOD in
  let size := 512 * ((blocks * 4 + 511) / 512) in
  0 <= bytes < 2 ^ 64 ->
  decode_le (sector0 (faulty_host (snd (vdi_create be true u1 u2 options)) fl))
  = create_header bytes ty MiB blocks size u1 u2.
Proof.
  cbv zeta. intros Hb. rewrite created_file. cbn [snd].
  rewrite sector0_faulty_host by apply length_header_mem.
  unfold decode_le.
  rewrite <- (app_nil_r (header_mem false _)).
  apply header_of_mem_mem. apply header_wf_create.
  - exact Hb.
  - destruct (read_options_type options 0 VDI_TYPE_DYNAMIC) as [-> | ->];
      cbv; split; congruence.
  - apply Z.mod_pos_bound. reflexivity.
Qed.

(** X5: for a size below [2^64] bytes [vdi_create] returns 0, and
    [vdi_open] of the file it wrote returns 0 exactly when the size is a
    multiple of 1 MiB of fewer than [2^32] blocks; when [vdi_open] does not
    return 0 it leaves no state. *)
Theorem vdi_open_created_iff (be : bool) (u1 u2 : list byte)
    (options : list option_param) (heap : list byte) :
  let bytes := option_size options in
  let file := snd (vdi_create be true u1 u2 options) in
  0 <= bytes < 2 ^ 64 ->
  fst (vdi_create be true u1 u2 options) = 0 /\
  (fst (fst (vdi_open be 0 (host_of file) heap)) = 0 <->
   bytes mod MiB = 0 /\ bytes / MiB < 2 ^ 32) /\
  (fst (fst (vdi_open be 0 (host_of file) heap)) <> 0 ->
   snd (fst (vdi_open be 0 (host_of file) heap)) = None).
Proof.
  cbv zeta. intros Hb.
  split; [now rewrite created_file|].
  pose proof (created_file_header be u1 u2 options [] Hb) as Hh.
  cbv zeta in Hh. fold (host_of (snd (vdi_create be true u1 u2 options))) in Hh.
  set (hd := host_of (snd (vdi_create be true u1 u2 options))) in *.
  set (bytes := option_size options) in *.
  set (blocks := (bytes / MiB) mod UINT32_MOD) in *.
  assert (Hblk : 0 <= blocks < 2 ^ 32)
    by (apply Z.mod_pos_bound; reflexivity).
  assert (Hq : 0 <= bytes / MiB) by (apply Z.div_pos; [lia | reflexivity]).
  assert (Hc : open_checks (decode_le (sector0 hd)) = true <->
               bytes mod MiB = 0 /\ bytes / MiB < 2 ^ 32).
  { rewrite Hh. unfold open_checks, create_header. header_fields.
    change (VDI_VERSION_1_1 =? VDI_VERSION_1_1) with true.
    change (512 mod SECTOR_SIZE =? 0) with true.
    change (SECTOR_SIZE =? SECTOR_SIZE) with true.
    change (MiB mod UINT32_MOD =? 1 * MiB) with true.
    change (MiB mod UINT32_MOD) with MiB.
    assert (Ho : ((512 + 512 * ((blocks * 4 + 511) / 512)) mod UINT32_MOD)
                   mod SECTOR_SIZE = 0).
    { unfold UINT32_MOD, SECTOR_SIZE.
      rewrite Z.mod_mod_divide by (exists (2 ^ 23); reflexivity).
      replace (512 + 512 * ((blocks * 4 + 511) / 512))
        with ((1 + (blocks * 4 + 511) / 512) * 512) by lia.
      apply Z.mod_mul. lia. }
    rewrite Ho. cbn [andb Z.eqb].
    pose proof (Z.div_mod bytes MiB ltac:(discriminate)) as Hdm.
    pose proof (Z.mod_pos_bound bytes MiB eq_refl) as Hmb.
    pose proof (Z.div_mod (bytes / MiB) UINT32_MOD ltac:(discriminate)) as Hdm2.
    fold blocks in Hdm2.
    assert (H0 : 0 <= bytes / MiB / UINT32_MOD)
      by (apply Z.div_pos; [lia | reflexivity]).
    unfold UINT32_MOD, MiB, KiB in *.
    rewrite Z.eqb_eq. split.
    - intros He. split; nia.
    - intros [H1 H2]. nia. }
  split.
  - split.
    + intros Hr. apply Hc.
      destruct (open_checks (decode_le (sector0 hd))) eqn:E; [reflexivity|].
      destruct (vdi_open_fails_early be 0 hd heap (or_intror (or_intror E)))
        as [Hneg _]. lia.
    + intros Hs. apply Hc in Hs.
      now destruct (vdi_open_succeeds be 0 hd heap (Z.le_refl 0) eq_refl Hs).
  - intros Hr.
    destruct (open_checks (decode_le (sector0 hd))) eqn:E.
    + now destruct (vdi_open_succeeds be 0 hd heap (Z.le_refl 0) eq_refl E).
    + now destruct (vdi_open_fails_early be 0 hd heap (or_intror (or_intror E))).
Qed.

Lemma map_seq_const {A : Type} (f : nat -> A) (v : A) (n : nat) :
  (forall i, (i < n)%nat -> f i = v) -> map f (seq 0 n) = repeat v n.
Proof.
  intros H. apply nth_ext with (d := v) (d' := v).
  - now rewrite length_map, length_seq, repeat_length.
  - intros i Hi. rewrite length_map, length_seq in Hi.
    rewrite nth_repeat.
    rewrite (nth_indep _ v (f 0%nat)) by (now rewrite length_map, length_seq).
    rewrite map_nth, seq_nth by exact Hi. now apply H.
Qed.

Lemma count_allocated_unallocated (be : bool) (n : nat) :
  count_allocated be (repeat VDI_UNALLOCATED n) = 0 /\
  physical_indices be (repeat VDI_UNALLOCATED n) = [].
Proof.
  unfold count_allocated, physical_indices.
  assert (H : filter (is_allocated be) (repeat VDI_UNALLOCATED n) = []).
  { induction n as [|n IH]; [reflexivity|]. cbn [repeat filter].
    replace (is_allocated be VDI_UNALLOCATED) with false
      by (destruct be; reflexivity).
    exact IH. }
  now rewrite H.
Qed.

Lemma fresh_state_data_ok (be : bool) (m : Z) :
  0 <= m < 2 ^ 23 - 1 -> data_ok be (fresh_state (128 * m)) = true.
Proof.
  intros Hm. unfold data_ok, image_ok, geometry_ok, layout_ok, fresh_state.
  cbn [opaque total_sectors BDRV.blockmap BDRV.block_size BDRV.block_sectors
       BDRV.header].
  destruct (count_allocated_unallocated be (Z.to_nat (128 * m))) as [-> ->].
  rewrite repeat_length, Z2Nat.id by lia.
  rewrite header_wf_in_range
    by (apply header_wf_create; unfold MiB, KiB; cbv [VDI_TYPE_DYNAMIC]; lia).
  unfold create_header. header_fields.
  replace ((128 * m * 4 + 511) / 512) with m
    by (apply Z.div_unique with (r := 511); lia).
  replace ((128 * m + 127) / 128) with m
    by (apply Z.div_unique with (r := 127); lia).
  unfold UINT32_MOD, SECTOR_SIZE, MiB, KiB.
  rewrite (Z.mod_small (512 + 512 * m)) by lia.
  replace ((512 + 512 * m) / 512) with (1 + m)
    by (apply Z.div_unique with (r := 0); lia).
  cbn [distinct forallb andb].
  repeat match goal with
         | |- _ && _ = true => apply andb_true_intro; split
         end.
  all: change (512 / 512) with 1;
    first [ reflexivity | apply Z.leb_le; lia | apply Z.ltb_lt; lia
          | apply Z.eqb_eq; lia ].
Qed.

(** X6: [vdi_open] of the file that [vdi_create] writes for an image of
    [128 * m] MiB returns 0 with the state of a fresh image, whatever the
    allocated memory held, and that state satisfies [data_ok]. *)
Theorem vdi_open_created_fresh (be : bool) (heap : list byte) (m : Z) :
  0 <= m < 2 ^ 23 - 1 ->
  fst (vdi_open be 0 (host_of (fresh_file be (128 * m))) heap)
  = (0, Some (fresh_state (128 * m))) /\
  data_ok be (fresh_state (128 * m)) = true.
Proof.
  intros Hm. split; [|now apply fresh_state_data_ok].
  unfold fresh_file.
  set (options := [(BLOCK_OPT_SIZE, 128 * m * MiB)]).
  assert (Hsz : option_size options = 128 * m * MiB) by reflexivity.
  assert (Hty : snd (read_options options 0 VDI_TYPE_DYNAMIC)
                = VDI_TYPE_DYNAMIC) by reflexivity.
  assert (Hblk : (128 * m * MiB / MiB) mod UINT32_MOD = 128 * m).
  { rewrite Z.div_mul by discriminate. apply Z.mod_small.
    unfold UINT32_MOD. lia. }
  assert (Hbytes : 0 <= 128 * m * MiB < 2 ^ 64) by (unfold MiB, KiB; lia).
  pose proof (created_file be [] [] options) as Hf.
  pose proof (created_file_header be [] [] options []) as Hh.
  cbv zeta in Hf, Hh. rewrite Hsz, Hty, Hblk in Hf, Hh.
  specialize (Hh Hbytes).
  fold (host_of (snd (vdi_create be true [] [] options))) in Hh.
  set (size := 512 * ((128 * m * 4 + 511) / 512)) in *.
  assert (Hsize : size = 512 * m).
  { unfold size. f_equal. symmetry.
    apply Z.div_unique with (r := 511); lia. }
  set (h := create_header (128 * m * MiB) VDI_TYPE_DYNAMIC MiB (128 * m) size
                          [] []) in *.
  set (hd := host_of (snd (vdi_create be true [] [] options))) in *.
  assert (Hc : open_checks (decode_le (sector0 hd)) = true).
  { rewrite Hh. unfold open_checks, h, create_header. header_fields.
    rewrite Hsize. unfold UINT32_MOD, SECTOR_SIZE, MiB, KiB.
    rewrite (Z.mod_small (512 + 512 * m)) by lia.
    replace (512 + 512 * m) with ((1 + m) * 512) by lia.
    rewrite Z.mod_mul by lia.
    cbn. apply Z.eqb_eq. lia. }
  rewrite (vdi_open_result be 0 hd heap (Z.le_refl 0) eq_refl Hc).
  cbn [fst]. f_equal. f_equal.
  assert (Hwf : header_wf h = true).
  { apply header_wf_create; cbv [VDI_TYPE_DYNAMIC]; lia. }
  assert (Hcpu : vdi_header_to_cpu be (header_of_mem be (sector0 hd)) = h).
  { unfold hd. rewrite Hf. cbn [snd]. unfold host_of.
    rewrite sector0_faulty_host by apply length_header_mem.
    rewrite <- (header_mem_to_le be h) by reflexivity.
    rewrite <- (app_nil_r (header_mem be _)).
    rewrite header_of_mem_mem by now apply header_wf_to_le.
    apply header_roundtrip. now apply header_wf_in_range. }
  rewrite Hcpu. unfold fresh_state. fold size. fold h.
  assert (Hbi : blocks_in_image h = 128 * m) by reflexivity.
  assert (Hbs : block_size h = MiB) by reflexivity.
  assert (Hds : disk_size h = 128 * m * MiB) by reflexivity.
  assert (Hob : offset_blockmap h = 512) by reflexivity.
  rewrite Hbi, Hbs, Hds, Hob.
  replace (128 * m * MiB / SECTOR_SIZE) with (128 * m * 2048)
    by (apply Z.div_unique with (r := 0);
        unfold SECTOR_SIZE, MiB, KiB; lia).
  change (MiB / SECTOR_SIZE) with 2048.
  change (512 / SECTOR_SIZE * SECTOR_SIZE) with 512.
  replace (128 * m * 4 / SECTOR_SIZE * SECTOR_SIZE) with (128 * m * 4)
    by (unfold SECTOR_SIZE; replace (128 * m * 4) with (m * 512) by lia;
        now rewrite Z.div_mul by lia).
  f_equal. f_equal.
  unfold words_of_mem. apply map_seq_const. intros i Hi.
  rewrite slice_app_l by (rewrite length_disk_bytes; lia).
  rewrite slice_disk_bytes by lia.
  unfold hd, host_of. rewrite disk_bytes_faulty_host by lia.
  rewrite Hf. cbn [snd].
  rewrite slice_skip by (rewrite length_header_mem; lia).
  rewrite length_header_mem.
  replace (Z.to_nat (512 + Z.of_nat (4 * i)) - 512)%nat
    with (Z.to_nat (4 * Z.of_nat i)) by lia.
  rewrite create_blockmap_entry by lia.
  destruct be; reflexivity.
Qed.

Lemma vdi_open_created_fresh_witness :
  0 <= 1 < 2 ^ 23 - 1 /\
  fst (vdi_open true 0 (host_of (fresh_file true (128 * 1))) [])
  = (0, Some (fresh_state (128 * 1))) /\
  data_ok true (fresh_state (128 * 1)) = true.
Proof.
  split; [lia|]. apply (vdi_open_created_fresh true [] 1). lia.
Defined.

Lemma vdi_open_created_iff_witness :
  let options := [(BLOCK_OPT_SIZE, 1536 * KiB)] in
  0 <= option_size options < 2 ^ 64 /\
  fst (vdi_create false true [] [] options) = 0 /\
  fst (fst (vdi_open false 0
              (host_of (snd (vdi_create false true [] [] options))) [])) <> 0.
Proof.
  intros options.
  assert (Hb : 0 <= option_size options < 2 ^ 64)
    by (vm_compute; split; congruence).
  split; [exact Hb|].
  destruct (vdi_open_created_iff false [] [] options [] Hb) as (Hc & Hiff & _).
  split; [exact Hc|].
  intros Hr. apply Hiff in Hr. destruct Hr as [Hmod _].
  vm_compute in Hmod. discriminate Hmod.
Defined.

Lemma vdi_open_reads_whole_map_sectors_witness :
  let hd := host_of (fresh_file false 2) in
  let heap := repeat Byte.x00 8 in
  0 <= 0 /\ faults hd = [] /\
  open_checks (decode_le (sector0 hd)) = true /\
  exists bs hd',
    vdi_open false 0 hd heap = (0, Some bs, hd') /\
    block_entry_at false bs 1 = Some 0 /\
    file_map_entry (fresh_file false 2) 1 = VDI_UNALLOCATED.
Proof.
  intros hd heap.
  assert (Hc : open_checks (decode_le (sector0 hd)) = true)
    by (vm_compute; reflexivity).
  split; [lia|]. split; [reflexivity|]. split; [exact Hc|].
  destruct (vdi_open_reads_whole_map_sectors false 0 hd heap (Z.le_refl 0)
              eq_refl Hc) as (bs & hd' & Ho & _ & _ & _ & _ & _ & He & _).
  exists bs, hd'. split; [exact Ho|].
  split; [|vm_compute; reflexivity].
  change 1%nat with (Z.to_nat 1). rewrite He by (vm_compute; split; congruence).
  vm_compute. reflexivity.
Defined.

(** ** What [vdi_write] changes in the block map *)

Lemma vdi_write_block_entries (be : bool) (bs : BlockDriverState) (hd : Host)
    (sector_num : Z) (buf : list byte) (nb_sectors r n : Z)
    (bs' : BlockDriverState) (hd' : Host) :
  image_ok be bs = true -> 0 <= sector_num < total_sectors bs ->
  vdi_write_block be bs hd sector_num buf nb_sectors = Some (r, n, bs', hd') ->
  let idx := Z.to_nat (sector_num / BDRV.block_sectors (opaque bs)) in
  n = chunk_sectors bs sector_num nb_sectors /\
  (r = 0 \/ r = -1) /\
  image_ok be bs' = true /\
  total_sectors bs' = total_sectors bs /\
  BDRV.block_sectors (opaque bs') = BDRV.block_sectors (opaque bs) /\
  List.length (BDRV.blockmap (opaque bs'))
  = List.length (BDRV.blockmap (opaque bs)) /\
  (forall i e, block_entry_at be bs i = Some e -> e <> VDI_UNALLOCATED ->
               block_entry_at be bs' i = Some e) /\
  (forall i, i <> idx -> block_entry_at be bs' i = block_entry_at be bs i) /\
  (exists e, block_entry_at be bs' idx = Some e /\ e <> VDI_UNALLOCATED).
Proof.
  intros Hok Hsn Hrun. cbv zeta.
  destruct (image_ok_facts be bs Hok) as (Hg & Hr & _ & _).
  destruct (block_index_in_range bs sector_num Hg Hsn) as [w Hw].
  destruct (vdi_write_block_state be bs hd sector_num buf nb_sectors w Hg Hr Hw)
    as (r0 & hd0 & Hrun0 & Hret).
  rewrite Hrun in Hrun0. injection Hrun0 as -> -> -> ->.
  split; [reflexivity|]. split; [exact Hret|].
  set (idx := Z.to_nat (sector_num / BDRV.block_sectors (opaque bs))) in *.
  assert (He : block_entry_at be bs idx = Some (le_to_cpu be 4 w)).
  { unfold block_entry_at. now rewrite Hw. }
  destruct (Z.eqb_spec (le_to_cpu be 4 w) VDI_UNALLOCATED) as [Hun|Hal].
  - destruct (allocate_image_ok be bs idx w Hok Hw Hun)
      as (Hok' & Htot & _ & Hent & Hne).
    split; [exact Hok'|]. split; [exact Htot|]. split; [reflexivity|].
    split.
    { unfold allocate.
      cbn [opaque set_opaque BDRV.blockmap set_header set_blockmap].
      apply length_array_set. }
    split.
    { intros i e Hi Hne'. destruct (Nat.eq_dec idx i) as [<-|Hd].
      - rewrite He in Hi. congruence.
      - now rewrite block_entry_at_allocate_other. }
    split.
    { intros i Hi. apply block_entry_at_allocate_other. congruence. }
    eexists. split; [exact Hent | exact Hne].
  - split; [exact Hok|]. repeat split; auto.
    eexists. split; [exact He | exact Hal].
Qed.

Lemma vdi_write_loop_entries (be : bool) (fuel : nat) :
  forall (bs : BlockDriverState) (hd : Host) (sector_num : Z)
         (buf : list byte) (nb_sectors r : Z) (bs' : BlockDriverState)
         (hd' : Host),
    image_ok be bs = true -> 0 <= sector_num ->
    vdi_write_loop be fuel bs hd sector_num buf nb_sectors
    = Some (r, bs', hd') ->
    let B := BDRV.block_sectors (opaque bs) in
    image_ok be bs' = true /\
    total_sectors bs' = total_sectors bs /\
    BDRV.block_sectors (opaque bs') = B /\
    List.length (BDRV.blockmap (opaque bs'))
    = List.length (BDRV.blockmap (opaque bs)) /\
    (forall i e, block_entry_at be bs i = Some e -> e <> VDI_UNALLOCATED ->
                 block_entry_at be bs' i = Some e) /\
    (forall i,
       (forall t, sector_num <= t < sector_num + nb_sectors ->
                  Z.to_nat (t / B) <> i) ->
       block_entry_at be bs' i = block_entry_at be bs i) /\
    (r = 0 ->
     forall t, sector_num <= t < sector_num + nb_sectors ->
               t < total_sectors bs ->
       exists e, block_entry be bs' t = Some e /\ e <> VDI_UNALLOCATED).
Proof.
  induction fuel as [|fuel IH];
    intros bs hd sector_num buf nb_sectors r bs' hd' Hok Hsn Hrun; cbv zeta.
  - cbn [vdi_write_loop] in Hrun.
    destruct (Z.gtb_spec nb_sectors 0) as [Hnb|Hnb]; cbn [andb] in Hrun.
    + destruct (Z.ltb_spec sector_num (total_sectors bs)); [discriminate|].
      injection Hrun as <- <- <-. repeat split; auto. intros; lia.
    + injection Hrun as <- <- <-. repeat split; auto. intros; lia.
  - cbn [vdi_write_loop] in Hrun.
    destruct (Z.gtb_spec nb_sectors 0) as [Hnb|Hnb]; cbn [andb] in Hrun.
    2:{ injection Hrun as <- <- <-. repeat split; auto. intros; lia. }
    destruct (Z.ltb_spec sector_num (total_sectors bs)) as [Hlt|Hge].
    2:{ injection Hrun as <- <- <-. repeat split; auto. intros; lia. }
    destruct (vdi_write_block be bs hd sector_num buf nb_sectors)
      as [[[[r1 n] bs1] hd1]|] eqn:Hblk; [|discriminate].
    destruct (vdi_write_block_entries be bs hd sector_num buf nb_sectors
                r1 n bs1 hd1 Hok ltac:(lia) Hblk)
      as (Hn & Hret & Hok1 & Htot1 & HB1 & Hlen1 & Hkeep1 & Hoth1 & Hnew1).
    destruct (image_ok_facts be bs Hok) as (Hg & _).
    destruct (geometry_ok_facts bs Hg) as (HB & _).
    pose proof (chunk_bounds (BDRV.block_sectors (opaque bs)) sector_num
                  nb_sectors ltac:(lia) Hsn ltac:(lia)) as Hc.
    cbv zeta in Hc. fold (chunk_sectors bs sector_num nb_sectors) in Hc.
    rewrite <- Hn in Hc. destruct Hc as (Hn1 & Hn2 & Hsib).
    set (B := BDRV.block_sectors (opaque bs)) in *.
    destruct Hret as [-> | ->].
    + change (0 <? 0) with false in Hrun. cbv iota in Hrun.
      destruct (IH bs1 hd1 (sector_num + n)
                  (skipn (Z.to_nat (n * SECTOR_SIZE)) buf) (nb_sectors - n)
                  r bs' hd' Hok1 ltac:(lia) Hrun)
        as (Hok' & Htot' & HB' & Hlen' & Hkeep' & Hoth' & Hnew').
      rewrite HB1 in *. fold B in Hoth', HB'.
      split; [exact Hok'|]. split; [congruence|]. split; [exact HB'|].
      split; [congruence|].
      split; [intros i e Hi He; apply Hkeep'; auto|].
      split.
      * intros i Hi. rewrite Hoth'.
        -- apply Hoth1. intros ->. apply (Hi sector_num); [lia|reflexivity].
        -- intros t Ht. apply Hi. lia.
      * intros Hr t Ht Htt.
        destruct (Z.lt_ge_cases t (sector_num + n)) as [Hin|Hout].
        -- destruct Hnew1 as (e & He & Hne). exists e. split; [|exact Hne].
           unfold block_entry. rewrite HB'.
           destruct (same_block B sector_num t ltac:(lia) Hsn ltac:(lia))
             as [Hq _].
           rewrite Hq. apply Hkeep'; assumption.
        -- apply Hnew'; [exact Hr | lia | lia].
    + change (-1 <? 0) with true in Hrun. cbv iota in Hrun.
      injection Hrun as <- <- <-.
      split; [exact Hok1|]. split; [exact Htot1|]. split; [exact HB1|].
      split; [exact Hlen1|]. split; [exact Hkeep1|].
      split; [|intros; lia].
      intros i Hi. apply Hoth1. intros ->. apply (Hi sector_num); [lia|].
      reflexivity.
Qed.

(** ** Requests that run past the end of the disk *)

Lemma last_block_fits (B total sn : Z) :
  0 < B -> total mod B = 0 -> 0 <= sn < total -> B - sn mod B <= total - sn.
Proof.
  intros HB Hmod Hsn.
  pose proof (Z.div_mod sn B ltac:(lia)) as Hd.
  pose proof (Z.mod_pos_bound sn B HB) as Hm.
  pose proof (Z.div_mod total B ltac:(lia)) as Hdt.
  rewrite Hmod in Hdt.
  assert (sn / B < total / B) by nia.
  nia.
Qed.

Lemma vdi_write_block_chunk (be : bool) (bs : BlockDriverState) (hd : Host)
    (sector_num : Z) (buf : list byte) (nb nb' : Z) :
  chunk_sectors bs sector_num nb = chunk_sectors bs sector_num nb' ->
  vdi_write_block be bs hd sector_num buf nb
  = vdi_write_block be bs hd sector_num buf nb'.
Proof.
  unfold chunk_sectors. cbv zeta. intros H. unfold vdi_write_block. cbv zeta.
  rewrite H. reflexivity.
Qed.

Lemma vdi_write_loop_truncate (be : bool) (fuel' : nat) :
  forall (fuel : nat) (bs : BlockDriverState) (hd : Host) (sector_num : Z)
         (buf : list byte) (nb_sectors : Z),
    image_ok be bs = true ->
    total_sectors bs mod BDRV.block_sectors (opaque bs) = 0 ->
    0 <= sector_num -> total_sectors bs <= sector_num + nb_sectors ->
    (Z.to_nat (total_sectors bs - sector_num) <= fuel')%nat ->
    (Z.to_nat (total_sectors bs - sector_num) <= fuel)%nat ->
    vdi_write_loop be fuel bs hd sector_num buf nb_sectors
    = vdi_write_loop be fuel' bs hd sector_num buf
        (Z.max 0 (total_sectors bs - sector_num)).
Proof.
  induction fuel' as [|fuel' IH];
    intros fuel bs hd sector_num buf nb_sectors Hok Hmod Hsn Hend Hf' Hf.
  - assert (Hge : total_sectors bs <= sector_num) by lia.
    rewrite Z.max_l by lia.
    destruct fuel; cbn [vdi_write_loop];
      destruct (Z.ltb_spec sector_num (total_sectors bs)); try lia;
      now rewrite andb_false_r.
  - destruct (Z.lt_ge_cases sector_num (total_sectors bs)) as [Hlt|Hge].
    2:{ rewrite Z.max_l by lia.
        destruct fuel; cbn [vdi_write_loop];
          destruct (Z.ltb_spec sector_num (total_sectors bs)); try lia;
          now rewrite andb_false_r. }
    rewrite Z.max_r by lia.
    destruct fuel as [|fuel]; [lia|]. cbn [vdi_write_loop].
    destruct (Z.ltb_spec sector_num (total_sectors bs)); [|lia].
    destruct (Z.gtb_spec nb_sectors 0); [|lia].
    destruct (Z.gtb_spec (total_sectors bs - sector_num) 0); [|lia].
    cbn [andb].
    destruct (image_ok_facts be bs Hok) as (Hg & _).
    destruct (geometry_ok_facts bs Hg) as (HB & _).
    pose proof (last_block_fits (BDRV.block_sectors (opaque bs))
                  (total_sectors bs) sector_num ltac:(lia) Hmod ltac:(lia))
      as Hfit.
    assert (Hch : chunk_sectors bs sector_num nb_sectors
                  = chunk_sectors bs sector_num
                      (total_sectors bs - sector_num)).
    { unfold chunk_sectors. cbv zeta.
      destruct (Z.gtb_spec (BDRV.block_sectors (opaque bs)
                            - sector_num mod BDRV.block_sectors (opaque bs))
                           nb_sectors); [lia|].
      destruct (Z.gtb_spec (BDRV.block_sectors (opaque bs)
                            - sector_num mod BDRV.block_sectors (opaque bs))
                           (total_sectors bs - sector_num)); [lia|].
      reflexivity. }
    rewrite (vdi_write_block_chunk be bs hd sector_num buf nb_sectors
               (total_sectors bs - sector_num) Hch).
    destruct (vdi_write_block be bs hd sector_num buf
                (total_sectors bs - sector_num))
      as [[[[r1 n] bs1] hd1]|] eqn:Hblk; [|reflexivity].
    destruct (vdi_write_block_entries be bs hd sector_num buf _ r1 n bs1 hd1
                Hok ltac:(lia) Hblk)
      as (Hn & Hret & Hok1 & Htot1 & HB1 & _).
    destruct (r1 <? 0); [reflexivity|].
    pose proof (chunk_bounds (BDRV.block_sectors (opaque bs)) sector_num
                  (total_sectors bs - sector_num) ltac:(lia) Hsn ltac:(lia))
      as Hc.
    cbv zeta in Hc.
    fold (chunk_sectors bs sector_num (total_sectors bs - sector_num)) in Hc.
    rewrite <- Hn in Hc. destruct Hc as (Hn1 & Hn2 & _).
    rewrite (IH fuel bs1 hd1 (sector_num + n)
               (skipn (Z.to_nat (n * SECTOR_SIZE)) buf) (nb_sectors - n)
               Hok1 ltac:(congruence) ltac:(lia) ltac:(lia) ltac:(lia)
               ltac:(lia)).
    rewrite Htot1. rewrite Z.max_r by lia. f_equal. lia.
Qed.

(** X7: on an image of whole blocks, [vdi_write] of a request that
    reaches the end of the image or goes beyond it is [vdi_write] of the
    sectors up to the end; if the request starts at or after the end, the
    result is 0 and neither the state nor the file changes. *)
Theorem vdi_write_past_end (be : bool) (bs : BlockDriverState) (hd : Host)
    (sector_num : Z) (buf : list byte) (nb_sectors : Z) :
  image_ok be bs = true ->
  total_sectors bs mod BDRV.block_sectors (opaque bs) = 0 ->
  0 <= sector_num -> total_sectors bs <= sector_num + nb_sectors ->
  vdi_write be bs hd sector_num buf nb_sectors
  = vdi_write be bs hd sector_num buf
      (Z.max 0 (total_sectors bs - sector_num)) /\
  (total_sectors bs <= sector_num ->
   vdi_write be bs hd sector_num buf nb_sectors = Some (0, bs, hd)).
Proof.
  intros Hok Hmod Hsn Hend.
  assert (Heq : vdi_write be bs hd sector_num buf nb_sectors
                = vdi_write be bs hd sector_num buf
                    (Z.max 0 (total_sectors bs - sector_num))).
  { unfold vdi_write. destruct (Z.ltb_spec sector_num 0); [reflexivity|].
    apply vdi_write_loop_truncate; auto; lia. }
  split; [exact Heq|].
  intros Hge. rewrite Heq. rewrite Z.max_l by lia.
  unfold vdi_write. destruct (Z.ltb_spec sector_num 0); [lia|]. reflexivity.
Qed.

Lemma vdi_read_loop_truncate (be : bool) (bs : BlockDriverState)
    (fuel' : nat) :
  geometry_ok bs = true ->
  total_sectors bs mod BDRV.block_sectors (opaque bs) = 0 ->
  forall (fuel : nat) (hd : Host) (sector_num : Z) (buf : list byte)
         (nb_sectors : Z),
    0 <= sector_num -> total_sectors bs <= sector_num + nb_sectors ->
    (Z.to_nat (total_sectors bs - sector_num) <= fuel')%nat ->
    (Z.to_nat (total_sectors bs - sector_num) <= fuel)%nat ->
    vdi_read_loop be fuel bs hd sector_num buf nb_sectors
    = vdi_read_loop be fuel' bs hd sector_num buf
        (Z.max 0 (total_sectors bs - sector_num)).
Proof.
  intros Hg Hmod. destruct (geometry_ok_facts bs Hg) as (HB & _).
  induction fuel' as [|fuel' IH];
    intros fuel hd sector_num buf nb_sectors Hsn Hend Hf' Hf.
  - assert (Hge : total_sectors bs <= sector_num) by lia.
    rewrite Z.max_l by lia.
    destruct fuel; cbn [vdi_read_loop];
      destruct (Z.ltb_spec sector_num (total_sectors bs)); try lia;
      now rewrite andb_false_r.
  - destruct (Z.lt_ge_cases sector_num (total_sectors bs)) as [Hlt|Hge].
    2:{ rewrite Z.max_l by lia.
        destruct fuel; cbn [vdi_read_loop];
          destruct (Z.ltb_spec sector_num (total_sectors bs)); try lia;
          now rewrite andb_false_r. }
    rewrite Z.max_r by lia.
    destruct fuel as [|fuel]; [lia|]. cbn [vdi_read_loop].
    destruct (Z.ltb_spec sector_num (total_sectors bs)); [|lia].
    destruct (Z.gtb_spec nb_sectors 0); [|lia].
    destruct (Z.gtb_spec (total_sectors bs - sector_num) 0); [|lia].
    cbn [andb].
    pose proof (last_block_fits (BDRV.block_sectors (opaque bs))
                  (total_sectors bs) sector_num ltac:(lia) Hmod ltac:(lia))
      as Hfit.
    pose proof (Z.mod_pos_bound sector_num (BDRV.block_sectors (opaque bs))
                  ltac:(lia)) as Hsib.
    destruct (Z.gtb_spec (BDRV.block_sectors (opaque bs)
                          - sector_num mod BDRV.block_sectors (opaque bs))
                         nb_sectors); [lia|].
    destruct (Z.gtb_spec (BDRV.block_sectors (opaque bs)
                          - sector_num mod BDRV.block_sectors (opaque bs))
                         (total_sectors bs - sector_num)); [lia|].
    destruct (BDRV.block_sectors (opaque bs) =? 0); [reflexivity|].
    destruct (nth_error _ _) as [w|]; [|reflexivity].
    set (n := BDRV.block_sectors (opaque bs)
              - sector_num mod BDRV.block_sectors (opaque bs)) in *.
    assert (Hrec : forall hd1 buf1,
              vdi_read_loop be fuel bs hd1 (sector_num + n)
                (skipn (Z.to_nat (n * SECTOR_SIZE)) buf1) (nb_sectors - n)
              = vdi_read_loop be fuel' bs hd1 (sector_num + n)
                  (skipn (Z.to_nat (n * SECTOR_SIZE)) buf1)
                  (total_sectors bs - sector_num - n)).
    { intros hd1 buf1.
      rewrite (IH fuel hd1 (sector_num + n)
                 (skipn (Z.to_nat (n * SECTOR_SIZE)) buf1) (nb_sectors - n)
                 ltac:(lia) ltac:(lia) ltac:(lia) ltac:(lia)).
      rewrite Z.max_r by lia. f_equal. lia. }
    destruct (le_to_cpu be 4 w =? VDI_UNALLOCATED).
    + change (0 <? 0) with false. cbv iota. now rewrite Hrec.
    + destruct (bdrv_read hd _ buf n) as [[r1 buf1] hd1].
      destruct (r1 <? 0); [reflexivity|]. now rewrite Hrec.
Qed.

(** X8: on an image of whole blocks, [vdi_read] of a request that
    reaches the end of the image or goes beyond it is [vdi_read] of the
    sectors up to the end; if the request starts at or after the end, the
    result is 0 and neither the buffer nor the file changes. *)
Theorem vdi_read_past_end (be : bool) (bs : BlockDriverState) (hd : Host)
    (sector_num : Z) (buf : list byte) (nb_sectors : Z) :
  geometry_ok bs = true ->
  total_sectors bs mod BDRV.block_sectors (opaque bs) = 0 ->
  0 <= sector_num -> total_sectors bs <= sector_num + nb_sectors ->
  vdi_read be bs hd sector_num buf nb_sectors
  = vdi_read be bs hd sector_num buf
      (Z.max 0 (total_sectors bs - sector_num)) /\
  (total_sectors bs <= sector_num ->
   vdi_read be bs hd sector_num buf nb_sectors = Some (0, buf, hd)).
Proof.
  intros Hg Hmod Hsn Hend.
  assert (Heq : vdi_read be bs hd sector_num buf nb_sectors
                = vdi_read be bs hd sector_num buf
                    (Z.max 0 (total_sectors bs - sector_num))).
  { unfold vdi_read. destruct (Z.ltb_spec sector_num 0); [reflexivity|].
    apply vdi_read_loop_truncate; auto; lia. }
  split; [exact Heq|].
  intros Hge. rewrite Heq. rewrite Z.max_l by lia.
  unfold vdi_read. destruct (Z.ltb_spec sector_num 0); [lia|]. reflexivity.
Qed.

Lemma vdi_write_loop_overwrite (be : bool) (fuel : nat) :
  forall (bs : BlockDriverState) (hd : Host) (sector_num : Z)
         (buf : list byte) (nb_sectors r : Z) (bs' : BlockDriverState)
         (hd' : Host),
    image_ok be bs = true -> 0 <= sector_num ->
    (forall t, sector_num <= t < sector_num + nb_sectors ->
               t < total_sectors bs ->
               block_entry be bs t <> Some VDI_UNALLOCATED) ->
    vdi_write_loop be fuel bs hd sector_num buf nb_sectors
    = Some (r, bs', hd') ->
    bs' = bs.
Proof.
  induction fuel as [|fuel IH];
    intros bs hd sector_num buf nb_sectors r bs' hd' Hok Hsn Hal Hrun.
  - cbn [vdi_write_loop] in Hrun.
    destruct ((nb_sectors >? 0) && (sector_num <? total_sectors bs));
      [discriminate|]. now injection Hrun as <- <- <-.
  - cbn [vdi_write_loop] in Hrun.
    destruct (Z.gtb_spec nb_sectors 0) as [Hnb|Hnb]; cbn [andb] in Hrun.
    2:{ now injection Hrun as <- <- <-. }
    destruct (Z.ltb_spec sector_num (total_sectors bs)) as [Hlt|Hge].
    2:{ now injection Hrun as <- <- <-. }
    destruct (vdi_write_block_image_ok be bs hd sector_num buf nb_sectors Hok
                ltac:(lia))
      as (r1 & bs1 & hd1 & Hblk & Hret & _ & _ & _ & _ & Hsame).
    rewrite Hblk in Hrun.
    assert (Hbs1 : bs1 = bs) by (apply Hsame, Hal; lia).
    subst bs1.
    destruct (image_ok_facts be bs Hok) as (Hg & _).
    destruct (geometry_ok_facts bs Hg) as (HB & _).
    pose proof (chunk_bounds (BDRV.block_sectors (opaque bs)) sector_num
                  nb_sectors ltac:(lia) Hsn ltac:(lia)) as Hc.
    cbv zeta in Hc. fold (chunk_sectors bs sector_num nb_sectors) in Hc.
    destruct Hc as (Hn1 & Hn2 & _).
    destruct (r1 <? 0); [now injection Hrun as <- <- <-|].
    refine (IH bs hd1 _ _ _ r bs' hd' Hok _ _ Hrun); [lia|].
    intros t Ht Htt. apply Hal; lia.
Qed.

(** X9: [vdi_write] on a consistent image returns a result; it keeps
    the number of sectors and the length of the block map, every entry of
    an allocated block, and every entry of a block that holds no sector of
    the request; if no sector of the request lies in an unallocated block,
    the state is unchanged. *)
Theorem vdi_write_block_map_frame (be : bool) (bs : BlockDriverState)
    (hd : Host) (sector_num : Z) (buf : list byte) (nb_sectors : Z) :
  image_ok be bs = true ->
  exists r bs' hd',
    vdi_write be bs hd sector_num buf nb_sectors = Some (r, bs', hd') /\
    total_sectors bs' = total_sectors bs /\
    List.length (BDRV.blockmap (opaque bs'))
    = List.length (BDRV.blockmap (opaque bs)) /\
    (forall i e, block_entry_at be bs i = Some e -> e <> VDI_UNALLOCATED ->
                 block_entry_at be bs' i = Some e) /\
    (forall i,
       (forall t, sector_num <= t < sector_num + nb_sectors ->
                  Z.to_nat (t / BDRV.block_sectors (opaque bs)) <> i) ->
       block_entry_at be bs' i = block_entry_at be bs i) /\
    ((forall t, sector_num <= t < sector_num + nb_sectors ->
                t < total_sectors bs ->
                block_entry be bs t <> Some VDI_UNALLOCATED) ->
     bs' = bs).
Proof.
  intros Hok.
  destruct (vdi_write_image_ok be bs hd sector_num buf nb_sectors Hok)
    as (r & bs' & hd' & Hrun & _).
  exists r, bs', hd'. split; [exact Hrun|].
  unfold vdi_write in Hrun.
  destruct (Z.ltb_spec sector_num 0) as [Hneg|Hpos].
  - injection Hrun as <- <- <-. repeat split; auto.
  - destruct (vdi_write_loop_entries be _ _ _ _ _ _ _ _ _ Hok Hpos Hrun)
      as (_ & Htot & _ & Hlen & Hkeep & Hoth & _).
    split; [exact Htot|]. split; [exact Hlen|]. split; [exact Hkeep|].
    split; [exact Hoth|].
    intros Hal. eapply vdi_write_loop_overwrite; eauto.
Qed.

Lemma vdi_write_past_end_witness :
  let bs := fresh_state 128 in
  let hd := host_of (fresh_file true 128) in
  image_ok true bs = true /\
  total_sectors bs mod BDRV.block_sectors (opaque bs) = 0 /\
  0 <= 262143 /\ total_sectors bs <= 262143 + 5 /\
  vdi_write true bs hd 262143 pattern 5
  = vdi_write true bs hd 262143 pattern (Z.max 0 (total_sectors bs - 262143)) /\
  (total_sectors bs <= 262143 ->
   vdi_write true bs hd 262143 pattern 5 = Some (0, bs, hd)).
Proof.
  intros bs hd.
  assert (Hok : image_ok true bs = true) by (vm_compute; reflexivity).
  assert (Hmod : total_sectors bs mod BDRV.block_sectors (opaque bs) = 0)
    by reflexivity.
  assert (Hend : total_sectors bs <= 262143 + 5) by (vm_compute; congruence).
  split; [exact Hok|]. split; [exact Hmod|]. split; [lia|].
  split; [exact Hend|].
  apply (vdi_write_past_end true bs hd 262143 pattern 5 Hok Hmod); [lia|].
  exact Hend.
Defined.

Lemma vdi_read_past_end_witness :
  let bs := fresh_state 128 in
  let hd := host_of (fresh_file true 128) in
  let buf := repeat Byte.xff 2560 in
  geometry_ok bs = true /\
  total_sectors bs mod BDRV.block_sectors (opaque bs) = 0 /\
  0 <= 262143 /\ total_sectors bs <= 262143 + 5 /\
  vdi_read true bs hd 262143 buf 5
  = vdi_read true bs hd 262143 buf (Z.max 0 (total_sectors bs - 262143)) /\
  (total_sectors bs <= 262143 ->
   vdi_read true bs hd 262143 buf 5 = Some (0, buf, hd)).
Proof.
  intros bs hd buf.
  assert (Hok : geometry_ok bs = true) by (vm_compute; reflexivity).
  assert (Hmod : total_sectors bs mod BDRV.block_sectors (opaque bs) = 0)
    by reflexivity.
  assert (Hend : total_sectors bs <= 262143 + 5) by (vm_compute; congruence).
  split; [exact Hok|]. split; [exact Hmod|]. split; [lia|].
  split; [exact Hend|].
  apply (vdi_read_past_end true bs hd 262143 buf 5 Hok Hmod); [lia|].
  exact Hend.
Defined.

Lemma vdi_write_block_map_frame_witness :
  let bs := fresh_state 128 in
  let hd := host_of (fresh_file true 128) in
  image_ok true bs = true /\
  exists r bs' hd',
    vdi_write true bs hd 2047 (pattern ++ pattern) 2 = Some (r, bs', hd') /\
    total_sectors bs' = total_sectors bs /\
    List.length (BDRV.blockmap (opaque bs'))
    = List.length (BDRV.blockmap (opaque bs)) /\
    (forall i e, block_entry_at true bs i = Some e -> e <> VDI_UNALLOCATED ->
                 block_entry_at true bs' i = Some e) /\
    (forall i,
       (forall t, 2047 <= t < 2047 + 2 ->
                  Z.to_nat (t / BDRV.block_sectors (opaque bs)) <> i) ->
       block_entry_at true bs' i = block_entry_at true bs i) /\
    ((forall t, 2047 <= t < 2047 + 2 -> t < total_sectors bs ->
                block_entry true bs t <> Some VDI_UNALLOCATED) ->
     bs' = bs).
Proof.
  intros bs hd.
  assert (Hok : image_ok true bs = true) by (vm_compute; reflexivity).
  split; [exact Hok|].
  exact (vdi_write_block_map_frame true bs hd 2047 (pattern ++ pattern) 2 Hok).
Defined.

(** ** [vdi_check] *)

Lemma count_cons (p : Z -> bool) (x : Z) (l : list Z) :
  count p (x :: l) = (if p x then 1 else 0) + count p l.
Proof.
  unfold count. cbn [filter]. destruct (p x); cbn [List.length]; lia.
Qed.

Lemma count_bounds (p : Z -> bool) (l : list Z) :
  0 <= count p l <= Z.of_nat (List.length l).
Proof.
  induction l as [|x l IH]; [unfold count; cbn; lia|].
  rewrite count_cons. cbn [List.length]. destruct (p x); lia.
Qed.

Lemma skipn_nth_error_cons {A : Type} (l : list A) (i : nat) (x : A) :
  nth_error l i = Some x -> skipn i l = x :: skipn (S i) l.
Proof.
  revert i. induction l as [|y l IH]; intros [|i] H; cbn in H;
    try discriminate.
  - now injection H as ->.
  - cbn [skipn]. now apply IH.
Qed.

(** The loop counts the entries that are too large and those that refer to
    a block of the image. *)
Lemma vdi_check_loop_count (be : bool) (s : BDRV.BDRVVdiState) (k : nat) :
  let N := blocks_in_image (BDRV.header s) in
  let entries :=
    map (le_to_cpu be 4) (firstn (Z.to_nat N) (BDRV.blockmap s)) in
  forall (fuel : nat) (block n_errors allocated : Z),
    0 <= block -> block + Z.of_nat k = N -> N <= INT_MAX ->
    (Z.to_nat N <= List.length (BDRV.blockmap s))%nat ->
    (k <= fuel)%nat ->
    0 <= n_errors -> n_errors + Z.of_nat k <= INT_MAX ->
    0 <= allocated -> allocated + Z.of_nat k < UINT32_MOD ->
    vdi_check_loop be fuel s block n_errors allocated
    = Some (n_errors
            + count (entry_too_large N) (skipn (Z.to_nat block) entries),
            allocated
            + count (entry_in_image N) (skipn (Z.to_nat block) entries)).
Proof.
  cbv zeta. induction k as [|k IH];
    intros fuel block n_errors allocated Hb Hk HN Hlen Hf Hne Hmax Hal Hwrap.
  - assert (Hcond : (block <? blocks_in_image (BDRV.header s)) = false)
      by (apply Z.ltb_ge; lia).
    rewrite skipn_all2
      by (rewrite length_map, length_firstn; lia).
    unfold count. cbn [filter List.length Z.of_nat]. rewrite !Z.add_0_r.
    destruct fuel; cbn [vdi_check_loop]; now rewrite Hcond.
  - destruct fuel as [|fuel]; [lia|]. cbn [vdi_check_loop].
    assert (Hcond : (block <? blocks_in_image (BDRV.header s)) = true)
      by (apply Z.ltb_lt; lia).
    rewrite Hcond.
    destruct (nth_error (BDRV.blockmap s) (Z.to_nat block)) as [w|] eqn:Hw.
    2:{ apply nth_error_None in Hw. lia. }
    assert (Hsk : skipn (Z.to_nat block)
                    (map (le_to_cpu be 4)
                       (firstn (Z.to_nat (blocks_in_image (BDRV.header s)))
                               (BDRV.blockmap s)))
                  = le_to_cpu be 4 w
                    :: skipn (Z.to_nat (block + 1))
                         (map (le_to_cpu be 4)
                            (firstn (Z.to_nat (blocks_in_image (BDRV.header s)))
                                    (BDRV.blockmap s)))).
    { replace (Z.to_nat (block + 1)) with (S (Z.to_nat block)) by lia.
      apply skipn_nth_error_cons.
      rewrite nth_error_map, nth_error_firstn.
      destruct (Nat.ltb_spec (Z.to_nat block)
                  (Z.to_nat (blocks_in_image (BDRV.header s)))); [|lia].
      now rewrite Hw. }
    rewrite Hsk, !count_cons.
    assert (Hnext : (block + 1) mod UINT32_MOD = block + 1).
    { apply Z.mod_small. unfold UINT32_MOD, INT_MAX in *. lia. }
    rewrite Hnext.
    assert (Ht : entry_too_large (blocks_in_image (BDRV.header s))
                   (le_to_cpu be 4 w)
                 = negb (le_to_cpu be 4 w =? VDI_UNALLOCATED)
                   && negb (le_to_cpu be 4 w
                            <? blocks_in_image (BDRV.header s)))
      by reflexivity.
    assert (Hi : entry_in_image (blocks_in_image (BDRV.header s))
                   (le_to_cpu be 4 w)
                 = negb (le_to_cpu be 4 w =? VDI_UNALLOCATED)
                   && (le_to_cpu be 4 w <? blocks_in_image (BDRV.header s)))
      by reflexivity.
    rewrite Ht, Hi. clear Ht Hi.
    destruct (le_to_cpu be 4 w =? VDI_UNALLOCATED); cbn [negb andb].
    + rewrite (IH fuel (block + 1) n_errors allocated) by lia.
      apply f_equal, f_equal2; lia.
    + destruct (le_to_cpu be 4 w <? blocks_in_image (BDRV.header s));
        cbn [negb].
      * rewrite (Z.mod_small (allocated + 1)) by lia.
        rewrite (IH fuel (block + 1) n_errors (allocated + 1)) by lia.
        apply f_equal, f_equal2; lia.
      * destruct (Z.eqb_spec n_errors INT_MAX); [lia|].
        rewrite (IH fuel (block + 1) (n_errors + 1) allocated) by lia.
        apply f_equal, f_equal2; lia.
Qed.

Lemma vdi_check_closed (be : bool) (bs : BlockDriverState) :
  let h := BDRV.header (opaque bs) in
  let N := blocks_in_image h in
  0 <= N < INT_MAX ->
  (Z.to_nat N <= List.length (BDRV.blockmap (opaque bs)))%nat ->
  vdi_check be bs
  = Some (count (entry_too_large N) (checked_entries be bs)
          + if count (entry_in_image N) (checked_entries be bs)
               =? blocks_allocated h
            then 0 else 1).
Proof.
  cbv zeta. intros HN Hlen. unfold vdi_check.
  pose proof (vdi_check_loop_count be (opaque bs)
                (Z.to_nat (blocks_in_image (BDRV.header (opaque bs))))) as H.
  cbv zeta in H.
  rewrite (H _ 0 0 0) by (unfold INT_MAX, UINT32_MOD in *; lia).
  cbn [skipn Z.to_nat]. fold (checked_entries be bs). rewrite !Z.add_0_l.
  pose proof (count_bounds
                (entry_too_large (blocks_in_image (BDRV.header (opaque bs))))
                (checked_entries be bs)) as Hc.
  assert (Hl : List.length (checked_entries be bs)
               = Z.to_nat (blocks_in_image (BDRV.header (opaque bs)))).
  { unfold checked_entries. rewrite length_map, length_firstn. lia. }
  destruct (_ =? blocks_allocated _); cbn [negb].
  - now rewrite Z.add_0_r.
  - match goal with
    | |- context [?c =? INT_MAX] => destruct (Z.eqb_spec c INT_MAX)
    end; [lia | reflexivity].
Qed.

Lemma count_zero_iff (p : Z -> bool) (l : list Z) :
  count p l = 0 <-> Forall (fun x => p x = false) l.
Proof.
  induction l as [|x l IH].
  - split; [constructor | reflexivity].
  - rewrite count_cons. pose proof (count_bounds p l) as Hb. split.
    + intros H. destruct (p x) eqn:E; [lia|].
      constructor; [exact E | apply IH; lia].
    + intros H. inversion H as [|? ? Hx Hl]; subst. rewrite Hx.
      apply IH in Hl. lia.
Qed.

Lemma count_ext_Forall (p q : Z -> bool) (l : list Z) :
  Forall (fun x => p x = q x) l -> count p l = count q l.
Proof.
  induction 1 as [|x l Hx _ IH]; [reflexivity|].
  now rewrite !count_cons, Hx, IH.
Qed.

Lemma count_allocated_map (be : bool) (m : list Z) :
  count (fun e => negb (e =? VDI_UNALLOCATED)) (map (le_to_cpu be 4) m)
  = count_allocated be m.
Proof.
  unfold count, count_allocated. induction m as [|w m IH]; [reflexivity|].
  cbn [map filter]. unfold is_allocated at 1.
  destruct (negb (le_to_cpu be 4 w =? VDI_UNALLOCATED));
    cbn [List.length]; lia.
Qed.

Lemma count_too_large_zero (n : Z) (l : list Z) :
  count (entry_too_large n) l = 0 <->
  Forall (fun e => e = VDI_UNALLOCATED \/ e < n) l.
Proof.
  rewrite count_zero_iff, !Forall_forall.
  assert (Hp : forall e, entry_too_large n e = false <->
                         e = VDI_UNALLOCATED \/ e < n).
  { intros e. unfold entry_too_large.
    destruct (Z.eqb_spec e VDI_UNALLOCATED); destruct (Z.ltb_spec e n);
      cbn [negb andb]; split; intros Hx; try tauto; try discriminate.
    destruct Hx; [contradiction | lia]. }
  split; intros H e He; apply Hp, H, He.
Qed.

Lemma count_in_image_all (n : Z) (l : list Z) :
  Forall (fun e => e = VDI_UNALLOCATED \/ e < n) l ->
  count (entry_in_image n) l = count (fun e => negb (e =? VDI_UNALLOCATED)) l.
Proof.
  intros H. apply count_ext_Forall.
  eapply Forall_impl; [|exact H]. intros e He. unfold entry_in_image.
  destruct (Z.eqb_spec e VDI_UNALLOCATED); [reflexivity|].
  destruct (Z.ltb_spec e n); [reflexivity|]. destruct He; [contradiction|lia].
Qed.

(** X10: [vdi_check] returns the number of entries, among the first
    [blocks_in_image], that are allocated and not below [blocks_in_image],
    plus one if the number of the allocated entries below
    [blocks_in_image] is not [blocks_allocated] of the header.  The result
    lies between 0 and [blocks_in_image + 1], and is 0 exactly when every
    entry is unallocated or below [blocks_in_image] and the allocated ones
    are as many as the header says. *)
Theorem vdi_check_counts_offenses (be : bool) (bs : BlockDriverState) :
  let h := BDRV.header (opaque bs) in
  let N := blocks_in_image h in
  0 <= N < INT_MAX ->
  (Z.to_nat N <= List.length (BDRV.blockmap (opaque bs)))%nat ->
  exists n,
    vdi_check be bs = Some n /\
    n = count (entry_too_large N) (checked_entries be bs)
        + (if count (entry_in_image N) (checked_entries be bs)
              =? blocks_allocated h
           then 0 else 1) /\
    0 <= n <= N + 1 /\
    (n = 0 <->
     Forall (fun e => e = VDI_UNALLOCATED \/ e < N) (checked_entries be bs) /\
     count_allocated be (firstn (Z.to_nat N) (BDRV.blockmap (opaque bs)))
     = blocks_allocated h).
Proof.
  cbv zeta. intros HN Hlen. eexists.
  split; [now apply vdi_check_closed|]. split; [reflexivity|].
  set (N := blocks_in_image (BDRV.header (opaque bs))) in *.
  pose proof (count_bounds (entry_too_large N) (checked_entries be bs)) as Hc.
  assert (Hl : Z.of_nat (List.length (checked_entries be bs)) = N).
  { unfold checked_entries. fold N. rewrite length_map, length_firstn. lia. }
  split.
  { destruct (_ =? _); lia. }
  split.
  - intros H0.
    assert (Hz : count (entry_too_large N) (checked_entries be bs) = 0)
      by (destruct (_ =? _); lia).
    apply count_too_large_zero in Hz. split; [exact Hz|].
    rewrite (count_in_image_all N _ Hz) in H0.
    unfold checked_entries in H0 at 2. fold N in H0.
    rewrite count_allocated_map in H0.
    destruct (Z.eqb_spec
                (count_allocated be
                   (firstn (Z.to_nat N) (BDRV.blockmap (opaque bs))))
                (blocks_allocated (BDRV.header (opaque bs)))); lia.
  - intros [Hz Hcnt].
    rewrite (count_in_image_all N _ Hz).
    apply count_too_large_zero in Hz. rewrite Hz.
    unfold checked_entries. fold N. rewrite count_allocated_map, Hcnt.
    now rewrite Z.eqb_refl.
Qed.

(** The invariant of the data region holds after an iteration of
    [vdi_write], whatever its outcome. *)
Lemma vdi_write_block_data_inv (be : bool) (bs : BlockDriverState) (hd : Host)
    (sector_num : Z) (buf : list byte) (nb_sectors r n : Z)
    (bs' : BlockDriverState) (hd' : Host) :
  data_inv be bs -> 0 <= sector_num < total_sectors bs ->
  vdi_write_block be bs hd sector_num buf nb_sectors = Some (r, n, bs', hd') ->
  data_inv be bs' /\
  blocks_in_image (BDRV.header (opaque bs'))
  = blocks_in_image (BDRV.header (opaque bs)) /\
  List.length (BDRV.blockmap (opaque bs'))
  = List.length (BDRV.blockmap (opaque bs)).
Proof.
  intros Hinv Hsn Hrun. destruct Hinv as (Hok & Hlay & Hent).
  destruct (image_ok_facts be bs Hok) as (Hg & Hr & _ & _).
  destruct (block_index_in_range bs sector_num Hg Hsn) as [w Hw].
  destruct (vdi_write_block_state be bs hd sector_num buf nb_sectors w Hg Hr Hw)
    as (r0 & hd0 & Hrun0 & _).
  rewrite Hrun in Hrun0. injection Hrun0 as -> -> -> ->.
  destruct (Z.eqb_spec (le_to_cpu be 4 w) VDI_UNALLOCATED) as [Hun|Hal].
  - split; [|split].
    + apply allocate_data_inv; [now split|].
      unfold block_entry_at. rewrite Hw. cbn [option_map]. now rewrite Hun.
    + reflexivity.
    + unfold allocate.
      cbn [opaque set_opaque BDRV.blockmap set_header set_blockmap].
      apply length_array_set.
  - split; [now split | split; reflexivity].
Qed.

Lemma vdi_write_loop_data_inv (be : bool) (fuel : nat) :
  forall (bs : BlockDriverState) (hd : Host) (sector_num : Z)
         (buf : list byte) (nb_sectors r : Z) (bs' : BlockDriverState)
         (hd' : Host),
    data_inv be bs -> 0 <= sector_num ->
    vdi_write_loop be fuel bs hd sector_num buf nb_sectors
    = Some (r, bs', hd') ->
    data_inv be bs' /\
    blocks_in_image (BDRV.header (opaque bs'))
    = blocks_in_image (BDRV.header (opaque bs)) /\
    List.length (BDRV.blockmap (opaque bs'))
    = List.length (BDRV.blockmap (opaque bs)).
Proof.
  induction fuel as [|fuel IH];
    intros bs hd sector_num buf nb_sectors r bs' hd' Hinv Hsn Hrun.
  - cbn [vdi_write_loop] in Hrun.
    destruct ((nb_sectors >? 0) && (sector_num <? total_sectors bs));
      [discriminate|]. injection Hrun as <- <- <-. auto.
  - cbn [vdi_write_loop] in Hrun.
    destruct (Z.gtb_spec nb_sectors 0) as [Hnb|Hnb]; cbn [andb] in Hrun.
    2:{ injection Hrun as <- <- <-. auto. }
    destruct (Z.ltb_spec sector_num (total_sectors bs)) as [Hlt|Hge].
    2:{ injection Hrun as <- <- <-. auto. }
    destruct (vdi_write_block be bs hd sector_num buf nb_sectors)
      as [[[[r1 n] bs1] hd1]|] eqn:Hblk; [|discriminate].
    destruct (vdi_write_block_data_inv be bs hd sector_num buf nb_sectors
                r1 n bs1 hd1 Hinv ltac:(lia) Hblk) as (Hinv1 & Hbi1 & Hlen1).
    destruct Hinv as (Hok & _).
    destruct (vdi_write_block_entries be bs hd sector_num buf nb_sectors
                r1 n bs1 hd1 Hok ltac:(lia) Hblk) as (Hn & _).
    destruct (image_ok_facts be bs Hok) as (Hg & _).
    destruct (geometry_ok_facts bs Hg) as (HB & _).
    pose proof (chunk_bounds (BDRV.block_sectors (opaque bs)) sector_num
                  nb_sectors ltac:(lia) Hsn ltac:(lia)) as Hc.
    cbv zeta in Hc. fold (chunk_sectors bs sector_num nb_sectors) in Hc.
    rewrite <- Hn in Hc. destruct Hc as (Hn1 & _).
    destruct (r1 <? 0).
    + injection Hrun as <- <- <-. auto.
    + destruct (IH bs1 hd1 (sector_num + n)
                  (skipn (Z.to_nat (n * SECTOR_SIZE)) buf) (nb_sectors - n)
                  r bs' hd' Hinv1 ltac:(lia) Hrun) as (Hinv' & Hbi' & Hlen').
      split; [exact Hinv'|]. split; congruence.
Qed.

(** A state of which the invariant of the data region holds passes the
    check. *)
Lemma data_inv_check (be : bool) (bs : BlockDriverState) :
  data_inv be bs ->
  blocks_in_image (BDRV.header (opaque bs))
  = Z.of_nat (List.length (BDRV.blockmap (opaque bs))) ->
  blocks_in_image (BDRV.header (opaque bs)) < INT_MAX ->
  vdi_check be bs = Some 0.
Proof.
  intros (Hok & _ & Hent) HN Hmax.
  destruct (image_ok_facts be bs Hok) as (_ & _ & _ & Hcnt).
  pose proof (count_allocated_bounds be (BDRV.blockmap (opaque bs))) as Hcb.
  rewrite vdi_check_closed by lia.
  assert (Hall : Forall (fun e => e = VDI_UNALLOCATED
                                  \/ e < blocks_in_image (BDRV.header (opaque bs)))
                        (checked_entries be bs)).
  { apply Forall_forall. intros e He. unfold checked_entries in He.
    apply in_map_iff in He. destruct He as (w & <- & Hin).
    rewrite HN, Nat2Z.id, firstn_all in Hin.
    apply In_nth_error in Hin. destruct Hin as [i Hi].
    destruct (Z.eq_dec (le_to_cpu be 4 w) VDI_UNALLOCATED) as [|Hne];
      [now left|right].
    destruct (Hent i (le_to_cpu be 4 w)) as [Hlt _];
      [unfold block_entry_at; now rewrite Hi | exact Hne | lia]. }
  rewrite (count_in_image_all _ _ Hall).
  apply count_too_large_zero in Hall. rewrite Hall.
  unfold checked_entries. rewrite count_allocated_map.
  rewrite HN, Nat2Z.id, firstn_all, Hcnt, Z.eqb_refl. reflexivity.
Qed.

(** X11: on an image that satisfies [data_ok] and whose block map has
    [blocks_in_image] entries, [vdi_check] returns 0, and it returns 0 on
    the state after each of any sequence of calls of [vdi_write], failed
    ones included. *)
Theorem vdi_check_passes_after_writes (be : bool) (bs : BlockDriverState) :
  data_ok be bs = true ->
  blocks_in_image (BDRV.header (opaque bs))
  = Z.of_nat (List.length (BDRV.blockmap (opaque bs))) ->
  blocks_in_image (BDRV.header (opaque bs)) < INT_MAX ->
  vdi_check be bs = Some 0 /\
  forall (reqs : list write_req) (hd : Host),
    exists states hd',
      write_seq be reqs bs hd = Some (states, hd') /\
      Forall (fun b => vdi_check be b = Some 0) states.
Proof.
  intros Hok HN Hmax. apply data_ok_inv in Hok.
  split; [now apply data_inv_check|].
  intros reqs. revert bs Hok HN Hmax.
  induction reqs as [|[[sn buf] nb] reqs IH]; intros bs Hinv HN Hmax hd.
  - exists [], hd. split; [reflexivity | constructor].
  - cbn [write_seq].
    destruct (vdi_write_image_ok be bs hd sn buf nb (proj1 Hinv))
      as (r & bs1 & hd1 & Hrun & _).
    rewrite Hrun.
    assert (H1 : data_inv be bs1 /\
                 blocks_in_image (BDRV.header (opaque bs1))
                 = blocks_in_image (BDRV.header (opaque bs)) /\
                 List.length (BDRV.blockmap (opaque bs1))
                 = List.length (BDRV.blockmap (opaque bs))).
    { unfold vdi_write in Hrun. destruct (Z.ltb_spec sn 0).
      - injection Hrun as <- <- <-. auto.
      - eapply vdi_write_loop_data_inv; eauto. }
    destruct H1 as (Hinv1 & Hbi1 & Hlen1).
    destruct (IH bs1 Hinv1 ltac:(congruence) ltac:(congruence) hd1)
      as (states & hd' & Hseq & Hall).
    rewrite Hseq. exists (bs1 :: states), hd'. split; [reflexivity|].
    constructor; [|exact Hall].
    apply data_inv_check; [exact Hinv1 | congruence | congruence].
Qed.

Lemma count_array_set (p : Z -> bool) (f : Z -> Z) (m : list Z) :
  forall (j n : nat) (w w' : Z),
    nth_error m j = Some w -> p (f w') = p (f w) ->
    count p (map f (firstn n (array_set m j w')))
    = count p (map f (firstn n m)).
Proof.
  induction m as [|x m IH]; intros [|j] [|n] w w' Hj Hp; cbn in Hj;
    try discriminate; try reflexivity.
  - injection Hj as ->. cbn [array_set firstn map].
    now rewrite !count_cons, Hp.
  - cbn [array_set firstn map]. rewrite !count_cons.
    now rewrite (IH j n w w' Hj Hp).
Qed.

(** X12: replacing an entry that refers to a block of the image by any
    other value that refers to a block of the image leaves the result of
    [vdi_check] unchanged; two entries that share a block of the file are
    not reported. *)
Theorem vdi_check_misses_shared_blocks (be : bool) (bs : BlockDriverState)
    (j : nat) (w w' : Z) :
  let N := blocks_in_image (BDRV.header (opaque bs)) in
  0 <= N < INT_MAX ->
  (Z.to_nat N <= List.length (BDRV.blockmap (opaque bs)))%nat ->
  nth_error (BDRV.blockmap (opaque bs)) j = Some w ->
  entry_in_image N (le_to_cpu be 4 w) = true ->
  entry_in_image N (le_to_cpu be 4 w') = true ->
  vdi_check be (with_entry bs j w') = vdi_check be bs.
Proof.
  cbv zeta. intros HN Hlen Hj Hw Hw'.
  rewrite (vdi_check_closed be bs HN Hlen).
  rewrite vdi_check_closed;
    unfold with_entry;
    cbn [opaque set_opaque BDRV.header BDRV.blockmap set_blockmap];
    rewrite ?length_array_set; try assumption.
  unfold checked_entries.
  cbn [opaque set_opaque BDRV.header BDRV.blockmap set_blockmap].
  assert (Hl : forall e, entry_in_image (blocks_in_image (BDRV.header (opaque bs))) e = true ->
                         entry_too_large (blocks_in_image (BDRV.header (opaque bs))) e = false).
  { intros e. unfold entry_in_image, entry_too_large.
    destruct (negb (e =? VDI_UNALLOCATED)); cbn [andb]; [|reflexivity].
    now intros ->. }
  rewrite (count_array_set (entry_too_large _) _ _ j _ w w' Hj)
    by (now rewrite !Hl).
  rewrite (count_array_set (entry_in_image _) _ _ j _ w w' Hj)
    by (now rewrite Hw, Hw').
  reflexivity.
Qed.

Lemma vdi_check_counts_offenses_witness :
  let bs := with_entry two_blocks 5 128 in
  let h := BDRV.header (opaque bs) in
  let N := blocks_in_image h in
  0 <= N < INT_MAX /\
  (Z.to_nat N <= List.length (BDRV.blockmap (opaque bs)))%nat /\
  exists n,
    vdi_check false bs = Some n /\
    n = count (entry_too_large N) (checked_entries false bs)
        + (if count (entry_in_image N) (checked_entries false bs)
              =? blocks_allocated h
           then 0 else 1) /\
    0 <= n <= N + 1 /\
    (n = 0 <->
     Forall (fun e => e = VDI_UNALLOCATED \/ e < N)
            (checked_entries false bs) /\
     count_allocated false (firstn (Z.to_nat N) (BDRV.blockmap (opaque bs)))
     = blocks_allocated h).
Proof.
  intros bs h N.
  assert (HN : 0 <= N < INT_MAX) by (vm_compute; split; congruence).
  assert (Hlen : (Z.to_nat N <= List.length (BDRV.blockmap (opaque bs)))%nat)
    by (vm_compute; lia).
  split; [exact HN|]. split; [exact Hlen|].
  exact (vdi_check_counts_offenses false bs HN Hlen).
Defined.

Lemma vdi_check_passes_after_writes_witness :
  let bs := fresh_state 128 in
  data_ok true bs = true /\
  blocks_in_image (BDRV.header (opaque bs))
  = Z.of_nat (List.length (BDRV.blockmap (opaque bs))) /\
  blocks_in_image (BDRV.header (opaque bs)) < INT_MAX /\
  vdi_check true bs = Some 0 /\
  forall (reqs : list write_req) (hd : Host),
    exists states hd',
      write_seq true reqs bs hd = Some (states, hd') /\
      Forall (fun b => vdi_check true b = Some 0) states.
Proof.
  intros bs.
  assert (Hok : data_ok true bs = true) by (vm_compute; reflexivity).
  assert (HN : blocks_in_image (BDRV.header (opaque bs))
               = Z.of_nat (List.length (BDRV.blockmap (opaque bs))))
    by reflexivity.
  assert (Hmax : blocks_in_image (BDRV.header (opaque bs)) < INT_MAX)
    by (vm_compute; reflexivity).
  split; [exact Hok|]. split; [exact HN|]. split; [exact Hmax|].
  exact (vdi_check_passes_after_writes true bs Hok HN Hmax).
Defined.

Lemma vdi_check_misses_shared_blocks_witness :
  let bs := two_blocks in
  let N := blocks_in_image (BDRV.header (opaque bs)) in
  0 <= N < INT_MAX /\
  (Z.to_nat N <= List.length (BDRV.blockmap (opaque bs)))%nat /\
  nth_error (BDRV.blockmap (opaque bs)) 1 = Some 1 /\
  entry_in_image N (le_to_cpu false 4 1) = true /\
  entry_in_image N (le_to_cpu false 4 0) = true /\
  block_entry_at false (with_entry bs 1 0) 0 = Some 0 /\
  block_entry_at false (with_entry bs 1 0) 1 = Some 0 /\
  vdi_check false (with_entry bs 1 0) = vdi_check false bs.
Proof.
  intros bs N.
  assert (HN : 0 <= N < INT_MAX) by (vm_compute; split; congruence).
  assert (Hlen : (Z.to_nat N <= List.length (BDRV.blockmap (opaque bs)))%nat)
    by (vm_compute; lia).
  assert (Hj : nth_error (BDRV.blockmap (opaque bs)) 1 = Some 1)
    by (vm_compute; reflexivity).
  split; [exact HN|]. split; [exact Hlen|]. split; [exact Hj|].
  split; [reflexivity|]. split; [reflexivity|].
  split; [vm_compute; reflexivity|]. split; [vm_compute; reflexivity|].
  exact (vdi_check_misses_shared_blocks false bs 1 1 0 HN Hlen Hj
           eq_refl eq_refl).
Defined.

(** ** [vdi_is_allocated] *)

Lemma to_int_small (x : Z) : 0 <= x <= INT_MAX -> to_int x = x.
Proof.
  unfold to_int, INT_MAX. intros H.
  rewrite Z.mod_small by lia. lia.
Qed.

Lemma to_size_t_small (x : Z) : 0 <= x < 2 ^ 64 -> to_size_t x = x.
Proof. intros H. unfold to_size_t, UINT64_MOD. now apply Z.mod_small. Qed.

Lemma vdi_is_allocated_eq (be : bool) (bs : BlockDriverState)
    (sector_num nb_sectors : Z) :
  image_ok be bs = true ->
  BDRV.block_sectors (opaque bs) <= INT_MAX ->
  0 <= sector_num < total_sectors bs ->
  exists e,
    block_entry be bs sector_num = Some e /\
    vdi_is_allocated be bs sector_num nb_sectors
    = Some (if e =? VDI_UNALLOCATED then 0 else 1,
            chunk_sectors bs sector_num nb_sectors).
Proof.
  intros Hok Hint Hsn.
  destruct (image_ok_facts be bs Hok) as (Hg & _ & HL & _).
  destruct (geometry_ok_facts bs Hg) as (HB & _ & Htot).
  destruct (block_index_in_range bs sector_num Hg Hsn) as [w Hw].
  exists (le_to_cpu be 4 w). split; [now apply block_entry_of_word|].
  unfold vdi_is_allocated, chunk_sectors.
  set (B := BDRV.block_sectors (opaque bs)) in *.
  destruct (Z.eqb_spec B 0); [lia|].
  rewrite Z.quot_div_nonneg, Z.rem_mod_nonneg by lia.
  pose proof (Z.mod_pos_bound sector_num B ltac:(lia)) as Hsib.
  assert (Hq : 0 <= sector_num / B < 2 ^ 64).
  { split; [apply Z.div_pos; lia|].
    apply Z.le_lt_trans with sector_num; [|unfold UINT32_MOD in *; nia].
    apply Z.div_le_upper_bound; nia. }
  rewrite (to_size_t_small (sector_num / B)) by exact Hq.
  rewrite (to_size_t_small (sector_num mod B))
    by (unfold UINT32_MOD in *; lia).
  rewrite to_size_t_small by (unfold UINT32_MOD in *; lia).
  rewrite to_int_small by lia.
  rewrite Hw. destruct (le_to_cpu be 4 w =? VDI_UNALLOCATED); reflexivity.
Qed.

Lemma chunk_sectors_idem (bs : BlockDriverState) (sector_num nb_sectors : Z) :
  chunk_sectors bs sector_num (chunk_sectors bs sector_num nb_sectors)
  = chunk_sectors bs sector_num nb_sectors.
Proof.
  unfold chunk_sectors. cbv zeta.
  set (m := BDRV.block_sectors (opaque bs)
            - sector_num mod BDRV.block_sectors (opaque bs)).
  destruct (Z.gtb_spec m nb_sectors) as [H|H].
  - destruct (Z.gtb_spec m nb_sectors); [reflexivity | lia].
  - destruct (Z.gtb_spec m m); [lia | reflexivity].
Qed.

(** A read of the sectors [vdi_is_allocated] reports on takes one
    iteration of the loop. *)
Lemma vdi_read_one_chunk (be : bool) (bs : BlockDriverState) (hd : Host)
    (sector_num : Z) (buf : list byte) (nb_sectors e : Z) :
  geometry_ok bs = true -> 0 <= sector_num < total_sectors bs ->
  0 < nb_sectors ->
  block_entry be bs sector_num = Some e ->
  let s := opaque bs in
  let n := chunk_sectors bs sector_num nb_sectors in
  vdi_read be bs hd sector_num buf n
  = if e =? VDI_UNALLOCATED
    then Some (0, memset0 buf (n * SECTOR_SIZE), hd)
    else
      let '(r, out, hd') :=
        bdrv_read hd ((offset_data (BDRV.header s) / SECTOR_SIZE
                       + e * BDRV.block_sectors s
                       + sector_num mod BDRV.block_sectors s) mod UINT64_MOD)
                  buf n in
      Some (if r <? 0 then -1 else 0, out, hd').
Proof.
  intros Hg Hsn Hnb He. cbv zeta.
  destruct (geometry_ok_facts bs Hg) as (HB & _).
  pose proof (chunk_bounds (BDRV.block_sectors (opaque bs)) sector_num
                nb_sectors ltac:(lia) ltac:(lia) Hnb) as Hc.
  cbv zeta in Hc. fold (chunk_sectors bs sector_num nb_sectors) in Hc.
  destruct Hc as (Hn1 & Hn2 & _).
  pose proof (chunk_sectors_idem bs sector_num nb_sectors) as Hidem.
  set (n := chunk_sectors bs sector_num nb_sectors) in *.
  unfold vdi_read. destruct (Z.ltb_spec sector_num 0); [lia|].
  destruct (Z.to_nat n) as [|k] eqn:Hk; [lia|].
  cbn [vdi_read_loop].
  destruct (Z.gtb_spec n 0); [|lia].
  destruct (Z.ltb_spec sector_num (total_sectors bs)); [|lia].
  cbn [andb].
  destruct (Z.eqb_spec (BDRV.block_sectors (opaque bs)) 0); [lia|].
  unfold chunk_sectors in Hidem. cbv zeta in Hidem. rewrite Hidem.
  unfold block_entry, block_entry_at in He.
  destruct (nth_error _ _) as [w|]; [|discriminate].
  cbn [option_map] in He. injection He as ->.
  assert (Hend : forall hd1 b,
            vdi_read_loop be k bs hd1 (sector_num + n) b (n - n)
            = Some (0, b, hd1)).
  { intros hd1 b. rewrite Z.sub_diag. destruct k; reflexivity. }
  destruct (e =? VDI_UNALLOCATED).
  - cbv beta iota. change (0 <? 0) with false. cbv iota. rewrite Hend.
    now rewrite firstn_skipn.
  - destruct (bdrv_read hd _ buf n) as [[r out] hd1].
    destruct (r <? 0); [reflexivity|]. rewrite Hend.
    now rewrite firstn_skipn.
Qed.

(** X13: for a sector of the image and a positive count,
    [vdi_is_allocated] returns 0 or 1, and 0 exactly when the block of the
    sector is unallocated; [*pnum] is between 1 and [nb_sectors] and the
    [*pnum] sectors lie in one block.  [vdi_read] of these sectors zeroes
    the buffer without a request to the file when the result is 0, and
    makes one request of [*pnum] sectors when it is 1. *)
Theorem vdi_is_allocated_chunk (be : bool) (bs : BlockDriverState)
    (sector_num nb_sectors : Z) :
  image_ok be bs = true ->
  BDRV.block_sectors (opaque bs) <= INT_MAX ->
  0 <= sector_num < total_sectors bs -> 0 < nb_sectors ->
  exists a pnum,
    vdi_is_allocated be bs sector_num nb_sectors = Some (a, pnum) /\
    (a = 0 \/ a = 1) /\ 1 <= pnum <= nb_sectors /\
    (a = 0 <-> block_entry be bs sector_num = Some VDI_UNALLOCATED) /\
    (forall t, sector_num <= t < sector_num + pnum ->
               block_entry be bs t = block_entry be bs sector_num) /\
    (a = 0 ->
     forall hd buf,
       vdi_read be bs hd sector_num buf pnum
       = Some (0, memset0 buf (pnum * SECTOR_SIZE), hd)) /\
    (a = 1 ->
     forall hd buf,
       exists r out hd' offset,
         vdi_read be bs hd sector_num buf pnum = Some (r, out, hd') /\
         trace hd' = IoRead offset pnum :: trace hd).
Proof.
  intros Hok Hint Hsn Hnb.
  destruct (vdi_is_allocated_eq be bs sector_num nb_sectors Hok Hint Hsn)
    as (e & He & Hrun).
  destruct (image_ok_facts be bs Hok) as (Hg & _).
  destruct (geometry_ok_facts bs Hg) as (HB & _).
  pose proof (chunk_bounds (BDRV.block_sectors (opaque bs)) sector_num
                nb_sectors ltac:(lia) ltac:(lia) Hnb) as Hc.
  cbv zeta in Hc. fold (chunk_sectors bs sector_num nb_sectors) in Hc.
  destruct Hc as (Hn1 & Hn2 & _).
  pose proof (vdi_read_one_chunk be bs) as Hread.
  exists (if e =? VDI_UNALLOCATED then 0 else 1),
         (chunk_sectors bs sector_num nb_sectors).
  split; [exact Hrun|].
  split; [destruct (e =? VDI_UNALLOCATED); auto|].
  split; [exact Hn1|].
  split.
  { rewrite He. destruct (Z.eqb_spec e VDI_UNALLOCATED) as [->|Hne].
    - tauto.
    - split; [discriminate | congruence]. }
  split.
  { intros t Ht. apply block_entry_same_block; lia. }
  split.
  - intros Ha hd buf.
    rewrite (Hread hd sector_num buf nb_sectors e Hg Hsn Hnb He).
    destruct (e =? VDI_UNALLOCATED); [reflexivity | discriminate].
  - intros Ha hd buf.
    rewrite (Hread hd sector_num buf nb_sectors e Hg Hsn Hnb He).
    destruct (e =? VDI_UNALLOCATED); [discriminate|].
    unfold bdrv_read. destruct (next_fault hd);
      do 4 eexists; split; reflexivity.
Qed.

(** X14: after [vdi_write] of a request inside the image has returned
    0, [vdi_is_allocated] returns 1 for every sector of the request; for a
    sector of a block that holds no sector of the request it returns what
    it returned before, whatever the write returned. *)
Theorem vdi_is_allocated_after_write (be : bool) (bs : BlockDriverState)
    (hd : Host) (sector_num : Z) (buf : list byte) (nb_sectors : Z) :
  image_ok be bs = true ->
  BDRV.block_sectors (opaque bs) <= INT_MAX ->
  0 <= sector_num -> sector_num + nb_sectors <= total_sectors bs ->
  exists r bs' hd',
    vdi_write be bs hd sector_num buf nb_sectors = Some (r, bs', hd') /\
    (r = 0 ->
     forall t n, sector_num <= t < sector_num + nb_sectors ->
       exists pnum, vdi_is_allocated be bs' t n = Some (1, pnum)) /\
    (forall t n, 0 <= t < total_sectors bs ->
       (forall u, sector_num <= u < sector_num + nb_sectors ->
                  u / BDRV.block_sectors (opaque bs)
                  <> t / BDRV.block_sectors (opaque bs)) ->
       vdi_is_allocated be bs' t n = vdi_is_allocated be bs t n).
Proof.
  intros Hok Hint Hsn Hend.
  destruct (vdi_write_image_ok be bs hd sector_num buf nb_sectors Hok)
    as (r & bs' & hd' & Hrun & _).
  exists r, bs', hd'. split; [exact Hrun|].
  unfold vdi_write in Hrun.
  destruct (Z.ltb_spec sector_num 0) as [|_]; [lia|].
  destruct (vdi_write_loop_entries be _ _ _ _ _ _ _ _ _ Hok Hsn Hrun)
    as (Hok' & Htot & HB & _ & _ & Hoth & Hnew).
  destruct (image_ok_facts be bs Hok) as (Hg & _).
  destruct (geometry_ok_facts bs Hg) as (HBpos & _).
  split.
  - intros Hr t n Ht.
    destruct (Hnew Hr t Ht ltac:(lia)) as (e & He & Hne).
    destruct (vdi_is_allocated_eq be bs' t n Hok' ltac:(lia) ltac:(lia))
      as (e' & He' & Hq).
    rewrite He in He'. injection He' as <-.
    rewrite Hq. destruct (Z.eqb_spec e VDI_UNALLOCATED); [contradiction|].
    eauto.
  - intros t n Ht Hfar.
    destruct (vdi_is_allocated_eq be bs' t n Hok' ltac:(lia) ltac:(lia))
      as (e' & He' & Hq').
    destruct (vdi_is_allocated_eq be bs t n Hok Hint Ht) as (e & He & Hq).
    rewrite Hq, Hq'.
    assert (Hee : e' = e).
    { unfold block_entry in He, He'. rewrite HB in He'.
      rewrite Hoth in He'; [congruence|].
      intros u Hu Heq. apply (Hfar u Hu).
      apply Z2Nat.inj in Heq; [exact Heq| |]; apply Z.div_pos; lia. }
    subst e'. unfold chunk_sectors. now rewrite HB.
Qed.

Lemma vdi_is_allocated_chunk_witness :
  let bs := two_blocks in
  image_ok false bs = true /\
  BDRV.block_sectors (opaque bs) <= INT_MAX /\
  0 <= 4000 < total_sectors bs /\ 0 < 4096 /\
  vdi_is_allocated false bs 4000 4096 = Some (1, 96) /\
  exists a pnum,
    vdi_is_allocated false bs 4000 4096 = Some (a, pnum) /\
    (a = 0 \/ a = 1) /\ 1 <= pnum <= 4096 /\
    (a = 0 <-> block_entry false bs 4000 = Some VDI_UNALLOCATED) /\
    (forall t, 4000 <= t < 4000 + pnum ->
               block_entry false bs t = block_entry false bs 4000) /\
    (a = 0 ->
     forall hd buf,
       vdi_read false bs hd 4000 buf pnum
       = Some (0, memset0 buf (pnum * SECTOR_SIZE), hd)) /\
    (a = 1 ->
     forall hd buf,
       exists r out hd' offset,
         vdi_read false bs hd 4000 buf pnum = Some (r, out, hd') /\
         trace hd' = IoRead offset pnum :: trace hd).
Proof.
  intros bs.
  assert (Hok : image_ok false bs = true) by (vm_compute; reflexivity).
  assert (Hint : BDRV.block_sectors (opaque bs) <= INT_MAX)
    by (vm_compute; congruence).
  assert (Hsn : 0 <= 4000 < total_sectors bs) by (vm_compute; split; congruence).
  split; [exact Hok|]. split; [exact Hint|]. split; [exact Hsn|].
  split; [lia|]. split; [vm_compute; reflexivity|].
  exact (vdi_is_allocated_chunk false bs 4000 4096 Hok Hint Hsn ltac:(lia)).
Defined.

Lemma vdi_is_allocated_after_write_witness :
  let bs := fresh_state 128 in
  let hd := host_of (fresh_file true 128) in
  image_ok true bs = true /\
  BDRV.block_sectors (opaque bs) <= INT_MAX /\
  0 <= 2047 /\ 2047 + 2 <= total_sectors bs /\
  exists r bs' hd',
    vdi_write true bs hd 2047 (pattern ++ pattern) 2 = Some (r, bs', hd') /\
    (r = 0 ->
     forall t n, 2047 <= t < 2047 + 2 ->
       exists pnum, vdi_is_allocated true bs' t n = Some (1, pnum)) /\
    (forall t n, 0 <= t < total_sectors bs ->
       (forall u, 2047 <= u < 2047 + 2 ->
                  u / BDRV.block_sectors (opaque bs)
                  <> t / BDRV.block_sectors (opaque bs)) ->
       vdi_is_allocated true bs' t n = vdi_is_allocated true bs t n).
Proof.
  intros bs hd.
  assert (Hok : image_ok true bs = true) by (vm_compute; reflexivity).
  assert (Hint : BDRV.block_sectors (opaque bs) <= INT_MAX)
    by (vm_compute; congruence).
  assert (Hend : 2047 + 2 <= total_sectors bs) by (vm_compute; congruence).
  split; [exact Hok|]. split; [exact Hint|]. split; [lia|].
  split; [exact Hend|].
  exact (vdi_is_allocated_after_write true bs hd 2047 (pattern ++ pattern) 2
           Hok Hint ltac:(lia) Hend).
Defined.

(** ** The asynchronous write path against the synchronous one *)




(** An iteration of [vdi_write]: the requests it makes to the file, one
    after the other, and the state it leaves. *)
Lemma vdi_write_block_cases (be : bool) (bs : BlockDriverState) (hd : Host)
    (sector_num : Z) (buf : list byte) (nb_sectors w : Z) :
  geometry_ok bs = true ->
  header_in_range (BDRV.header (opaque bs)) = true ->
  nth_error (BDRV.blockmap (opaque bs))
            (Z.to_nat (sector_num / BDRV.block_sectors (opaque bs))) = Some w ->
  let s := opaque bs in
  let B := BDRV.block_sectors s in
  let D := offset_data (BDRV.header s) / SECTOR_SIZE in
  let M := offset_blockmap (BDRV.header s) / SECTOR_SIZE in
  let k := blocks_allocated (BDRV.header s) in
  let sib := sector_num mod B in
  let n := chunk_sectors bs sector_num nb_sectors in
  let bs1 := allocate be bs (Z.to_nat (sector_num / B)) in
  let km := Z.land k (Z.lnot (SECTOR_SIZE / 4 - 1)) in
  vdi_write_block be bs hd sector_num buf nb_sectors =
  if le_to_cpu be 4 w =? VDI_UNALLOCATED then
    let w1 := bdrv_write hd ((D + k * B) mod UINT64_MOD)
                (memcpy_at (qemu_mallocz (BDRV.block_size s))
                           (sib * SECTOR_SIZE) buf (n * SECTOR_SIZE)) B in
    if fst w1 <? 0 then Some (-1, n, bs1, snd w1)
    else
      let w2 := bdrv_write (snd w1)
                  ((M + km / (SECTOR_SIZE / 4)) mod UINT64_MOD)
                  (blockmap_mem be (opaque bs1) km) 1 in
      if fst w2 <? 0 then Some (-1, n, bs1, snd w2)
      else
        let w3 := bdrv_write (snd w2) 0
                    (header_mem be
                       (vdi_header_to_le be (BDRV.header (opaque bs1)))) 1 in
        if fst w3 <? 0 then Some (-1, n, bs1, snd w3)
        else Some (0, n, bs1, snd w3)
  else
    let w1 := bdrv_write hd
                ((D + le_to_cpu be 4 w * B + sib) mod UINT64_MOD) buf n in
    if fst w1 <? 0 then Some (-1, n, bs, snd w1) else Some (0, n, bs, snd w1).
Proof.
  intros Hg Hr Hnth. cbv zeta.
  destruct (geometry_ok_facts bs Hg) as (HB & Hsz & _).
  unfold vdi_write_block, chunk_sectors.
  destruct (Z.eqb_spec (BDRV.block_sectors (opaque bs)) 0) as [E|_]; [lia|].
  rewrite Hnth.
  destruct (le_to_cpu be 4 w =? VDI_UNALLOCATED).
  - cbn [BDRV.block_size BDRV.block_sectors set_header set_blockmap].
    destruct (Z.ltb_spec (BDRV.block_size (opaque bs))
                (BDRV.block_sectors (opaque bs) * SECTOR_SIZE)) as [E|_]; [lia|].
    set (s1 := set_header _ _).
    assert (Hr1 : header_in_range (BDRV.header s1) = true)
      by (apply header_in_range_set_blocks_allocated, Hr).
    change (allocate be bs
              (Z.to_nat (sector_num / BDRV.block_sectors (opaque bs))))
      with (set_opaque bs s1).
    cbn [opaque set_opaque].
    destruct (bdrv_write hd _ _ _) as [r1 h1]. cbn [fst snd].
    destruct (r1 <? 0); [reflexivity|].
    destruct (bdrv_write h1 _ _ _) as [r2 h2]. cbn [fst snd].
    destruct (r2 <? 0); [reflexivity|].
    cbn [BDRV.header set_header].
    destruct (bdrv_write h2 _ _ _) as [r3 h3]. cbn [fst snd].
    pose proof (set_header_roundtrip be s1 Hr1) as Hrt.
    cbn [BDRV.header set_header] in Hrt. rewrite Hrt.
    destruct (r3 <? 0); reflexivity.
  - destruct (bdrv_write hd _ _ _) as [r1 h1]. cbn [fst snd].
    destruct (r1 <? 0); reflexivity.
Qed.











(** ** The asynchronous read path against the synchronous one *)

(** The request [vdi_aio_read_cb] prepares for the sectors that follow the
    ones handled so far. *)
Lemma vdi_aio_read_cb_eq (be : bool) (bs : BlockDriverState)
    (sn0 : Z) (b0 : list byte) (nb0 n0 bme : Z) (bb : option (list byte))
    (st : AIO.aio_state) (F : list byte) (w : Z) (submit : bool) :
  let sn := sn0 + n0 in
  let nb := nb0 - n0 in
  let len0 := Z.to_nat (n0 * SECTOR_SIZE) in
  let buf := skipn len0 b0 in
  image_ok be bs = true ->
  BDRV.block_size (opaque bs) <= INT_MAX ->
  0 <= n0 <= BDRV.block_sectors (opaque bs) ->
  0 <= sn < total_sectors bs -> 0 < nb <= INT_MAX ->
  nth_error (BDRV.blockmap (opaque bs))
            (Z.to_nat (sn / BDRV.block_sectors (opaque bs))) = Some w ->
  let s := opaque bs in
  let B := BDRV.block_sectors s in
  let D := offset_data (BDRV.header s) / SECTOR_SIZE in
  let n := chunk_sectors bs sn nb in
  vdi_aio_read_cb be bs
    {| AIORead.acb :=
         {| AIO.sector_num := sn0; AIO.buf := b0; AIO.nb_sectors := nb0;
            AIO.n_sectors := n0; AIO.blockmap_entry := bme;
            AIO.block_buffer := bb; AIO.state := st |};
       AIORead.filled := F; AIORead.bh := false |} 0 submit true
  = if le_to_cpu be 4 w =? VDI_UNALLOCATED then
      Some ({| AIORead.acb :=
                 {| AIO.sector_num := sn;
                    AIO.buf := memset0 buf (n * SECTOR_SIZE);
                    AIO.nb_sectors := nb; AIO.n_sectors := n;
                    AIO.blockmap_entry := bme; AIO.block_buffer := bb;
                    AIO.state := st |};
               AIORead.filled := F ++ firstn len0 b0;
               AIORead.bh := true |}, AIORead.Scheduled)
    else
      Some ({| AIORead.acb :=
                 {| AIO.sector_num := sn; AIO.buf := buf;
                    AIO.nb_sectors := nb; AIO.n_sectors := n;
                    AIO.blockmap_entry := bme; AIO.block_buffer := bb;
                    AIO.state := st |};
               AIORead.filled := F ++ firstn len0 b0;
               AIORead.bh := false |},
            if submit
            then AIORead.Submitted
                   ((D + le_to_cpu be 4 w * B + sn mod B) mod UINT64_MOD) n
            else AIORead.Done 0).
Proof.
  cbv zeta. intros Hok Hsz Hn0 Hsn Hnb Hnth.
  destruct (image_ok_facts be bs Hok) as (Hg & _ & HL & _).
  destruct (geometry_ok_facts bs Hg) as (HB & Hbsz & Htot).
  unfold vdi_aio_read_cb, chunk_sectors, set_request. cbv zeta.
  cbn [AIORead.acb AIORead.filled AIORead.bh AIO.sector_num AIO.buf
       AIO.nb_sectors AIO.n_sectors AIO.blockmap_entry AIO.block_buffer
       AIO.state].
  change (0 <? 0) with false. cbv iota.
  set (sn := sn0 + n0) in *. set (nb := nb0 - n0) in *.
  set (B := BDRV.block_sectors (opaque bs)) in *.
  unfold INT_MAX in *.
  assert (Hi1 : int_ok nb = true).
  { unfold int_ok, INT_MIN, INT_MAX. apply andb_true_intro.
    split; [apply Z.leb_le | apply Z.leb_le]; lia. }
  rewrite Hi1. cbn [negb].
  destruct (Z.eqb_spec nb 0) as [E0|_]; [lia|].
  assert (Hi2 : int_ok (n0 * SECTOR_SIZE) = true).
  { unfold int_ok, INT_MIN, INT_MAX, SECTOR_SIZE in *. apply andb_true_intro.
    split; apply Z.leb_le; lia. }
  rewrite Hi2. cbn [negb].
  destruct (Z.ltb_spec n0 0) as [E1|_]; [lia|].
  destruct (Z.ltb_spec INT64_MAX sn) as [E2|_].
  { unfold INT64_MAX, UINT32_MOD, SECTOR_SIZE in *. nia. }
  cbn [orb].
  destruct (Z.eqb_spec B 0) as [E3|_]; [lia|].
  rewrite Z.quot_div_nonneg, Z.rem_mod_nonneg by lia.
  pose proof (Z.mod_pos_bound sn B ltac:(lia)) as Hsib.
  assert (Hq : 0 <= sn / B < UINT32_MOD).
  { split; [apply Z.div_pos; lia|].
    apply Z.div_lt_upper_bound; [lia|]. nia. }
  rewrite (Z.mod_small (sn / B)) by exact Hq.
  rewrite (Z.mod_small (sn mod B)) by lia.
  rewrite (Z.mod_small (B - sn mod B)) by lia.
  rewrite (Z.mod_small nb) by (unfold UINT32_MOD; lia).
  rewrite Hnth.
  set (n := if B - sn mod B >? nb then nb else B - sn mod B).
  assert (Hn : 1 <= n <= B).
  { unfold n. destruct (Z.gtb_spec (B - sn mod B) nb); lia. }
  rewrite (to_int_small n) by (unfold INT_MAX, SECTOR_SIZE in *; lia).
  destruct (le_to_cpu be 4 w =? VDI_UNALLOCATED);
    [|destruct submit; reflexivity].
  rewrite (Z.mod_small (n * SECTOR_SIZE))
    by (unfold UINT32_MOD, SECTOR_SIZE in *; lia).
  reflexivity.
Qed.

Lemma aio_read_agrees (be : bool) (bs : BlockDriverState) (err : Z)
    (k : nat) :
  image_ok be bs = true -> BDRV.block_size (opaque bs) <= INT_MAX ->
  (err <? 0) = true ->
  forall (fs : nat) (hd : Host) (sn0 : Z) (b0 : list byte) (nb0 n0 bme : Z)
         (bb : option (list byte)) (st : AIO.aio_state) (F : list byte)
         (bhv : bool) (e : AIORead.event),
    let sn := sn0 + n0 in
    let nb := nb0 - n0 in
    let len0 := Z.to_nat (n0 * SECTOR_SIZE) in
    (e = AIORead.Completion 0 /\ bhv = false) \/ e = AIORead.BottomHalf ->
    0 <= n0 <= BDRV.block_sectors (opaque bs) ->
    0 <= sn -> 0 <= nb <= INT_MAX -> sn + nb <= total_sectors bs ->
    (Z.to_nat nb <= k)%nat -> (k <= fs)%nat ->
    aio_read_run be err (S k) bs
      {| AIORead.acb :=
           {| AIO.sector_num := sn0; AIO.buf := b0; AIO.nb_sectors := nb0;
              AIO.n_sectors := n0; AIO.blockmap_entry := bme;
              AIO.block_buffer := bb; AIO.state := st |};
         AIORead.filled := F; AIORead.bh := bhv |} hd e true true
    = match vdi_read_loop be fs bs hd sn (skipn len0 b0) nb with
      | Some (r, rest, hd') =>
        Some (if r <? 0 then err else r, F ++ firstn len0 b0 ++ rest, hd')
      | None => None
      end.
Proof.
  intros Hok Hsz Herr.
  destruct (image_ok_facts be bs Hok) as (Hg & _ & _ & _).
  destruct (geometry_ok_facts bs Hg) as (HB & _).
  induction k as [|k IH];
    intros fs hd sn0 b0 nb0 n0 bme bb st F bhv e; cbv zeta;
    intros He Hn0 Hsn Hnb Hend Hk Hfs.
  all: assert (Hstep :
    match e with
    | AIORead.Completion ret =>
      vdi_aio_read_cb be bs
        {| AIORead.acb :=
             {| AIO.sector_num := sn0; AIO.buf := b0; AIO.nb_sectors := nb0;
                AIO.n_sectors := n0; AIO.blockmap_entry := bme;
                AIO.block_buffer := bb; AIO.state := st |};
           AIORead.filled := F; AIORead.bh := bhv |} ret true true
    | AIORead.BottomHalf =>
      vdi_aio_read_bh be bs
        {| AIORead.acb :=
             {| AIO.sector_num := sn0; AIO.buf := b0; AIO.nb_sectors := nb0;
                AIO.n_sectors := n0; AIO.blockmap_entry := bme;
                AIO.block_buffer := bb; AIO.state := st |};
           AIORead.filled := F; AIORead.bh := bhv |} true true
    end
    = vdi_aio_read_cb be bs
        {| AIORead.acb :=
             {| AIO.sector_num := sn0; AIO.buf := b0; AIO.nb_sectors := nb0;
                AIO.n_sectors := n0; AIO.blockmap_entry := bme;
                AIO.block_buffer := bb; AIO.state := st |};
           AIORead.filled := F; AIORead.bh := false |} 0 true true)
    by (destruct He as [[-> ->] | ->]; reflexivity).
  all: assert (Hdone : nb0 - n0 = 0 ->
    vdi_aio_read_cb be bs
        {| AIORead.acb :=
             {| AIO.sector_num := sn0; AIO.buf := b0; AIO.nb_sectors := nb0;
                AIO.n_sectors := n0; AIO.blockmap_entry := bme;
                AIO.block_buffer := bb; AIO.state := st |};
           AIORead.filled := F; AIORead.bh := false |} 0 true true
    = Some ({| AIORead.acb :=
                 {| AIO.sector_num := sn0; AIO.buf := b0;
                    AIO.nb_sectors := nb0 - n0;
                    AIO.n_sectors := n0; AIO.blockmap_entry := bme;
                    AIO.block_buffer := bb; AIO.state := st |};
               AIORead.filled := F; AIORead.bh := false |}, AIORead.Done 0))
    by (intros Hz; unfold vdi_aio_read_cb, set_request;
        cbn [AIORead.acb AIORead.filled AIORead.bh AIO.sector_num AIO.buf
             AIO.nb_sectors AIO.n_sectors AIO.blockmap_entry
             AIO.block_buffer AIO.state];
        rewrite Hz; reflexivity).
  - cbn [aio_read_run]. rewrite Hstep, Hdone by lia.
    cbn [AIORead.acb AIORead.filled AIO.buf].
    assert (Hl : vdi_read_loop be fs bs hd (sn0 + n0)
                   (skipn (Z.to_nat (n0 * SECTOR_SIZE)) b0) (nb0 - n0)
                 = Some (0, skipn (Z.to_nat (n0 * SECTOR_SIZE)) b0, hd)).
    { destruct fs; cbn [vdi_read_loop];
        destruct (Z.gtb_spec (nb0 - n0) 0); try lia; reflexivity. }
    rewrite Hl. now rewrite firstn_skipn.
  - destruct (Z.eq_dec (nb0 - n0) 0) as [Hz|Hnz].
    { cbn [aio_read_run]. rewrite Hstep, Hdone by lia.
      cbn [AIORead.acb AIORead.filled AIO.buf].
      assert (Hl : vdi_read_loop be fs bs hd (sn0 + n0)
                     (skipn (Z.to_nat (n0 * SECTOR_SIZE)) b0) (nb0 - n0)
                   = Some (0, skipn (Z.to_nat (n0 * SECTOR_SIZE)) b0, hd)).
      { destruct fs; cbn [vdi_read_loop];
          destruct (Z.gtb_spec (nb0 - n0) 0); try lia; reflexivity. }
      rewrite Hl. now rewrite firstn_skipn. }
    destruct fs as [|fs]; [lia|].
    destruct (block_index_in_range bs (sn0 + n0) Hg ltac:(lia)) as [w Hw].
    pose proof (chunk_bounds (BDRV.block_sectors (opaque bs)) (sn0 + n0)
                  (nb0 - n0) ltac:(lia) Hsn ltac:(lia)) as Hc.
    cbv zeta in Hc. fold (chunk_sectors bs (sn0 + n0) (nb0 - n0)) in Hc.
    destruct Hc as (Hn1 & Hn2 & Hsib).
    remember (S k) as k1 eqn:Hk1.
    cbn [aio_read_run]. rewrite Hstep.
    pose proof (vdi_aio_read_cb_eq be bs sn0 b0 nb0 n0 bme bb st F w true
                  Hok Hsz Hn0 ltac:(lia) ltac:(lia) Hw) as Hcb.
    cbv zeta iota in Hcb. rewrite Hcb. clear Hcb Hstep Hdone.
    cbn [vdi_read_loop].
    destruct (Z.gtb_spec (nb0 - n0) 0) as [_|E0]; [|lia].
    destruct (Z.ltb_spec (sn0 + n0) (total_sectors bs)) as [_|E1]; [|lia].
    cbn [andb].
    destruct (Z.eqb_spec (BDRV.block_sectors (opaque bs)) 0) as [E2|_]; [lia|].
    rewrite Hw.
    fold (chunk_sectors bs (sn0 + n0) (nb0 - n0)).
    set (n := chunk_sectors bs (sn0 + n0) (nb0 - n0)) in *.
    subst k1.
    destruct (le_to_cpu be 4 w =? VDI_UNALLOCATED).
    + cbv beta iota. change (0 <? 0) with false. cbv iota.
      rewrite (IH fs hd (sn0 + n0) _ (nb0 - n0) n bme bb st _ true
                 AIORead.BottomHalf ltac:(now right) ltac:(lia) ltac:(lia)
                 ltac:(lia) ltac:(lia) ltac:(lia) ltac:(lia)).
      destruct (vdi_read_loop be fs bs hd _ _ _) as [[[r rest] hd']|];
        [|reflexivity].
      now rewrite <- !app_assoc.
    + unfold bdrv_read at 1 2. destruct (next_fault hd).
      * cbv beta iota. change (-1 <? 0) with true. cbv iota.
        unfold set_request.
        cbn [aio_read_run AIORead.acb AIORead.filled AIORead.bh
             AIO.sector_num AIO.buf AIO.nb_sectors AIO.n_sectors
             AIO.blockmap_entry AIO.block_buffer AIO.state].
        unfold vdi_aio_read_cb. rewrite Herr. cbv iota.
        cbn [AIORead.acb AIORead.filled AIO.buf]. now rewrite <- app_assoc.
      * cbv beta iota. change (0 <? 0) with false. cbv iota.
        unfold set_request.
        cbn [AIORead.acb AIORead.filled AIORead.bh
             AIO.sector_num AIO.buf AIO.nb_sectors AIO.n_sectors
             AIO.blockmap_entry AIO.block_buffer AIO.state].
        rewrite (IH fs _ (sn0 + n0) _ (nb0 - n0) n bme bb st _ false
                   (AIORead.Completion 0) ltac:(now left) ltac:(lia)
                   ltac:(lia) ltac:(lia) ltac:(lia) ltac:(lia) ltac:(lia)).
        destruct (vdi_read_loop be fs bs _ _ _ _) as [[[r rest] hd']|];
          [|reflexivity].
        now rewrite <- !app_assoc.
Qed.

(** X16: for a request inside the image, [vdi_aio_readv], when the
    block layer accepts every read and a bottom half is always available,
    fills the buffer and leaves the file as [vdi_read] does.  It completes
    with 0 exactly when [vdi_read] returns 0; when a request to the file
    fails, [vdi_read] returns -1 and the asynchronous request completes
    with the negative value [err] that the block layer has for the
    failure. *)
Theorem vdi_aio_readv_agrees (be : bool) (bs : BlockDriverState) (hd : Host)
    (sector_num : Z) (buf : list byte) (nb_sectors err : Z) :
  image_ok be bs = true -> BDRV.block_size (opaque bs) <= INT_MAX ->
  0 <= sector_num -> 0 <= nb_sectors <= INT_MAX ->
  sector_num + nb_sectors <= total_sectors bs -> err < 0 ->
  exists r r' out hd',
    vdi_read be bs hd sector_num buf nb_sectors = Some (r, out, hd') /\
    vdi_aio_readv be bs hd sector_num buf nb_sectors false true true err
    = Some (r', out, hd') /\
    (r = 0 /\ r' = 0 \/ r = -1 /\ r' = err).
Proof.
  intros Hok Hsz Hsn Hnb Hend Herr. apply Z.ltb_lt in Herr.
  destruct (image_ok_facts be bs Hok) as (Hg & _ & _ & _).
  destruct (geometry_ok_facts bs Hg) as (HB & _).
  unfold vdi_aio_readv, vdi_aio_setup, vdi_read.
  destruct (Z.ltb_spec sector_num 0); [lia|].
  rewrite (aio_read_agrees be bs err (Z.to_nat nb_sectors) Hok Hsz Herr
             (Z.to_nat nb_sectors) hd sector_num buf nb_sectors 0
             VDI_UNALLOCATED None AIO.aio_state_normal [] false
             (AIORead.Completion 0) ltac:(now left) ltac:(lia) ltac:(lia)
             ltac:(lia) ltac:(lia) ltac:(lia) ltac:(lia)).
  rewrite Z.add_0_r, Z.sub_0_r. cbn [Z.mul Z.to_nat skipn firstn app].
  destruct (vdi_read_loop_outcome be bs (Z.to_nat nb_sectors) Hg hd
              sector_num buf nb_sectors ltac:(lia) Hend ltac:(lia))
    as (r & out & hd' & reqs & Hrun & _ & _ & Hret & _).
  rewrite Hrun. exists r, (if r <? 0 then err else r), out, hd'.
  split; [reflexivity|]. split; [reflexivity|].
  rewrite Hret. destruct (existsb _ _); [now right | now left].
Qed.

Lemma vdi_aio_readv_agrees_witness :
  let bs := two_blocks in
  let hd := faulty_host (fresh_file false 128) [false; true] in
  let buf := repeat Byte.xff 1536 in
  let err := - EIO in
  image_ok false bs = true /\ BDRV.block_size (opaque bs) <= INT_MAX /\
  0 <= 2047 /\ 0 <= 3 <= INT_MAX /\ 2047 + 3 <= total_sectors bs /\
  err < 0 /\
  exists r r' out hd',
    vdi_read false bs hd 2047 buf 3 = Some (r, out, hd') /\
    vdi_aio_readv false bs hd 2047 buf 3 false true true err
    = Some (r', out, hd') /\
    (r = 0 /\ r' = 0 \/ r = -1 /\ r' = err).
Proof.
  intros bs hd buf err.
  assert (Hok : image_ok false bs = true) by (vm_compute; reflexivity).
  assert (Hsz : BDRV.block_size (opaque bs) <= INT_MAX)
    by (vm_compute; congruence).
  assert (Hnb : 0 <= 3 <= INT_MAX) by (vm_compute; split; congruence).
  assert (Hend : 2047 + 3 <= total_sectors bs) by (vm_compute; congruence).
  assert (Herr : err < 0) by reflexivity.
  split; [exact Hok|]. split; [exact Hsz|]. split; [lia|]. split; [exact Hnb|].
  split; [exact Hend|]. split; [exact Herr|].
  exact (vdi_aio_readv_agrees false bs hd 2047 buf 3 err Hok Hsz ltac:(lia)
           Hnb Hend Herr).
Defined.
(** ** The header sector after a write *)

Lemma sector0_disk_store_far (d : Z -> byte) (off : Z) (src : list byte)
    (n : Z) :
  512 <= off -> disk_bytes (disk_store d off src n) 0 512 = disk_bytes d 0 512.
Proof.
  intros H. unfold disk_bytes. apply map_ext_in. intros i Hi.
  apply in_seq in Hi. unfold disk_store.
  rewrite in_range_false by lia. reflexivity.
Qed.

Lemma sector0_disk_store_0 (d : Z -> byte) (src : list byte) :
  List.length src = 512%nat ->
  disk_bytes (disk_store d (0 * SECTOR_SIZE) src (1 * SECTOR_SIZE)) 0 512
  = src.
Proof.
  intros H. apply nth_ext with (d := Byte.x00) (d' := Byte.x00).
  - now rewrite length_disk_bytes.
  - intros i Hi. rewrite length_disk_bytes in Hi.
    rewrite nth_disk_bytes by exact Hi. unfold disk_store, SECTOR_SIZE.
    rewrite in_range_true by lia. f_equal. lia.
Qed.

Lemma header_wf_allocate (be : bool) (bs : BlockDriverState) (i : nat) :
  header_wf (BDRV.header (opaque bs)) = true ->
  header_wf (BDRV.header (opaque (allocate be bs i))) = true.
Proof.
  unfold header_wf. intros H.
  repeat match goal with
         | H : _ && _ = true |- _ => apply andb_prop in H; destruct H
         end.
  repeat match goal with
         | |- _ && _ = true => apply andb_true_intro; split
         end; try assumption.
  now apply header_in_range_allocate.
Qed.

Lemma vdi_write_block_header_on_disk (be : bool) (bs : BlockDriverState)
    (hd : Host) (sector_num : Z) (buf : list byte) (nb_sectors n : Z)
    (bs' : BlockDriverState) (hd' : Host) :
  data_inv be bs -> header_wf (BDRV.header (opaque bs)) = true ->
  0 <= sector_num < total_sectors bs ->
  header_on_disk be bs hd ->
  vdi_write_block be bs hd sector_num buf nb_sectors = Some (0, n, bs', hd') ->
  header_on_disk be bs' hd' /\
  header_wf (BDRV.header (opaque bs')) = true.
Proof.
  intros Hinv Hwf Hsn Hdisk Hrun.
  pose proof (data_inv_facts be bs Hinv) as Hf. cbv zeta in Hf.
  destruct Hf as (Hg & Hr & HB & _ & _ & _ & _ & HM & HD & HD32).
  destruct Hinv as (Hok & Hlay & Hent).
  destruct (block_index_in_range bs sector_num Hg Hsn) as [w Hw].
  pose proof (vdi_write_block_cases be bs hd sector_num buf nb_sectors w
                Hg Hr Hw) as Hc.
  cbv zeta in Hc. rewrite Hc in Hrun. clear Hc.
  destruct (Z.eqb_spec (le_to_cpu be 4 w) VDI_UNALLOCATED) as [Hun|Hal].
  - destruct (bdrv_write hd _ _ _) as [r1 h1]. cbn [fst snd] in Hrun.
    destruct (r1 <? 0); [discriminate|].
    destruct (bdrv_write h1 _ _ _) as [r2 h2]. cbn [fst snd] in Hrun.
    destruct (r2 <? 0); [discriminate|].
    unfold bdrv_write in Hrun. destruct (next_fault h2); cbn [fst snd] in Hrun.
    { change (-1 <? 0) with true in Hrun. cbv iota in Hrun. discriminate. }
    change (0 <? 0) with false in Hrun. cbv iota in Hrun.
    injection Hrun as <- <- <-.
    set (bs1 := allocate be bs _).
    assert (Hwf1 : header_wf (BDRV.header (opaque bs1)) = true)
      by now apply header_wf_allocate.
    split; [|exact Hwf1].
    unfold header_on_disk, sector0. cbn [disk].
    rewrite sector0_disk_store_0 by apply length_header_mem.
    rewrite <- (app_nil_r (header_mem be _)).
    rewrite header_of_mem_mem by now apply header_wf_to_le.
    apply header_roundtrip. now apply header_wf_in_range.
  - unfold bdrv_write in Hrun. destruct (next_fault hd); cbn [fst snd] in Hrun.
    { change (-1 <? 0) with true in Hrun. cbv iota in Hrun. discriminate. }
    change (0 <? 0) with false in Hrun. cbv iota in Hrun.
    injection Hrun as <- <- <-.
    split; [|exact Hwf].
    unfold header_on_disk, sector0 in *. cbn [disk].
    rewrite sector0_disk_store_far; [exact Hdisk|].
    destruct (Hent (Z.to_nat (sector_num / BDRV.block_sectors (opaque bs)))
                (le_to_cpu be 4 w)) as [He _].
    { unfold block_entry_at. now rewrite Hw. }
    { exact Hal. }
    destruct (image_ok_facts be bs Hok) as (_ & _ & HL & Hcnt).
    pose proof (count_allocated_bounds be (BDRV.blockmap (opaque bs))) as Hcb.
    pose proof (Z.mod_pos_bound sector_num (BDRV.block_sectors (opaque bs))
                  ltac:(lia)) as Hsib.
    assert (0 <= le_to_cpu be 4 w * BDRV.block_sectors (opaque bs)) by nia.
    assert (0 <= (Z.of_nat (List.length (BDRV.blockmap (opaque bs))) + 127)
                 / 128) by (apply Z.div_pos; lia).
    rewrite offset_no_wrap;
      [ | unfold SECTOR_SIZE; lia | unfold UINT32_MOD in *; lia | lia | lia ].
    unfold SECTOR_SIZE in *. lia.
Qed.

Lemma vdi_write_loop_header_on_disk (be : bool) (fuel : nat) :
  forall (bs : BlockDriverState) (hd : Host) (sector_num : Z)
         (buf : list byte) (nb_sectors : Z) (bs' : BlockDriverState)
         (hd' : Host),
    data_inv be bs -> header_wf (BDRV.header (opaque bs)) = true ->
    0 <= sector_num -> header_on_disk be bs hd ->
    vdi_write_loop be fuel bs hd sector_num buf nb_sectors
    = Some (0, bs', hd') ->
    header_on_disk be bs' hd' /\
    header_wf (BDRV.header (opaque bs')) = true.
Proof.
  induction fuel as [|fuel IH];
    intros bs hd sector_num buf nb_sectors bs' hd' Hinv Hwf Hsn Hdisk Hrun.
  - cbn [vdi_write_loop] in Hrun.
    destruct ((nb_sectors >? 0) && (sector_num <? total_sectors bs));
      [discriminate|]. injection Hrun as <- <-. auto.
  - cbn [vdi_write_loop] in Hrun.
    destruct (Z.gtb_spec nb_sectors 0) as [Hnb|Hnb]; cbn [andb] in Hrun.
    2:{ injection Hrun as <- <-. auto. }
    destruct (Z.ltb_spec sector_num (total_sectors bs)) as [Hlt|Hge].
    2:{ injection Hrun as <- <-. auto. }
    destruct (vdi_write_block be bs hd sector_num buf nb_sectors)
      as [[[[r1 n] bs1] hd1]|] eqn:Hblk; [|discriminate].
    destruct (vdi_write_block_data_inv be bs hd sector_num buf nb_sectors
                r1 n bs1 hd1 Hinv ltac:(lia) Hblk) as (Hinv1 & _).
    destruct (vdi_write_block_entries be bs hd sector_num buf nb_sectors
                r1 n bs1 hd1 (proj1 Hinv) ltac:(lia) Hblk)
      as (Hn & Hret & _).
    destruct (image_ok_facts be bs (proj1 Hinv)) as (Hg & _).
    destruct (geometry_ok_facts bs Hg) as (HB & _).
    pose proof (chunk_bounds (BDRV.block_sectors (opaque bs)) sector_num
                  nb_sectors ltac:(lia) Hsn ltac:(lia)) as Hc.
    cbv zeta in Hc. fold (chunk_sectors bs sector_num nb_sectors) in Hc.
    rewrite <- Hn in Hc. destruct Hc as (Hn1 & _).
    destruct Hret as [-> | ->].
    + change (0 <? 0) with false in Hrun. cbv iota in Hrun.
      destruct (vdi_write_block_header_on_disk be bs hd sector_num buf
                  nb_sectors n bs1 hd1 Hinv Hwf ltac:(lia) Hdisk Hblk)
        as (Hdisk1 & Hwf1).
      exact (IH bs1 hd1 (sector_num + n) _ (nb_sectors - n) bs' hd'
                Hinv1 Hwf1 ltac:(lia) Hdisk1 Hrun).
    + change (-1 <? 0) with true in Hrun. cbv iota in Hrun. discriminate.
Qed.

(** X17: if the first sector of the file, read as [vdi_open] reads it,
    is the header in memory, then this is so again after a [vdi_write] that
    returns 0, and the little-endian [blocks_allocated] in the file is the
    one in memory. *)
Theorem header_sector_follows_memory (be : bool) (bs : BlockDriverState)
    (hd : Host) (sector_num : Z) (buf : list byte) (nb_sectors : Z) :
  data_ok be bs = true -> header_wf (BDRV.header (opaque bs)) = true ->
  header_on_disk be bs hd ->
  exists r bs' hd',
    vdi_write be bs hd sector_num buf nb_sectors = Some (r, bs', hd') /\
    (r = 0 ->
     header_on_disk be bs' hd' /\
     blocks_allocated (decode_le (sector0 hd'))
     = blocks_allocated (BDRV.header (opaque bs'))).
Proof.
  intros Hok Hwf Hdisk. apply data_ok_inv in Hok.
  destruct (vdi_write_image_ok be bs hd sector_num buf nb_sectors (proj1 Hok))
    as (r & bs' & hd' & Hrun & _).
  exists r, bs', hd'. split; [exact Hrun|]. intros ->.
  assert (H : header_on_disk be bs' hd').
  { unfold vdi_write in Hrun.
    destruct (Z.ltb_spec sector_num 0) as [Hneg|Hpos]; [discriminate|].
    exact (proj1 (vdi_write_loop_header_on_disk be _ bs hd sector_num buf
                    nb_sectors bs' hd' Hok Hwf Hpos Hdisk Hrun)). }
  split; [exact H|].
  unfold header_on_disk in H. rewrite <- H.
  now destruct (header_scalars_host be (sector0 hd'))
    as (_ & _ & _ & _ & _ & _ & _ & -> & _).
Qed.

Lemma header_sector_follows_memory_witness :
  let bs := fresh_state 128 in
  let hd := host_of (fresh_file true 128) in
  data_ok true bs = true /\ header_wf (BDRV.header (opaque bs)) = true /\
  header_on_disk true bs hd /\
  exists r bs' hd',
    vdi_write true bs hd 2047 (pattern ++ pattern) 2 = Some (r, bs', hd') /\
    (r = 0 ->
     header_on_disk true bs' hd' /\
     blocks_allocated (decode_le (sector0 hd'))
     = blocks_allocated (BDRV.header (opaque bs'))).
Proof.
  intros bs hd.
  assert (Hok : data_ok true bs = true) by (vm_compute; reflexivity).
  assert (Hwf : header_wf (BDRV.header (opaque bs)) = true)
    by (vm_compute; reflexivity).
  assert (Hdisk : header_on_disk true bs hd) by (vm_compute; reflexivity).
  split; [exact Hok|]. split; [exact Hwf|]. split; [exact Hdisk|].
  exact (header_sector_follows_memory true bs hd 2047 (pattern ++ pattern) 2
           Hok Hwf Hdisk).
Defined.

(** ** A read that the block layer refuses *)

Lemma aio_read_refused (be : bool) (bs : BlockDriverState) (err : Z)
    (k : nat) :
  image_ok be bs = true -> BDRV.block_size (opaque bs) <= INT_MAX ->
  forall (hd : Host) (sn0 : Z) (b0 : list byte) (nb0 n0 bme : Z)
         (bb : option (list byte)) (st : AIO.aio_state) (F : list byte)
         (bhv : bool) (e : AIORead.event),
    let sn := sn0 + n0 in
    let nb := nb0 - n0 in
    (e = AIORead.Completion 0 /\ bhv = false) \/ e = AIORead.BottomHalf ->
    0 <= n0 <= BDRV.block_sectors (opaque bs) ->
    0 <= sn -> 0 <= nb <= INT_MAX -> sn + nb <= total_sectors bs ->
    (Z.to_nat nb <= k)%nat ->
    exists out,
      aio_read_run be err (S k) bs
        {| AIORead.acb :=
             {| AIO.sector_num := sn0; AIO.buf := b0; AIO.nb_sectors := nb0;
                AIO.n_sectors := n0; AIO.blockmap_entry := bme;
                AIO.block_buffer := bb; AIO.state := st |};
           AIORead.filled := F; AIORead.bh := bhv |} hd e false true
      = Some (0, out, hd) /\
      (block_entry be bs sn <> Some VDI_UNALLOCATED -> out = F ++ b0).
Proof.
  intros Hok Hsz.
  destruct (image_ok_facts be bs Hok) as (Hg & _ & _ & _).
  destruct (geometry_ok_facts bs Hg) as (HB & _).
  induction k as [|k IH];
    intros hd sn0 b0 nb0 n0 bme bb st F bhv e; cbv zeta;
    intros He Hn0 Hsn Hnb Hend Hk.
  all: assert (Hstep :
    match e with
    | AIORead.Completion ret =>
      vdi_aio_read_cb be bs
        {| AIORead.acb :=
             {| AIO.sector_num := sn0; AIO.buf := b0; AIO.nb_sectors := nb0;
                AIO.n_sectors := n0; AIO.blockmap_entry := bme;
                AIO.block_buffer := bb; AIO.state := st |};
           AIORead.filled := F; AIORead.bh := bhv |} ret false true
    | AIORead.BottomHalf =>
      vdi_aio_read_bh be bs
        {| AIORead.acb :=
             {| AIO.sector_num := sn0; AIO.buf := b0; AIO.nb_sectors := nb0;
                AIO.n_sectors := n0; AIO.blockmap_entry := bme;
                AIO.block_buffer := bb; AIO.state := st |};
           AIORead.filled := F; AIORead.bh := bhv |} false true
    end
    = vdi_aio_read_cb be bs
        {| AIORead.acb :=
             {| AIO.sector_num := sn0; AIO.buf := b0; AIO.nb_sectors := nb0;
                AIO.n_sectors := n0; AIO.blockmap_entry := bme;
                AIO.block_buffer := bb; AIO.state := st |};
           AIORead.filled := F; AIORead.bh := false |} 0 false true)
    by (destruct He as [[-> ->] | ->]; reflexivity).
  all: assert (Hdone : nb0 - n0 = 0 ->
    vdi_aio_read_cb be bs
        {| AIORead.acb :=
             {| AIO.sector_num := sn0; AIO.buf := b0; AIO.nb_sectors := nb0;
                AIO.n_sectors := n0; AIO.blockmap_entry := bme;
                AIO.block_buffer := bb; AIO.state := st |};
           AIORead.filled := F; AIORead.bh := false |} 0 false true
    = Some ({| AIORead.acb :=
                 {| AIO.sector_num := sn0; AIO.buf := b0;
                    AIO.nb_sectors := nb0 - n0;
                    AIO.n_sectors := n0; AIO.blockmap_entry := bme;
                    AIO.block_buffer := bb; AIO.state := st |};
               AIORead.filled := F; AIORead.bh := false |}, AIORead.Done 0))
    by (intros Hz; unfold vdi_aio_read_cb, set_request;
        cbn [AIORead.acb AIORead.filled AIORead.bh AIO.sector_num AIO.buf
             AIO.nb_sectors AIO.n_sectors AIO.blockmap_entry
             AIO.block_buffer AIO.state];
        rewrite Hz; reflexivity).
  - cbn [aio_read_run]. rewrite Hstep, Hdone by lia.
    cbn [AIORead.acb AIORead.filled AIO.buf]. eauto.
  - destruct (Z.eq_dec (nb0 - n0) 0) as [Hz|Hnz].
    { cbn [aio_read_run]. rewrite Hstep, Hdone by lia.
      cbn [AIORead.acb AIORead.filled AIO.buf]. eauto. }
    destruct (block_index_in_range bs (sn0 + n0) Hg ltac:(lia)) as [w Hw].
    pose proof (chunk_bounds (BDRV.block_sectors (opaque bs)) (sn0 + n0)
                  (nb0 - n0) ltac:(lia) Hsn ltac:(lia)) as Hc.
    cbv zeta in Hc. fold (chunk_sectors bs (sn0 + n0) (nb0 - n0)) in Hc.
    destruct Hc as (Hn1 & Hn2 & Hsib).
    remember (S k) as k1 eqn:Hk1.
    cbn [aio_read_run]. rewrite Hstep.
    pose proof (vdi_aio_read_cb_eq be bs sn0 b0 nb0 n0 bme bb st F w false
                  Hok Hsz Hn0 ltac:(lia) ltac:(lia) Hw) as Hcb.
    cbv zeta iota in Hcb. rewrite Hcb. clear Hcb Hstep Hdone.
    set (n := chunk_sectors bs (sn0 + n0) (nb0 - n0)) in *.
    subst k1. unfold block_entry, block_entry_at. rewrite Hw. cbn [option_map].
    destruct (Z.eqb_spec (le_to_cpu be 4 w) VDI_UNALLOCATED) as [Hun|Hal].
    + destruct (IH hd (sn0 + n0)
                  (memset0 (skipn (Z.to_nat (n0 * SECTOR_SIZE)) b0)
                           (n * SECTOR_SIZE))
                  (nb0 - n0) n bme bb st
                  (F ++ firstn (Z.to_nat (n0 * SECTOR_SIZE)) b0) true
                  AIORead.BottomHalf ltac:(now right) ltac:(lia) ltac:(lia)
                  ltac:(lia) ltac:(lia) ltac:(lia)) as (out & Hrun & _).
      exists out. split; [exact Hrun|]. intros Hne. now rewrite Hun in Hne.
    + cbv beta iota. cbn [AIORead.acb AIORead.filled AIO.buf].
      exists (F ++ b0). split; [|reflexivity].
      now rewrite <- app_assoc, firstn_skipn.
Qed.

(** X18: when [bdrv_aio_readv] returns no request, a request inside the
    image completes with 0 and the file has not been read; if the block of
    the first sector is allocated, the buffer is the one passed in. *)
Theorem vdi_aio_readv_refused (be : bool) (bs : BlockDriverState) (hd : Host)
    (sector_num : Z) (buf : list byte) (nb_sectors err : Z) :
  image_ok be bs = true -> BDRV.block_size (opaque bs) <= INT_MAX ->
  0 <= sector_num -> 0 <= nb_sectors <= INT_MAX ->
  sector_num + nb_sectors <= total_sectors bs ->
  exists out,
    vdi_aio_readv be bs hd sector_num buf nb_sectors false false true err
    = Some (0, out, hd) /\
    (block_entry be bs sector_num <> Some VDI_UNALLOCATED -> out = buf).
Proof.
  intros Hok Hsz Hsn Hnb Hend.
  unfold vdi_aio_readv, vdi_aio_setup.
  destruct (aio_read_refused be bs err (Z.to_nat nb_sectors) Hok Hsz
              hd sector_num buf nb_sectors 0
              VDI_UNALLOCATED None AIO.aio_state_normal [] false
              (AIORead.Completion 0) ltac:(now left)
              ltac:(destruct (image_ok_facts be bs Hok) as (Hg & _);
                    destruct (geometry_ok_facts bs Hg) as (HB & _); lia)
              ltac:(lia) ltac:(lia) ltac:(lia) ltac:(lia))
    as (out & Hrun & Hout).
  exists out. split; [exact Hrun|].
  intros Hne. rewrite Z.add_0_r in Hout. exact (Hout Hne).
Qed.

Lemma vdi_aio_readv_refused_witness :
  let bs := two_blocks in
  let hd := host_of (fresh_file false 128) in
  let buf := repeat Byte.xff 1536 in
  image_ok false bs = true /\ BDRV.block_size (opaque bs) <= INT_MAX /\
  0 <= 2047 /\ 0 <= 3 <= INT_MAX /\ 2047 + 3 <= total_sectors bs /\
  block_entry false bs 2047 <> Some VDI_UNALLOCATED /\
  exists out,
    vdi_aio_readv false bs hd 2047 buf 3 false false true (- EIO)
    = Some (0, out, hd) /\
    (block_entry false bs 2047 <> Some VDI_UNALLOCATED -> out = buf).
Proof.
  intros bs hd buf.
  assert (Hok : image_ok false bs = true) by (vm_compute; reflexivity).
  assert (Hsz : BDRV.block_size (opaque bs) <= INT_MAX)
    by (vm_compute; congruence).
  assert (Hnb : 0 <= 3 <= INT_MAX) by (vm_compute; split; congruence).
  assert (Hend : 2047 + 3 <= total_sectors bs) by (vm_compute; congruence).
  split; [exact Hok|]. split; [exact Hsz|]. split; [lia|]. split; [exact Hnb|].
  split; [exact Hend|]. split; [vm_compute; congruence|].
  exact (vdi_aio_readv_refused false bs hd 2047 buf 3 (- EIO) Hok Hsz
           ltac:(lia) Hnb Hend).
Defined.
